(** * nebulaX_exchange: signal aggregation, risk clamp and backtest ledger

    Shallow embedding of the decision core of the trading system:
    - [signals/utils/llm.py]                 ([Llm])
    - [trading_system/technical_analyst.py]  ([TechnicalAnalyst])
    - [trading_system/risk_manager.py]       ([RiskManager])
    - [trading_system/mixgo.py]              ([MixGo])
    - [backtester.py]                        ([Backtester])

    Conventions of the embedding.
    - A Python [float] is idealised as an exact rational ([Q]); equalities
      between amounts are stated with [==].  Rounding error is outside the
      model.
    - A Python [int] is [Z]; [int(x)] on a float truncates toward zero
      ([py_int]); [round(x)] rounds half to even ([py_round]).
    - A [dict] keyed by ticker is a [gmap string _]; a missing key that the
      source indexes with [d[k]] is a [KeyError], kept as an outcome.
    - Objects mutated in place (the portfolio, a decision) are threaded as
      explicit state. *)

From Stdlib Require Import QArith Qround Qabs Lqa Lia ZArith String Ascii List
  DecimalString.
From stdpp Require Import gmap strings list fin_maps.

Local Open Scope Q_scope.

(** ** Numeric prelude *)

Definition Qlt_bool (a b : Q) : bool := negb (Qle_bool b a).

(** Python [min(a, b)]: returns [b] when [b < a], else [a]. *)
Definition py_min (a b : Q) : Q := if Qlt_bool b a then b else a.

(** Python [max(a, b)]: returns [b] when [b > a], else [a]. *)
Definition py_max (a b : Q) : Q := if Qlt_bool a b then b else a.

(** Python [int(x)] for a float [x]: truncation toward zero. *)
Definition py_int (x : Q) : Z := Z.quot (Qnum x) (Zpos (Qden x)).

(** Python [round(x)] for a float [x]: nearest integer, ties to even. *)
Definition py_round (x : Q) : Z :=
  let f := Qfloor x in
  let r := x - inject_Z f in
  if Qlt_bool r (1 # 2) then f
  else if Qlt_bool (1 # 2) r then (f + 1)%Z
  else if Z.even f then f else (f + 1)%Z.

(** Integers printed by an f-string with the [{:,}] format: decimal digits
    grouped in thousands. *)
Fixpoint group_thousands (rev_digits : list ascii) : list ascii :=
  match rev_digits with
  | a :: b :: c :: ((_ :: _) as rest) =>
      a :: b :: c :: ","%char :: group_thousands rest
  | _ => rev_digits
  end.

Definition fmt_thousands (z : Z) : string :=
  let digits :=
    list_ascii_of_string (NilZero.string_of_uint (N.to_uint (Z.abs_N z))) in
  let grouped := string_of_list_ascii (rev (group_thousands (rev digits))) in
  if (z <? 0)%Z then String "-" grouped else grouped.

(** ** signals/data/models.py *)

Module Data.

(** Modelled from the spec: [PriceBar], a row of the price frame returned
    by [get_prices]; [signals/data/models.py] is not part of the sources. *)
Record PriceBar := mkBar {
  timestamp : string;
  open : Q;
  high : Q;
  low : Q;
  close : Q;
  volume : Q
}.

(** A polars frame of price rows, oldest first. *)
Definition frame := list PriceBar.

(** Modelled from the spec: [AnalystSignal], with a [signal] among
    bullish, bearish, neutral and risk_management, a [confidence], a
    structured [reasoning] and an optional integer [max_position_size];
    [signals/data/models.py] is not part of the sources. *)
Record AnalystSignal (R : Type) := mkSignal {
  signal : string;
  confidence : Q;
  reasoning : R;
  max_position_size : option Z
}.
Arguments mkSignal {R}.
Arguments signal {R}.
Arguments confidence {R}.
Arguments reasoning {R}.
Arguments max_position_size {R}.

End Data.

(** ** signals/utils/llm.py and signals/llm/client.py *)

Module Llm.

(** Python values that [_create_default_response] puts in its keyword
    dictionary. *)
Inductive pyval :=
| VNone
| VStr (s : string)
| VFloat (q : Q)
| VInt (z : Z)
| VEmptyDict.

(** The annotation of a pydantic field, as far as
    [_create_default_response] inspects it: [str], [float], [int], a
    [dict] origin, another annotation with [__args__], or anything
    else. *)
Inductive annotation :=
| AnnStr
| AnnFloat
| AnnInt
| AnnDict
| AnnArgs (args : list pyval)
| AnnOther.

(** A pydantic model class: its [model_fields], in declaration order, and
    its constructor from keyword arguments ([None] when validation
    raises). *)
Record pydantic_model (T : Type) := mkModel {
  model_fields : list (string * annotation);
  construct : list (string * pyval) -> option T
}.
Arguments model_fields {T}.
Arguments construct {T}.

Definition default_value (a : annotation) : pyval :=
  match a with
  | AnnStr => VStr "Error in analysis, using default"
  | AnnFloat => VFloat 0
  | AnnInt => VInt 0
  | AnnDict => VEmptyDict
  | AnnArgs (v :: _) => v
  | AnnArgs [] => VNone
  | AnnOther => VNone
  end.

(** [_create_default_response(model_class)]. *)
Definition _create_default_response {T} (model_class : pydantic_model T)
    : option T :=
  let default_values :=
    map (fun '(field_name, a) => (field_name, default_value a))
      (model_fields model_class) in
  construct model_class default_values.

(** What one pass of the retry loop of [call_llm] meets: the provider call
    raises; it returns a falsy result; the parsing block raises; or the
    parsing block returns a validated instance.  The provider and the JSON
    decoding are the environment of the loop. *)
Inductive attempt (T : Type) :=
| call_raises
| result_falsy
| parse_raises
| parsed (model_instance : T).
Arguments call_raises {T}.
Arguments result_falsy {T}.
Arguments parse_raises {T}.
Arguments parsed {T}.

Section CallLlm.
Context {T : Type}.
Variable pydantic : pydantic_model T.
Variable max_retries : nat.
Variable default_factory : option (unit -> option T).
(** The outcome of the attempt with a given index. *)
Variable env : nat -> attempt T.

Definition fallback : option T :=
  match default_factory with
  | Some f => f tt
  | None => _create_default_response pydantic
  end.

(** [for attempt in range(max_retries)], with [remaining] passes left. *)
Fixpoint retry_loop (remaining : nat) (attempt : nat) : option T :=
  match remaining with
  | O => fallback
  | S remaining' =>
    match env attempt with
    | parsed model_instance => Some model_instance
    | parse_raises =>
        if (attempt =? max_retries - 1)%nat then fallback
        else retry_loop remaining' (S attempt)
    | result_falsy => retry_loop remaining' (S attempt)
    | call_raises =>
        if (attempt =? max_retries - 1)%nat then fallback
        else retry_loop remaining' (S attempt)
    end
  end.

(** [call_llm]; [None] when building the fallback itself raises. *)
Definition call_llm : option T := retry_loop max_retries 0%nat.

End CallLlm.

(** [LLMClient.generate_decision]: [max_retries=3], no [default_factory]. *)
Definition generate_decision {T} (output_model : pydantic_model T)
    (env : nat -> attempt T) : option T :=
  call_llm output_model 3 None env.

End Llm.

(** ** trading_system/technical_analyst.py *)

Module TechnicalAnalyst.
Import Data.

(** A float that may be NaN or infinite. *)
Inductive pyfloat :=
| Finite (q : Q)
| NonFinite.

(** The dictionary returned by each sub-strategy. *)
Record StrategySignal (M : Type) := mkStrategy {
  s_signal : string;
  s_confidence : pyfloat;
  s_metrics : M
}.
Arguments mkStrategy {M}.
Arguments s_signal {M}.
Arguments s_confidence {M}.
Arguments s_metrics {M}.

(** The dictionary returned by [_weighted_signal_combination]. *)
Record Combined := mkCombined {
  c_signal : string;
  c_confidence : Q
}.

(** [self.strategy_weights]. *)
Definition strategy_weights (strategy : string) : option Q :=
  if (strategy =? "trend")%string then Some 0.25
  else if (strategy =? "mean_reversion")%string then Some 0.20
  else if (strategy =? "momentum")%string then Some 0.25
  else if (strategy =? "volatility")%string then Some 0.15
  else if (strategy =? "stat_arb")%string then Some 0.15
  else None.

(** [signal_values.get(s, 0)]. *)
Definition signal_values (s : string) : Q :=
  if (s =? "bullish")%string then 1
  else if (s =? "neutral")%string then 0
  else if (s =? "bearish")%string then -1
  else 0.

(** The confidence used for one strategy: the default for NaN and
    infinities, then [max(0.0, min(float(confidence), 1.0))]. *)
Definition clean_confidence (c : pyfloat) : Q :=
  let confidence := match c with Finite q => q | NonFinite => 0.5 end in
  py_max 0 (py_min confidence 1).

(** The loop over [signals.items()]: [(weighted_sum, total_confidence)]. *)
Fixpoint accumulate {M} (signals : list (string * StrategySignal M))
    (weighted_sum total_confidence : Q) : Q * Q :=
  match signals with
  | [] => (weighted_sum, total_confidence)
  | (strategy, sig) :: rest =>
    match strategy_weights strategy with
    | None => accumulate rest weighted_sum total_confidence
    | Some weight =>
      let numeric_signal := signal_values (s_signal sig) in
      let confidence := clean_confidence (s_confidence sig) in
      accumulate rest
        (weighted_sum + numeric_signal * weight * confidence)
        (total_confidence + weight * confidence)
    end
  end.

Definition final_score {M} (signals : list (string * StrategySignal M)) : Q :=
  let '(weighted_sum, total_confidence) := accumulate signals 0 0 in
  if Qlt_bool 0 total_confidence then weighted_sum / total_confidence
  else 0.

(** [_weighted_signal_combination].  Over [Q] the score is never NaN or
    infinite, so the two guards on it never fire. *)
Definition _weighted_signal_combination {M}
    (signals : list (string * StrategySignal M)) : Combined :=
  let score := final_score signals in
  let signal :=
    if Qlt_bool 0.2 score then "bullish"
    else if Qlt_bool score (-0.2) then "bearish"
    else "neutral" in
  let confidence := Qabs score in
  {| c_signal := signal; c_confidence := py_max 0 (py_min confidence 1) |}.

(** [_safe_round]. *)
Definition _safe_round (value : pyfloat) : Z :=
  match value with
  | NonFinite => 50
  | Finite q => py_round q
  end.

Definition times100 (c : pyfloat) : pyfloat :=
  match c with Finite q => Finite (q * 100) | NonFinite => NonFinite end.

Section Analyze.
(** The type of the [metrics] dictionaries. *)
Context {M : Type}.
(** [data_fetcher.get_prices(ticker, start_date, end_date)]; it returns
    an empty frame when there is no data. *)
Variable get_prices : string -> frame.
(** The five sub-strategies; each catches its own exceptions. *)
Variable _calculate_trend_signals : frame -> StrategySignal M.
Variable _calculate_mean_reversion_signals : frame -> StrategySignal M.
Variable _calculate_momentum_signals : frame -> StrategySignal M.
Variable _calculate_volatility_signals : frame -> StrategySignal M.
Variable _calculate_stat_arb_signals : frame -> StrategySignal M.

(** One entry of the [reasoning] of the final signal. *)
Definition report (s : StrategySignal M) : string * Z * M :=
  (s_signal s, _safe_round (times100 (s_confidence s)), s_metrics s).

(** The body of the loop for a ticker with a non-empty frame. *)
Definition analyze_ticker (prices_df : frame)
    : AnalystSignal (list (string * (string * Z * M))) :=
  let trend_signals := _calculate_trend_signals prices_df in
  let mean_reversion_signals :=
    _calculate_mean_reversion_signals prices_df in
  let momentum_signals := _calculate_momentum_signals prices_df in
  let volatility_signals := _calculate_volatility_signals prices_df in
  let stat_arb_signals := _calculate_stat_arb_signals prices_df in
  let combined_signal :=
    _weighted_signal_combination
      [("trend", trend_signals);
       ("mean_reversion", mean_reversion_signals);
       ("momentum", momentum_signals);
       ("volatility", volatility_signals);
       ("stat_arb", stat_arb_signals)] in
  let strategy_signals :=
    [("trend_following", report trend_signals);
     ("mean_reversion", report mean_reversion_signals);
     ("momentum", report momentum_signals);
     ("volatility", report volatility_signals);
     ("statistical_arbitrage", report stat_arb_signals)] in
  let final_confidence :=
    _safe_round (Finite (c_confidence combined_signal * 100)) in
  {| signal := c_signal combined_signal;
     confidence := inject_Z final_confidence;
     reasoning := strategy_signals;
     max_position_size := None |}.

(** [TechnicalAnalystAgent.analyze]: [signals] after the loop over
    [tickers]. *)
Fixpoint analyze_from
    (signals : gmap string (AnalystSignal (list (string * (string * Z * M)))))
    (tickers : list string)
    : gmap string (AnalystSignal (list (string * (string * Z * M)))) :=
  match tickers with
  | [] => signals
  | ticker :: rest =>
    let prices_df := get_prices ticker in
    match prices_df with
    | [] => analyze_from signals rest
    | _ :: _ =>
        analyze_from (<[ticker := analyze_ticker prices_df]> signals) rest
    end
  end.

Definition analyze (tickers : list string)
    : gmap string (AnalystSignal (list (string * (string * Z * M)))) :=
  analyze_from ∅ tickers.

End Analyze.

End TechnicalAnalyst.

(** ** backtester.py *)

Module Backtester.

(** One entry of [portfolio["positions"]]. *)
Record Position := mkPosition {
  long : Z;
  short : Z;
  long_cost_basis : Q;
  short_cost_basis : Q;
  short_margin_used : Q
}.

(** One entry of [portfolio["realized_gains"]]. *)
Record Gains := mkGains {
  gains_long : Q;
  gains_short : Q
}.

Record Portfolio := mkPortfolio {
  cash : Q;
  margin_used : Q;
  margin_requirement : Q;
  positions : gmap string Position;
  realized_gains : gmap string Gains
}.

Definition flat_position : Position := mkPosition 0 0 0 0 0.
Definition no_gains : Gains := mkGains 0 0.

(** The portfolio built by [Backtester.__init__]. *)
Definition init_portfolio (tickers : list string) (initial_capital : Q)
    (initial_margin_requirement : Q) : Portfolio :=
  {| cash := initial_capital;
     margin_used := 0;
     margin_requirement := initial_margin_requirement;
     positions := list_to_map (map (fun t => (t, flat_position)) tickers);
     realized_gains := list_to_map (map (fun t => (t, no_gains)) tickers) |}.

(** Outcome of a call of [_execute_trade]: it returns the executed
    quantity, or a dictionary lookup raises [KeyError]; either way the
    portfolio object is left in some state. *)
Inductive outcome :=
| Ret (p : Portfolio) (executed : Z)
| KeyError (p : Portfolio).

Definition state_of (o : outcome) : Portfolio :=
  match o with Ret p _ => p | KeyError p => p end.

Definition executed_of (o : outcome) : Z :=
  match o with Ret _ q => q | KeyError _ => 0%Z end.

Definition set_position (p : Portfolio) (ticker : string) (pos : Position)
    : Portfolio :=
  {| cash := cash p; margin_used := margin_used p;
     margin_requirement := margin_requirement p;
     positions := <[ticker := pos]> (positions p);
     realized_gains := realized_gains p |}.

Definition set_cash (p : Portfolio) (c : Q) : Portfolio :=
  {| cash := c; margin_used := margin_used p;
     margin_requirement := margin_requirement p;
     positions := positions p;
     realized_gains := realized_gains p |}.

Definition set_margin_used (p : Portfolio) (m : Q) : Portfolio :=
  {| cash := cash p; margin_used := m;
     margin_requirement := margin_requirement p;
     positions := positions p;
     realized_gains := realized_gains p |}.

Definition set_gains (p : Portfolio) (ticker : string) (g : Gains)
    : Portfolio :=
  {| cash := cash p; margin_used := margin_used p;
     margin_requirement := margin_requirement p;
     positions := positions p;
     realized_gains := <[ticker := g]> (realized_gains p) |}.

(** The statements shared by the two arms of [action == "buy"]: a fill of
    [qty] shares at [current_price], with [cost = qty * current_price]. *)
Definition buy_fill (p : Portfolio) (ticker : string) (position : Position)
    (qty : Z) (current_price : Q) : outcome :=
  let cost := inject_Z qty * current_price in
  let old_shares := long position in
  let old_cost_basis := long_cost_basis position in
  let total_shares := (old_shares + qty)%Z in
  let basis :=
    if (0 <? total_shares)%Z then
      (old_cost_basis * inject_Z old_shares + cost) / inject_Z total_shares
    else long_cost_basis position in
  let position' :=
    {| long := (long position + qty)%Z; short := short position;
       long_cost_basis := basis;
       short_cost_basis := short_cost_basis position;
       short_margin_used := short_margin_used position |} in
  Ret (set_cash (set_position p ticker position') (cash p - cost)) qty.

(** The statements shared by the two arms of [action == "short"]. *)
Definition short_fill (p : Portfolio) (ticker : string) (position : Position)
    (qty : Z) (current_price : Q) : outcome :=
  let proceeds := current_price * inject_Z qty in
  let margin_required := proceeds * margin_requirement p in
  let old_short_shares := short position in
  let old_cost_basis := short_cost_basis position in
  let total_shares := (old_short_shares + qty)%Z in
  let basis :=
    if (0 <? total_shares)%Z then
      (old_cost_basis * inject_Z old_short_shares
       + current_price * inject_Z qty) / inject_Z total_shares
    else short_cost_basis position in
  let position' :=
    {| long := long position; short := (short position + qty)%Z;
       long_cost_basis := long_cost_basis position;
       short_cost_basis := basis;
       short_margin_used := short_margin_used position + margin_required |} in
  Ret (set_cash
         (set_margin_used (set_position p ticker position')
            (margin_used p + margin_required))
         (cash p + proceeds - margin_required)) qty.

(** [Backtester._execute_trade].  The callers pass [decision.quantity], a
    Python [int], so [int(quantity)] is the identity. *)
Definition _execute_trade (p : Portfolio) (ticker action : string)
    (quantity : Z) (current_price : Q) : outcome :=
  if (quantity <=? 0)%Z || Qle_bool current_price 0 then Ret p 0
  else
    match positions p !! ticker with
    | None => KeyError p
    | Some position =>
      if (action =? "buy")%string then
        let cost := inject_Z quantity * current_price in
        if Qle_bool cost (cash p) then
          buy_fill p ticker position quantity current_price
        else
          let max_quantity := py_int (cash p / current_price) in
          if (0 <? max_quantity)%Z then
            buy_fill p ticker position max_quantity current_price
          else Ret p 0
      else if (action =? "sell")%string then
        let quantity := Z.min quantity (long position) in
        if (0 <? quantity)%Z then
          let avg_cost_per_share :=
            if (0 <? long position)%Z then long_cost_basis position else 0 in
          let realized_gain :=
            (current_price - avg_cost_per_share) * inject_Z quantity in
          match realized_gains p !! ticker with
          | None => KeyError p
          | Some g =>
            let p1 := set_gains p ticker
              {| gains_long := gains_long g + realized_gain;
                 gains_short := gains_short g |} in
            let long' := (long position - quantity)%Z in
            let position' :=
              {| long := long'; short := short position;
                 long_cost_basis :=
                   if (long' =? 0)%Z then 0 else long_cost_basis position;
                 short_cost_basis := short_cost_basis position;
                 short_margin_used := short_margin_used position |} in
            Ret (set_cash (set_position p1 ticker position')
                   (cash p + inject_Z quantity * current_price)) quantity
          end
        else Ret p 0
      else if (action =? "short")%string then
        let proceeds := current_price * inject_Z quantity in
        let margin_required := proceeds * margin_requirement p in
        if Qle_bool margin_required (cash p) then
          short_fill p ticker position quantity current_price
        else
          let margin_ratio := margin_requirement p in
          let max_quantity :=
            if Qlt_bool 0 margin_ratio
            then py_int (cash p / (current_price * margin_ratio))
            else 0%Z in
          if (0 <? max_quantity)%Z then
            short_fill p ticker position max_quantity current_price
          else Ret p 0
      else if (action =? "cover")%string then
        let quantity := Z.min quantity (short position) in
        if (0 <? quantity)%Z then
          let cover_cost := inject_Z quantity * current_price in
          let avg_short_price :=
            if (0 <? short position)%Z then short_cost_basis position else 0 in
          let realized_gain :=
            (avg_short_price - current_price) * inject_Z quantity in
          let portion :=
            if (0 <? short position)%Z
            then inject_Z quantity / inject_Z (short position) else 1 in
          let margin_to_release := portion * short_margin_used position in
          let short' := (short position - quantity)%Z in
          let position1 :=
            {| long := long position; short := short';
               long_cost_basis := long_cost_basis position;
               short_cost_basis := short_cost_basis position;
               short_margin_used :=
                 short_margin_used position - margin_to_release |} in
          let p1 :=
            set_cash
              (set_margin_used (set_position p ticker position1)
                 (margin_used p - margin_to_release))
              (cash p + margin_to_release - cover_cost) in
          match realized_gains p !! ticker with
          | None => KeyError p1
          | Some g =>
            let p2 := set_gains p1 ticker
              {| gains_long := gains_long g;
                 gains_short := gains_short g + realized_gain |} in
            let position2 :=
              if (short' =? 0)%Z then
                {| long := long position1; short := short position1;
                   long_cost_basis := long_cost_basis position1;
                   short_cost_basis := 0;
                   short_margin_used := 0 |}
              else position1 in
            Ret (set_position p2 ticker position2) quantity
          end
        else Ret p 0
      else Ret p 0
    end.








(** *** Performance metrics *)







Section PerformanceMetrics.

(** The Sharpe and Sortino statements (square roots and standard
    deviations computed by polars and numpy) are not expressible over
    [Q]; they are a parameter: from the value column to the two ratios,
    or [None] when one of these statements raises. *)
Variable ratios : list Q -> option (Q * Q).


End PerformanceMetrics.

End Backtester.


(** ** trading_system/risk_manager.py *)

Module RiskManager.
Import Data Backtester.

(** The attributes set by [RiskManager.__init__]. *)
Record config := mkConfig {
  max_position_pct : Q;
  max_risk_per_trade : Q;
  max_sector_exposure : Q;
  max_total_equity_exposure : Q;
  kelly_multiplier : Q
}.

Definition default_config : config := mkConfig 0.05 0.02 0.25 1 0.25.

(** [pl.col("close").pct_change()] followed by [drop_nulls()]: the first
    row has no predecessor and is dropped.  Closes are nonzero prices; a
    zero close would make polars produce an infinity or NaN, which [Q]
    does not have. *)
Fixpoint pct_change_from (prev : Q) (closes : list Q) : list Q :=
  match closes with
  | [] => []
  | c :: rest => (c - prev) / prev :: pct_change_from c rest
  end.

Definition pct_change (closes : list Q) : list Q :=
  match closes with
  | [] => []
  | c :: rest => pct_change_from c rest
  end.

Definition Qsum (l : list Q) : Q := fold_right Qplus 0 l.

Definition len (l : list Q) : Q := inject_Z (Z.of_nat (length l)).

(** [np.mean]. *)
Definition mean (l : list Q) : Q := Qsum l / len l.

(** The Kelly formula of the source, from the positive and the negative
    returns: [(p * b - (1 - p)) / b] with [b = avg_win / avg_loss]. *)
Definition kelly_formula (returns_array positive_returns negative_returns
    : list Q) : Q :=
  let win_probability := len positive_returns / len returns_array in
  let avg_win := mean positive_returns in
  let avg_loss := Qabs (mean negative_returns) in
  let win_loss_ratio := avg_win / avg_loss in
  (win_probability * win_loss_ratio - (1 - win_probability))
  / win_loss_ratio.

(** The body of [_calculate_kelly_fraction_polars] from the frame height
    and the rows of [returns_df]. *)
Definition kelly_from_returns (height : nat) (returns_array : list Q)
    (volatility : Q) : Q :=
  if (height <? 30)%nat then 0.02
  else if (length returns_array <? 10)%nat then 0.02
  else
    let positive_returns :=
      List.filter (fun r => Qlt_bool 0 r) returns_array in
    let negative_returns :=
      List.filter (fun r => Qlt_bool r 0) returns_array in
    if (length positive_returns =? 0)%nat
       || (length negative_returns =? 0)%nat then 0.02
    else
      let avg_win := mean positive_returns in
      let avg_loss := Qabs (mean negative_returns) in
      if Qeq_bool avg_loss 0 || Qeq_bool avg_win 0 then 0.02
      else
        let kelly_fraction :=
          kelly_formula returns_array positive_returns negative_returns in
        let kelly_fraction := py_max 0 (py_min kelly_fraction 0.20) in
        if Qlt_bool 0.5 volatility then kelly_fraction * 0.5
        else kelly_fraction.

(** [RiskManager._calculate_kelly_fraction_polars]. *)
Definition _calculate_kelly_fraction_polars (price_df : frame)
    (volatility : Q) : Q :=
  kelly_from_returns (length price_df) (pct_change (map close price_df))
    volatility.

(** Python truthiness of the numbers read from a position. *)
Definition truthy_Z (z : Z) : bool := negb (z =? 0)%Z.
Definition truthy_Q (q : Q) : bool := negb (Qeq_bool q 0).

(** The value added to [positions_value] for one position. *)
Definition position_value (position : Position) (positions_value : Q) : Q :=
  let long_qty := long position in
  let short_qty := short position in
  let long_price := long_cost_basis position in
  let short_price := short_cost_basis position in
  let positions_value :=
    if truthy_Z long_qty && truthy_Q long_price
    then positions_value + inject_Z long_qty * long_price
    else positions_value in
  if truthy_Z short_qty && truthy_Q short_price
  then positions_value + inject_Z short_qty * short_price
  else positions_value.

(** [RiskManager._calculate_portfolio_value]. *)
Definition _calculate_portfolio_value (portfolio : Portfolio) : Q :=
  let cash := cash portfolio in
  let positions_value :=
    map_fold (fun _ position acc => position_value position acc) 0
      (positions portfolio) in
  let total_value := cash + positions_value in
  py_max total_value 10000.

(** The dictionary returned by [get_portfolio_summary]. *)
Record Summary := mkSummary {
  total_value : Q;
  summary_cash : Q;
  cash_pct : Q;
  positions_count : Z;
  long_exposure : Q;
  short_exposure : Q;
  net_exposure : Q;
  gross_exposure : Q;
  largest_position_pct : Q;
  within_risk_limits : bool;
  max_position_limit_pct : Q;
  max_risk_per_trade_pct : Q
}.

(** The running values of the exposure loop. *)
Record exposure := mkExposure {
  e_count : Z;
  e_long : Q;
  e_short : Q;
  e_largest : Q
}.

Definition add_exposure (portfolio_value : Q) (position : Position)
    (e : exposure) : exposure :=
  let long_qty := long position in
  let short_qty := short position in
  let long_price := long_cost_basis position in
  let short_price := short_cost_basis position in
  let e1 :=
    if (0 <? long_qty)%Z || (0 <? short_qty)%Z
    then mkExposure (e_count e + 1) (e_long e) (e_short e) (e_largest e)
    else e in
  let e2 :=
    if truthy_Z long_qty && truthy_Q long_price then
      let long_value := inject_Z long_qty * long_price in
      let position_pct :=
        if Qlt_bool 0 portfolio_value then long_value / portfolio_value
        else 0 in
      mkExposure (e_count e1) (e_long e1 + long_value) (e_short e1)
        (py_max (e_largest e1) position_pct)
    else e1 in
  if truthy_Z short_qty && truthy_Q short_price then
    let short_value := inject_Z short_qty * short_price in
    let position_pct :=
      if Qlt_bool 0 portfolio_value then short_value / portfolio_value
      else 0 in
    mkExposure (e_count e2) (e_long e2) (e_short e2 + short_value)
      (py_max (e_largest e2) position_pct)
  else e2.

(** [RiskManager.get_portfolio_summary]. *)
Definition get_portfolio_summary (self : config) (portfolio : Portfolio)
    : Summary :=
  let portfolio_value := _calculate_portfolio_value portfolio in
  let e :=
    map_fold (fun _ position acc => add_exposure portfolio_value position acc)
      (mkExposure 0 0 0 0) (positions portfolio) in
  {| total_value := portfolio_value;
     summary_cash := cash portfolio;
     cash_pct :=
       if Qlt_bool 0 portfolio_value then cash portfolio / portfolio_value
       else 0;
     positions_count := e_count e;
     long_exposure := e_long e;
     short_exposure := e_short e;
     net_exposure := e_long e - e_short e;
     gross_exposure := e_long e + e_short e;
     largest_position_pct := e_largest e;
     within_risk_limits := Qle_bool (e_largest e) (max_position_pct self);
     max_position_limit_pct := max_position_pct self * 100;
     max_risk_per_trade_pct := max_risk_per_trade self * 100 |}.

(** The two sums named by the specification of the summary. *)
Definition long_cost_value (portfolio : Portfolio) : Q :=
  map_fold (fun _ position acc =>
              inject_Z (long position) * long_cost_basis position + acc)
    0 (positions portfolio).

Definition short_cost_value (portfolio : Portfolio) : Q :=
  map_fold (fun _ position acc =>
              inject_Z (short position) * short_cost_basis position + acc)
    0 (positions portfolio).

End RiskManager.

(** ** trading_system/mixgo.py *)

Module MixGo.
Import Data.

(** [MegaAgentDecision]. *)
Record MegaAgentDecision := mkDecision {
  action : string;
  quantity : Z;
  d_confidence : Q;
  d_reasoning : string
}.

Definition lookup_kw (k : string) (kwargs : list (string * Llm.pyval))
    : option Llm.pyval :=
  snd <$> List.find (fun kv => (fst kv =? k)%string) kwargs.

(** The constructor of [MegaAgentDecision] on keyword arguments: pydantic
    accepts a [str] for the two
    text fields, an [int] for [quantity] and a number for [confidence]. *)
Definition decision_of_kwargs (kwargs : list (string * Llm.pyval))
    : option MegaAgentDecision :=
  match lookup_kw "action" kwargs, lookup_kw "quantity" kwargs,
        lookup_kw "confidence" kwargs, lookup_kw "reasoning" kwargs with
  | Some (Llm.VStr a), Some (Llm.VInt q), Some (Llm.VFloat c),
    Some (Llm.VStr r) => Some (mkDecision a q c r)
  | Some (Llm.VStr a), Some (Llm.VInt q), Some (Llm.VInt c),
    Some (Llm.VStr r) => Some (mkDecision a q (inject_Z c) r)
  | _, _, _, _ => None
  end.

(** The class [MegaAgentDecision] as [call_llm] sees it. *)
Definition MegaAgentDecision_model : Llm.pydantic_model MegaAgentDecision :=
  {| Llm.model_fields :=
       [("action", Llm.AnnStr); ("quantity", Llm.AnnInt);
        ("confidence", Llm.AnnFloat); ("reasoning", Llm.AnnStr)];
     Llm.construct := decision_of_kwargs |}.

(** The decision obtained for one ticker from the reasoning call of
    [MixGoAgent.analyze]. *)
Definition llm_decision (env : nat -> Llm.attempt MegaAgentDecision)
    : option MegaAgentDecision :=
  Llm.generate_decision MegaAgentDecision_model env.

Definition risk_adjustment_note (original_qty max_position_size : Z)
    : string :=
  " [Risk-adjusted from " ++ fmt_thousands original_qty ++ " to "
  ++ fmt_thousands max_position_size
  ++ " shares based on Kelly Criterion and portfolio limits]".

Definition blocked_note : string :=
  " [Position blocked by risk management - insufficient risk budget]".

(** [x or d] on an optional integer. *)
Definition or_int (x : option Z) (d : Z) : Z :=
  match x with
  | Some z => if (z =? 0)%Z then d else z
  | None => d
  end.

(** [all_signals.get("risk_manager", {}).get(ticker)]. *)
Definition get_risk_signal {R}
    (all_signals : gmap string (gmap string (AnalystSignal R)))
    (ticker : string) : option (AnalystSignal R) :=
  match all_signals !! "risk_manager" with
  | Some signals => signals !! ticker
  | None => None
  end.

(** [MixGoAgent._apply_risk_constraints]. *)
Definition _apply_risk_constraints {R} (decision : MegaAgentDecision)
    (ticker : string)
    (all_signals : gmap string (gmap string (AnalystSignal R)))
    : MegaAgentDecision :=
  let risk_signal := get_risk_signal all_signals ticker in
  match risk_signal with
  | None => decision
  | Some risk_signal =>
    if (action decision =? "hold")%string then decision
    else
      let max_position_size := or_int (max_position_size risk_signal) 0 in
      let decision1 :=
        if (max_position_size <? quantity decision)%Z then
          {| action := action decision;
             quantity := max_position_size;
             d_confidence := d_confidence decision;
             d_reasoning :=
               d_reasoning decision
               ++ risk_adjustment_note (quantity decision) max_position_size |}
        else decision in
      if (max_position_size =? 0)%Z then
        {| action := "hold";
           quantity := 0;
           d_confidence := py_min (d_confidence decision1) 30;
           d_reasoning := d_reasoning decision1 ++ blocked_note |}
      else if Qlt_bool (inject_Z (quantity decision1))
                (inject_Z (or_int (Data.max_position_size risk_signal) 1)
                 * 0.5) then
        {| action := action decision1;
           quantity := quantity decision1;
           d_confidence := py_min (d_confidence decision1) 70;
           d_reasoning := d_reasoning decision1 |}
      else decision1
  end.

End MixGo.

(** * Further parts of the sources *)

(** ** backtester.py: valuation, the trading loop, rate-limited fetches *)

Module BacktesterMore.
Import Backtester.

(** The loop of [Backtester._calculate_portfolio_value] over [self.tickers];
    [None] is the [KeyError] of [self.portfolio["positions"][ticker]]. *)
Fixpoint value_from (p : Portfolio) (current_prices : gmap string Q)
    (tickers : list string) (total_value : Q) : option Q :=
  match tickers with
  | [] => Some total_value
  | ticker :: rest =>
    match positions p !! ticker with
    | None => None
    | Some position =>
      let price := default 0 (current_prices !! ticker) in
      if Qlt_bool 0 price then
        let long_value := inject_Z (long position) * price in
        let total_value := total_value + long_value in
        let total_value :=
          if (0 <? short position)%Z
          then total_value
               + inject_Z (short position) * (short_cost_basis position - price)
          else total_value in
        value_from p current_prices rest total_value
      else value_from p current_prices rest total_value
    end
  end.

(** [Backtester._calculate_portfolio_value], with [self.tickers] explicit. *)
Definition _calculate_portfolio_value (tickers : list string) (p : Portfolio)
    (current_prices : gmap string Q) : option Q :=
  value_from p current_prices tickers (cash p).

(** The "Execute trades" loop of [run_backtest] over [decisions.items()]:
    holds and non-positive quantities are skipped, the price is
    [current_prices.get(ticker, 0)], and a [KeyError] ends the loop. *)
Fixpoint execute_decisions (p : Portfolio)
    (decisions : list (string * MixGo.MegaAgentDecision))
    (current_prices : gmap string Q) : outcome :=
  match decisions with
  | [] => Ret p 0
  | (ticker, decision) :: rest =>
    if negb (MixGo.action decision =? "hold")%string
       && (0 <? MixGo.quantity decision)%Z then
      match _execute_trade p ticker (MixGo.action decision)
              (MixGo.quantity decision)
              (default 0 (current_prices !! ticker)) with
      | Ret p' _ => execute_decisions p' rest current_prices
      | KeyError p' => KeyError p'
      end
    else execute_decisions p rest current_prices
  end.

(** What one pass of the loop of [_fetch_with_rate_limit] meets: the call
    returns; it raises a rate-limit error (429 or "throttled"); or it raises
    another error. *)
Inductive fetch_attempt (A : Type) :=
| fetched (result : A)
| rate_limited
| fetch_failed.
Arguments fetched {A}.
Arguments rate_limited {A}.
Arguments fetch_failed {A}.

(** [for attempt in range(max_retries)] of [_fetch_with_rate_limit]; the
    sleeps between attempts are not modelled.  [None] is Python's [None]. *)
Fixpoint fetch_loop {A} (env : nat -> fetch_attempt A) (remaining attempt : nat)
    : option A :=
  match remaining with
  | O => None
  | S remaining' =>
    match env attempt with
    | fetched result => Some result
    | rate_limited => fetch_loop env remaining' (S attempt)
    | fetch_failed => None
    end
  end.

(** [Backtester._fetch_with_rate_limit]: [max_retries = 5]. *)
Definition _fetch_with_rate_limit {A} (env : nat -> fetch_attempt A)
    : option A :=
  fetch_loop env 5 0.

End BacktesterMore.

(** ** risk_manager.py: position sizing, signals, allocation *)

Module RiskManagerMore.
Import Data Backtester RiskManager.

(** [x or d] on a float: [0.0] is falsy. *)
Definition or_float (x d : Q) : Q := if Qeq_bool x 0 then d else x.

(** The dictionary returned by [_calculate_risk_metrics]. *)
Record RiskMetrics := mkRiskMetrics {
  kelly_adjusted : Q;
  max_position_value : Q;
  max_shares_kelly : Z;
  max_shares_risk : Z;
  max_shares_concentration : Z;
  recommended_shares : Z;
  stop_loss_price : Q;
  stop_loss_pct : Q;
  risk_per_share : Q;
  position_risk_pct : Q;
  portfolio_exposure_pct : Q;
  rm_confidence : Q
}.

(** The five inputs of [_calculate_risk_metrics] after its validation
    block. *)
Definition valid_price (current_price : Q) : Q :=
  py_max 0.01 (or_float current_price 100).
Definition valid_volatility (volatility : Q) : Q :=
  py_max 0.01 (or_float volatility 0.15).
Definition valid_kelly (kelly_fraction : Q) : Q :=
  py_max 0 (py_min (or_float kelly_fraction 0.02) 1).
Definition valid_portfolio_value (portfolio_value : Q) : Q :=
  py_max 1000 (or_float portfolio_value 10000).

(** The [try] body of [RiskManager._calculate_risk_metrics]; over [Q] none of
    its statements raises, so the [except] arm is not reached. *)
Definition _calculate_risk_metrics (self : config)
    (current_price volatility atr kelly_fraction portfolio_value : Q)
    : RiskMetrics :=
  let current_price := valid_price current_price in
  let volatility := valid_volatility volatility in
  let atr := py_max 0.01 (or_float atr (current_price * 0.02)) in
  let kelly_fraction := valid_kelly kelly_fraction in
  let portfolio_value := valid_portfolio_value portfolio_value in
  let kelly_adjusted := kelly_fraction * kelly_multiplier self in
  let kelly_position_value := portfolio_value * kelly_adjusted in
  let max_shares_kelly :=
    if Qlt_bool 0 current_price
    then py_int (kelly_position_value / current_price) else 0%Z in
  let risk_per_share := py_max (atr * 2) (current_price * 0.02) in
  let max_risk_value := portfolio_value * max_risk_per_trade self in
  let max_shares_risk :=
    if Qlt_bool 0 risk_per_share
    then py_int (max_risk_value / risk_per_share) else 0%Z in
  let max_position_value := portfolio_value * max_position_pct self in
  let max_shares_concentration :=
    if Qlt_bool 0 current_price
    then py_int (max_position_value / current_price) else 0%Z in
  let recommended_shares :=
    Z.min (Z.min max_shares_kelly max_shares_risk) max_shares_concentration in
  let recommended_shares := Z.max 0 recommended_shares in
  let stop_loss_pct := py_min 0.08 (py_max 0.02 (volatility * 1.5)) in
  let stop_loss_price := current_price * (1 - stop_loss_pct) in
  let position_value := inject_Z recommended_shares * current_price in
  let position_risk := inject_Z recommended_shares * risk_per_share in
  let position_risk_pct :=
    if Qlt_bool 0 portfolio_value then position_risk / portfolio_value
    else 0 in
  let portfolio_exposure_pct :=
    if Qlt_bool 0 portfolio_value then position_value / portfolio_value
    else 0 in
  let data_quality_score := py_min 1 (kelly_fraction * 2) in
  let constraint_score := if (0 <? recommended_shares)%Z then 1 else 0.3 in
  let confidence :=
    py_min 95 (30 + data_quality_score * constraint_score * 65) in
  {| kelly_adjusted := kelly_adjusted;
     max_position_value := max_position_value;
     max_shares_kelly := max_shares_kelly;
     max_shares_risk := max_shares_risk;
     max_shares_concentration := max_shares_concentration;
     recommended_shares := recommended_shares;
     stop_loss_price := stop_loss_price;
     stop_loss_pct := stop_loss_pct;
     risk_per_share := risk_per_share;
     position_risk_pct := position_risk_pct;
     portfolio_exposure_pct := portfolio_exposure_pct;
     rm_confidence := confidence |}.

(** [RiskManager._get_current_price]: the last close, or 100 when the frame
    is empty or the close is not positive. *)
Definition _get_current_price (price_df : frame) : Q :=
  match last price_df with
  | None => 100
  | Some bar => if Qle_bool (close bar) 0 then 100 else close bar
  end.

(** The [reasoning] of a risk signal: the computed metrics, or the note of
    the default signal (whose other entries are constants of the source). *)
Inductive risk_reasoning :=
| Computed (current_price volatility_annual atr_14d kelly_fraction : Q)
    (metrics : RiskMetrics)
| Insufficient (max_position_value : Q).

(** [RiskManager._create_default_signal]. *)
Definition _create_default_signal (self : config) (portfolio_value : Q)
    : AnalystSignal risk_reasoning :=
  let max_position_value := portfolio_value * (max_position_pct self / 2) in
  {| signal := "risk_management";
     confidence := 25;
     reasoning := Insufficient max_position_value;
     max_position_size := Some 0%Z |}.

Section Analyze.
Variable self : config.
(** [_calculate_volatility_polars] and [_calculate_atr_polars] (standard
    deviation, square root and rolling means by polars) are parameters; both
    catch their own exceptions. *)
Variable _calculate_volatility_polars : frame -> Q.
Variable _calculate_atr_polars : frame -> Q.

(** The body of the loop of [analyze] for a non-empty frame. *)
Definition risk_signal (price_df : frame) (portfolio_value : Q)
    : AnalystSignal risk_reasoning :=
  let current_price := _get_current_price price_df in
  let volatility := _calculate_volatility_polars price_df in
  let atr := _calculate_atr_polars price_df in
  let kelly_fraction := _calculate_kelly_fraction_polars price_df volatility in
  let risk_metrics :=
    _calculate_risk_metrics self current_price volatility atr kelly_fraction
      portfolio_value in
  {| signal := "risk_management";
     confidence := rm_confidence risk_metrics;
     reasoning :=
       Computed current_price volatility atr kelly_fraction risk_metrics;
     max_position_size := Some (recommended_shares risk_metrics) |}.

Fixpoint analyze_from (signals : gmap string (AnalystSignal risk_reasoning))
    (tickers : list string) (prices_dict : gmap string frame)
    (portfolio_value : Q) : gmap string (AnalystSignal risk_reasoning) :=
  match tickers with
  | [] => signals
  | ticker :: rest =>
    let price_df := default [] (prices_dict !! ticker) in
    let entry :=
      match price_df with
      | [] => _create_default_signal self portfolio_value
      | _ :: _ => risk_signal price_df portfolio_value
      end in
    analyze_from (<[ticker := entry]> signals) rest prices_dict portfolio_value
  end.

(** [RiskManager.analyze]. *)
Definition analyze (tickers : list string) (prices_dict : gmap string frame)
    (portfolio : Portfolio) : gmap string (AnalystSignal risk_reasoning) :=
  analyze_from ∅ tickers prices_dict (_calculate_portfolio_value portfolio).

End Analyze.

(** One entry of the dictionary returned by
    [optimize_portfolio_allocation]. *)
Record Allocation := mkAllocation {
  allocation_pct : Q;
  allocation_value : Q;
  risk_score : Q;
  original_confidence : Q
}.

Definition is_active (decision : MixGo.MegaAgentDecision) : bool :=
  negb (MixGo.action decision =? "hold")%string
  && (0 <? MixGo.quantity decision)%Z.

Definition risk_score_of (decision : MixGo.MegaAgentDecision) : Q :=
  MixGo.d_confidence decision / 100 * 1.

(** [RiskManager.optimize_portfolio_allocation]; the dictionaries are given
    by their items, in insertion order. *)
Definition optimize_portfolio_allocation (self : config)
    (trading_decisions : list (string * MixGo.MegaAgentDecision))
    (portfolio_value : Q) : list (string * Allocation) :=
  let active_decisions :=
    List.filter (fun td => is_active (snd td)) trading_decisions in
  let total_risk_score :=
    fold_left (fun total td => total + risk_score_of (snd td))
      active_decisions 0 in
  if Qlt_bool 0 total_risk_score then
    map (fun td =>
           let allocation_pct :=
             py_min (risk_score_of (snd td) / total_risk_score)
               (max_position_pct self) in
           (fst td,
            {| allocation_pct := allocation_pct;
               allocation_value := portfolio_value * allocation_pct;
               risk_score := risk_score_of (snd td);
               original_confidence := MixGo.d_confidence (snd td) |}))
      active_decisions
  else [].

End RiskManagerMore.

(** ** mixgo.py: portfolio context and the orchestration *)

Module MixGoMore.
Import Data Backtester MixGo.

(** [MixGoAgent._calculate_portfolio_value]: the class defines the method
    twice and the second definition, modelled here, is the one in effect. *)
Definition _calculate_portfolio_value (portfolio : Portfolio) : Q :=
  let position_value :=
    map_fold (fun _ ticker_pos position_value =>
                let long_value :=
                  inject_Z (long ticker_pos) * long_cost_basis ticker_pos in
                let short_value :=
                  inject_Z (short ticker_pos) * short_cost_basis ticker_pos in
                position_value + (long_value - short_value))
      0 (positions portfolio) in
  cash portfolio + position_value.

(** The dictionary returned by [_calculate_portfolio_exposure]. *)
Record Exposure := mkExposure {
  exp_long : Q;
  exp_short : Q;
  exp_gross : Q;
  exp_net : Q
}.

(** [MixGoAgent._calculate_portfolio_exposure]. *)
Definition _calculate_portfolio_exposure (portfolio : Portfolio) : Exposure :=
  let '(long_exposure, short_exposure) :=
    map_fold (fun _ ticker_pos '(long_exposure, short_exposure) =>
                let long_value :=
                  inject_Z (long ticker_pos) * long_cost_basis ticker_pos in
                let short_value :=
                  inject_Z (short ticker_pos) * short_cost_basis ticker_pos in
                (long_exposure + long_value, short_exposure + short_value))
      (0, 0) (positions portfolio) in
  {| exp_long := long_exposure;
     exp_short := short_exposure;
     exp_gross := long_exposure + short_exposure;
     exp_net := long_exposure - short_exposure |}.

Section Analyze.
(** The type of the [reasoning] of the analysts' signals, and the dump of a
    risk signal into it. *)
Context {R : Type}.
Variable self : RiskManager.config.
Variable dump_risk : RiskManagerMore.risk_reasoning -> R.
Variable _calculate_volatility_polars : frame -> Q.
Variable _calculate_atr_polars : frame -> Q.
(** [data_fetcher.get_prices(ticker, start_date, end_date)]; an exception is
    caught and replaced by an empty frame. *)
Variable get_prices : string -> frame.
(** The signals of the analyst agents, by agent name. *)
Variable agent_signals : gmap string (gmap string (AnalystSignal R)).
(** The attempts met by the reasoning call made for each ticker. *)
Variable llm : string -> nat -> Llm.attempt MegaAgentDecision.

Definition prices_dict (tickers : list string) : gmap string frame :=
  list_to_map (map (fun ticker => (ticker, get_prices ticker)) tickers).

Definition dump_signal (s : AnalystSignal RiskManagerMore.risk_reasoning)
    : AnalystSignal R :=
  {| signal := signal s; confidence := confidence s;
     reasoning := dump_risk (reasoning s);
     max_position_size := max_position_size s |}.

(** [all_signals] after step 1. *)
Definition all_signals (tickers : list string) (portfolio : Portfolio)
    : gmap string (gmap string (AnalystSignal R)) :=
  <["risk_manager" :=
      dump_signal <$>
        RiskManagerMore.analyze self _calculate_volatility_polars
          _calculate_atr_polars tickers (prices_dict tickers) portfolio]>
    agent_signals.

(** Step 3: the loop that fills [decisions]; [None] when the reasoning call
    raises. *)
Fixpoint decide_from (decisions : gmap string MegaAgentDecision)
    (signals : gmap string (gmap string (AnalystSignal R)))
    (tickers : list string) : option (gmap string MegaAgentDecision) :=
  match tickers with
  | [] => Some decisions
  | ticker :: rest =>
    match llm_decision (llm ticker) with
    | None => None
    | Some decision =>
      let decision := _apply_risk_constraints decision ticker signals in
      decide_from (<[ticker := decision]> decisions) signals rest
    end
  end.

(** Step 2 stores every signal under [ticker_signals[ticker]], a dictionary
    with one key per listed ticker: a signal for any other ticker raises
    [KeyError]. *)
Definition organize_ok (signals : gmap string (gmap string (AnalystSignal R)))
    (tickers : list string) : bool :=
  bool_decide
    (map_Forall (fun _ (by_ticker : gmap string (AnalystSignal R)) =>
                   map_Forall (fun ticker _ => ticker ∈ tickers) by_ticker)
       signals).

(** [MixGoAgent.analyze]; step 4 returns a copy of [decisions].  [None] when
    the call raises. *)
Definition analyze (tickers : list string) (portfolio : Portfolio)
    : option (gmap string MegaAgentDecision) :=
  let signals := all_signals tickers portfolio in
  if organize_ok signals tickers then decide_from ∅ signals tickers
  else None.

End Analyze.

End MixGoMore.

(** ** app/services/agent_service.py: portfolio metrics *)

Module AgentService.

(** A position of the request, read with [position.get("long", 0)] and
    [position.get("short", 0)]: quantities of a crypto asset, not
    necessarily whole. *)
Record Holding := mkHolding {
  long_qty : Q;
  short_qty : Q
}.

(** [PortfolioMetrics]. *)
Record PortfolioMetrics := mkMetrics {
  total_value : Q;
  cash : Q;
  cash_pct : Q;
  positions_count : nat;
  long_exposure : Q;
  short_exposure : Q;
  largest_position_pct : Q;
  risk_score : Q;
  diversification_score : Q
}.

(** The running values of the loop over [positions.items()]. *)
Record exposures := mkExposures {
  e_long : Q;
  e_short : Q;
  position_values : list Q
}.

Definition long_value (current_prices : gmap string Q)
    (item : string * Holding) : Q :=
  long_qty (snd item) * default 0 (current_prices !! fst item).

Definition short_value (current_prices : gmap string Q)
    (item : string * Holding) : Q :=
  short_qty (snd item) * default 0 (current_prices !! fst item).

Definition add_position (current_prices : gmap string Q) (acc : exposures)
    (item : string * Holding) : exposures :=
  let long_value := long_value current_prices item in
  let short_value := short_value current_prices item in
  let position_values :=
    if Qlt_bool 0 long_value then position_values acc ++ [long_value]
    else position_values acc in
  let position_values :=
    if Qlt_bool 0 short_value then position_values ++ [short_value]
    else position_values in
  {| e_long := e_long acc + long_value;
     e_short := e_short acc + short_value;
     position_values := position_values |}.

(** [max] of a non-empty list: the first of the largest elements. *)
Definition max_of (first : Q) (rest : list Q) : Q := fold_left py_max rest first.

Definition base_diversification (num_positions : nat) : Q :=
  if (num_positions =? 0)%nat then 0
  else if (num_positions =? 1)%nat then 20
  else if (num_positions <=? 3)%nat then 50
  else if (num_positions <=? 5)%nat then 75
  else 90.

(** [AgentService.calculate_portfolio_metrics], from the cash, the items of
    the positions and the prices returned by [get_batch_prices]. *)
Definition calculate_portfolio_metrics (cash : Q)
    (positions : list (string * Holding)) (current_prices : gmap string Q)
    : PortfolioMetrics :=
  let e :=
    fold_left (add_position current_prices) positions (mkExposures 0 0 []) in
  let long_exposure := e_long e in
  let short_exposure := e_short e in
  let position_values := position_values e in
  let total_value := cash + long_exposure - short_exposure in
  let cash_pct := if Qlt_bool 0 total_value then cash / total_value else 0 in
  let largest_position_pct :=
    match position_values with
    | first :: rest =>
      if Qlt_bool 0 total_value then max_of first rest / total_value else 0
    | [] => 0
    end in
  let concentration_risk := largest_position_pct * 100 in
  let leverage_risk :=
    if Qlt_bool 0 total_value then short_exposure / total_value * 100
    else 0 in
  let risk_score := py_min 100 ((concentration_risk + leverage_risk) / 2) in
  let num_positions :=
    length (List.filter (fun v => Qlt_bool 0 v) position_values) in
  let diversification_score := base_diversification num_positions in
  let diversification_score :=
    if Qlt_bool 0.5 largest_position_pct then diversification_score * 0.5
    else if Qlt_bool 0.3 largest_position_pct
    then diversification_score * 0.75
    else diversification_score in
  {| total_value := total_value;
     cash := cash;
     cash_pct := cash_pct;
     positions_count := num_positions;
     long_exposure := long_exposure;
     short_exposure := short_exposure;
     largest_position_pct := largest_position_pct;
     risk_score := risk_score;
     diversification_score := diversification_score |}.

End AgentService.

(** ** signals/brokers/mock.py: the mock broker *)

Module MockBroker.

(** [Position] of [signals.data.models], with the fields that the broker
    passes to its constructor. *)
Record Position := mkPosition {
  ticker : string;
  direction : string;
  quantity : Z;
  average_price : Q;
  current_price : Q;
  profit_loss : Q;
  profit_loss_pct : Q
}.

(** [OrderStatus] of [signals.data.models]. *)
Record OrderStatus := mkOrder {
  order_id : string;
  o_ticker : string;
  o_direction : string;
  o_quantity : Z;
  o_price : Q;
  o_status : string;
  o_timestamp : string
}.

(** The state of a [MockBroker]: of [account_info] only the cash is written
    by the methods modelled here. *)
Record Broker := mkBroker {
  connected : bool;
  cash : Q;
  positions : gmap string Position;
  orders : gmap string OrderStatus;
  ticker_prices : gmap string Q
}.

(** [MockBroker.__init__]. *)
Definition init : Broker := mkBroker false 100000 ∅ ∅ ∅.

(** Assignment of [direction], [quantity] and [average_price]. *)
Definition set_fields (position : Position) (direction : string)
    (quantity : Z) (average_price : Q) : Position :=
  {| ticker := ticker position;
     direction := direction;
     quantity := quantity;
     average_price := average_price;
     current_price := current_price position;
     profit_loss := profit_loss position;
     profit_loss_pct := profit_loss_pct position |}.

(** [position.quantity -= quantity], and the average price reset when
    nothing is left. *)
Definition reduce (position : Position) (quantity : Z) : Position :=
  let left := (MockBroker.quantity position - quantity)%Z in
  set_fields position (direction position) left
    (if (left =? 0)%Z then 0 else average_price position).

(** The branch shared by "sell" and "short" on a long position. *)
Definition sell_long (position : Position) (cash : Q) (quantity : Z)
    (price : Q) : Position * Q :=
  let held := MockBroker.quantity position in
  if (quantity <=? held)%Z then
    (reduce position quantity, cash + price * inject_Z quantity)
  else
    let remaining := (quantity - held)%Z in
    let cash := cash + price * inject_Z held in
    (set_fields position "short" remaining price,
     cash + (price * inject_Z remaining - price * inject_Z remaining * 0.5)).

(** The branch shared by "buy" and "cover" on a short position. *)
Definition cover_short (position : Position) (cash : Q) (quantity : Z)
    (price : Q) : Position * Q :=
  let held := MockBroker.quantity position in
  if (quantity <=? held)%Z then
    let margin_released := price * inject_Z quantity * 0.5 in
    (reduce position quantity,
     cash + (margin_released - price * inject_Z quantity))
  else
    let remaining := (quantity - held)%Z in
    let margin_released := price * inject_Z held * 0.5 in
    let cash := cash + (margin_released - price * inject_Z held) in
    (set_fields position "long" remaining price,
     cash - price * inject_Z remaining).

(** The four branches of [_update_positions] on the position of the ticker
    and the cash; [None] when the average price divides by a quantity of
    zero ([ZeroDivisionError]). *)
Definition apply_order (position : Position) (cash : Q) (direction : string)
    (quantity : Z) (price : Q) : option (Position * Q) :=
  let held := MockBroker.quantity position in
  if (direction =? "buy")%string then
    if (MockBroker.direction position =? "short")%string && (0 <? held)%Z
    then Some (cover_short position cash quantity price)
    else
      if (0 <? held)%Z then
        let total_cost := average_price position * inject_Z held in
        let new_cost := price * inject_Z quantity in
        let total := (held + quantity)%Z in
        if (total =? 0)%Z then None
        else
          Some (set_fields position (MockBroker.direction position) total
                  ((total_cost + new_cost) / inject_Z total),
                cash - price * inject_Z quantity)
      else
        Some (set_fields position "long" quantity price,
              cash - price * inject_Z quantity)
  else if (direction =? "sell")%string then
    if (MockBroker.direction position =? "long")%string && (0 <? held)%Z
    then Some (sell_long position cash quantity price)
    else Some (position, cash)
  else if (direction =? "short")%string then
    if (MockBroker.direction position =? "long")%string && (0 <? held)%Z
    then Some (sell_long position cash quantity price)
    else
      let total := (held + quantity)%Z in
      let proceeds :=
        price * inject_Z quantity - price * inject_Z quantity * 0.5 in
      if (quantity <? total)%Z then
        let total_cost :=
          average_price position * inject_Z (total - quantity) in
        let new_cost := price * inject_Z quantity in
        if (total =? 0)%Z then None
        else
          Some (set_fields position "short" total
                  ((total_cost + new_cost) / inject_Z total),
                cash + proceeds)
      else Some (set_fields position "short" total price, cash + proceeds)
  else if (direction =? "cover")%string then
    if (MockBroker.direction position =? "short")%string && (0 <? held)%Z
    then Some (cover_short position cash quantity price)
    else Some (position, cash)
  else Some (position, cash).

(** [MockBroker._update_positions]. *)
Definition _update_positions (self : Broker) (ticker direction : string)
    (quantity : Z) (price : Q) : option Broker :=
  let position :=
    match positions self !! ticker with
    | Some position => position
    | None => mkPosition ticker "long" 0 0 price 0 0
    end in
  match apply_order position (cash self) direction quantity price with
  | None => None
  | Some (position, cash) =>
    let positions := <[ticker := position]> (positions self) in
    Some (mkBroker (connected self) cash
            (if (MockBroker.quantity position =? 0)%Z
             then delete ticker positions else positions)
            (orders self) (ticker_prices self))
  end.

(** What a method of the broker does: it returns a value and leaves a
    state, or it raises. *)
Inductive outcome (A : Type) :=
| Returned (self : Broker) (value : A)
| Raised (message : string).
Arguments Returned {A}.
Arguments Raised {A}.

(** [MockBroker._get_current_price]. *)
Definition _get_current_price (self : Broker) (ticker : string) : Q :=
  default 100 (ticker_prices self !! ticker).

(** [MockBroker.place_order]; the identifier and the timestamp are drawn by
    the caller's environment. *)
Definition place_order (self : Broker) (order_id timestamp : string)
    (ticker direction : string) (quantity : Z) (order_type : string)
    (limit_price stop_price : option Q) : outcome OrderStatus :=
  if negb (connected self) then Raised "Not connected. Call connect() first."
  else
    let current_price := _get_current_price self ticker in
    let price :=
      match limit_price with
      | Some limit => if Qeq_bool limit 0 then current_price else limit
      | None => current_price
      end in
    let order :=
      mkOrder order_id ticker direction quantity price "filled" timestamp in
    let self :=
      mkBroker (connected self) (cash self) (positions self)
        (<[order_id := order]> (orders self)) (ticker_prices self) in
    match _update_positions self ticker direction quantity current_price with
    | None => Raised "division by zero"
    | Some self => Returned self order
    end.

(** [MockBroker.close_position]. *)
Definition close_position (self : Broker) (order_id timestamp : string)
    (ticker direction : string) : outcome OrderStatus :=
  if negb (connected self) then Raised "Not connected. Call connect() first."
  else
    match positions self !! ticker with
    | None => Raised ("No position for " ++ ticker)
    | Some position =>
      if negb (MockBroker.direction position =? direction)%string
      then Raised ("No " ++ direction ++ " position for " ++ ticker)
      else
        let close_action :=
          if (direction =? "long")%string then "sell" else "cover" in
        place_order self order_id timestamp ticker close_action
          (MockBroker.quantity position) "market" None None
    end.

End MockBroker.

(** * Properties *)

(** ** Facts about the numeric prelude *)

Lemma Qlt_bool_iff (a b : Q) : Qlt_bool a b = true <-> a < b.
Proof.
  unfold Qlt_bool. rewrite negb_true_iff, <- not_true_iff_false, Qle_bool_iff.
  split; [apply Qnot_le_lt | apply Qlt_not_le].
Qed.

Lemma Qlt_bool_false (a b : Q) : Qlt_bool a b = false <-> b <= a.
Proof.
  unfold Qlt_bool. rewrite negb_false_iff. apply Qle_bool_iff.
Qed.

Lemma Qeq_bool_false (a b : Q) : Qeq_bool a b = false <-> ~ a == b.
Proof.
  rewrite <- not_true_iff_false, Qeq_bool_iff. tauto.
Qed.

Ltac qbool :=
  repeat match goal with
  | H : Qlt_bool _ _ = true |- _ => apply Qlt_bool_iff in H
  | H : Qlt_bool _ _ = false |- _ => apply Qlt_bool_false in H
  | H : Qle_bool _ _ = true |- _ => apply Qle_bool_iff in H
  | H : Qle_bool _ _ = false |- _ =>
      apply not_true_iff_false in H; rewrite Qle_bool_iff in H;
      apply Qnot_le_lt in H
  | H : Qeq_bool _ _ = true |- _ => apply Qeq_bool_iff in H
  | H : Qeq_bool _ _ = false |- _ => apply Qeq_bool_false in H
  end.

Lemma py_min_le_l (a b : Q) : py_min a b <= a.
Proof. unfold py_min. destruct (Qlt_bool b a) eqn:E; qbool; lra. Qed.

Lemma py_min_le_r (a b : Q) : py_min a b <= b.
Proof. unfold py_min. destruct (Qlt_bool b a) eqn:E; qbool; lra. Qed.

Lemma py_min_cases (a b : Q) :
  (b < a /\ py_min a b = b) \/ (a <= b /\ py_min a b = a).
Proof. unfold py_min. destruct (Qlt_bool b a) eqn:E; qbool; auto. Qed.

Lemma py_max_cases (a b : Q) :
  (a < b /\ py_max a b = b) \/ (b <= a /\ py_max a b = a).
Proof. unfold py_max. destruct (Qlt_bool a b) eqn:E; qbool; auto. Qed.







Lemma inject_Z_pos (z : Z) : (0 < z)%Z -> 0 < inject_Z z.
Proof. intros H. change 0 with (inject_Z 0). rewrite <- Zlt_Qlt. exact H. Qed.


(** ** The ledger of the backtester *)

Module BacktesterSpec.
Import Backtester.


Lemma positions_set_cash p c : positions (set_cash p c) = positions p.
Proof. reflexivity. Qed.












(** *** Weighted-average cost basis *)







(** *** Margin ledger *)











(** *** Maximum drawdown *)




(** *** Keys of the two dictionaries *)






(** *** The claims about the ledger *)


Definition sample_portfolio : Portfolio :=
  init_portfolio ["AAPL"] 1000 (1 # 2).





Lemma sample_position :
  positions sample_portfolio !! "AAPL" = Some flat_position.
Proof. reflexivity. Defined.








End BacktesterSpec.

(** ** The reasoning call *)

Module LlmSpec.
Import Llm MixGo.

(** An attempt that does not produce a validated decision. *)
Definition not_parsed {T} (a : attempt T) : Prop :=
  match a with parsed _ => False | _ => True end.

Lemma default_decision :
  _create_default_response MegaAgentDecision_model
  = Some (mkDecision "Error in analysis, using default" 0 0
            "Error in analysis, using default").
Proof. reflexivity. Qed.

(** While no attempt parses, the loop falls through to the fallback. *)
Lemma retry_loop_fallback {T} (model : pydantic_model T) max_retries factory
    (env : nat -> attempt T) remaining : forall attempt,
  (forall i, (attempt <= i < attempt + remaining)%nat -> not_parsed (env i)) ->
  retry_loop model max_retries factory env remaining attempt
  = fallback model factory.
Proof.
  induction remaining as [|n IH]; intros attempt Hfail; [reflexivity|].
  simpl. pose proof (Hfail attempt ltac:(lia)) as Ha.
  assert (Hrest : retry_loop model max_retries factory env n (S attempt)
                  = fallback model factory).
  { apply IH. intros i Hi. apply Hfail. lia. }
  destruct (env attempt); simpl in Ha; try done;
    try destruct (attempt =? max_retries - 1)%nat; done.
Qed.

(** C1 as stated fails: when the parsing block raises at each of the three
    attempts, the decision is not [{hold, 0, 50, "error"}]. *)
Lemma fallback_counterexample :
  exists d,
    llm_decision (fun _ => parse_raises) = Some d /\
    action d <> "hold" /\
    ~ d_confidence d == 50 /\
    d_reasoning d <> "error".
Proof.
  eexists. split; [reflexivity|]. simpl.
  split; [discriminate|]. split; [|discriminate].
  intros H. vm_compute in H. discriminate.
Qed.

(** C1, amended.  When none of the three attempts of the reasoning call
    yields a validated decision, the decision is the default built from
    the field types: quantity 0, confidence 0 and the reasoning text
    "Error in analysis, using default"; later attempts are never
    consulted. *)
Theorem persistent_failure_fallback
    (env : nat -> attempt MegaAgentDecision) :
  (forall i, (i < 3)%nat -> not_parsed (env i)) ->
  exists d,
    llm_decision env = Some d /\
    quantity d = 0%Z /\
    d_confidence d == 0 /\
    d_reasoning d = "Error in analysis, using default".
Proof.
  intros Hfail. unfold llm_decision, generate_decision, call_llm.
  rewrite retry_loop_fallback by (intros i Hi; apply Hfail; lia).
  unfold fallback. rewrite default_decision.
  eexists. split; [reflexivity|]. simpl. repeat split; reflexivity.
Qed.

Lemma persistent_failure_fallback_witness :
  exists d,
    llm_decision
      (fun i => if (i <? 3)%nat then call_raises
                else parsed (mkDecision "buy" 10 80 "late")) = Some d /\
    quantity d = 0%Z /\
    d_confidence d == 0 /\
    d_reasoning d = "Error in analysis, using default".
Proof.
  apply persistent_failure_fallback.
  intros i Hi. apply Nat.ltb_lt in Hi. rewrite Hi. exact I.
Defined.

End LlmSpec.

(** ** The technical analyst *)

Module TechnicalAnalystSpec.
Import Data TechnicalAnalyst.

Lemma strategy_weights_nonneg strategy weight :
  strategy_weights strategy = Some weight -> 0 <= weight.
Proof.
  unfold strategy_weights.
  repeat match goal with
  | |- context [(strategy =? ?x)%string] => destruct (strategy =? x)%string
  end; intros [= <-] || discriminate; lra.
Qed.

Lemma signal_values_cases s :
  signal_values s = 1 \/ signal_values s = 0 \/ signal_values s = -1.
Proof.
  unfold signal_values.
  repeat match goal with
  | |- context [(s =? ?x)%string] => destruct (s =? x)%string
  end; auto.
Qed.

Lemma clean_confidence_bounds c :
  0 <= clean_confidence c /\ clean_confidence c <= 1.
Proof.
  unfold clean_confidence.
  set (q := match c with Finite q => q | NonFinite => 0.5 end).
  destruct (py_min_cases q 1) as [[? ->]|[? ->]];
    [destruct (py_max_cases 0 1) as [[? ->]|[? ->]]
    |destruct (py_max_cases 0 q) as [[? ->]|[? ->]]]; lra.
Qed.

(** The weighted sum stays within the accumulated weight. *)
Lemma accumulate_bounds {M} (signals : list (string * StrategySignal M)) :
  forall ws tc,
    - tc <= ws /\ ws <= tc ->
    - snd (accumulate signals ws tc) <= fst (accumulate signals ws tc) /\
    fst (accumulate signals ws tc) <= snd (accumulate signals ws tc).
Proof.
  induction signals as [|[strategy sig] rest IH]; intros ws tc H; simpl;
    [exact H|].
  destruct (strategy_weights strategy) as [weight|] eqn:Ew; [|by apply IH].
  apply IH. apply strategy_weights_nonneg in Ew.
  destruct (clean_confidence_bounds (s_confidence sig)) as [Hc0 Hc1].
  set (c := clean_confidence (s_confidence sig)) in *.
  assert (Hx : 0 <= weight * c) by (by apply Qmult_le_0_compat).
  destruct (signal_values_cases (s_signal sig)) as [-> | [-> | ->]]; lra.
Qed.

Lemma accumulate_neutral {M} (signals : list (string * StrategySignal M)) :
  Forall (fun kv => s_signal (snd kv) = "neutral") signals ->
  forall ws tc, fst (accumulate signals ws tc) == ws.
Proof.
  induction 1 as [|[strategy sig] rest Hn _ IH]; intros ws tc; simpl;
    [reflexivity|].
  destruct (strategy_weights strategy); [|apply IH].
  rewrite IH. simpl in Hn. rewrite Hn. unfold signal_values. simpl. lra.
Qed.

Lemma final_score_bounds {M} (signals : list (string * StrategySignal M)) :
  -1 <= final_score signals /\ final_score signals <= 1.
Proof.
  unfold final_score.
  pose proof (accumulate_bounds signals 0 0 ltac:(lra)) as [Hl Hu].
  destruct (accumulate signals 0 0) as [ws tc]. simpl in *.
  destruct (Qlt_bool 0 tc) eqn:E; qbool; [|lra].
  split.
  - apply Qle_shift_div_l; [done|lra].
  - apply Qle_shift_div_r; [done|lra].
Qed.

Lemma py_round_near (x : Q) : Qabs (inject_Z (py_round x) - x) <= 1 # 2.
Proof.
  unfold py_round.
  pose proof (Qfloor_le x) as Hl. pose proof (Qlt_floor x) as Hu.
  rewrite inject_Z_plus in Hu. change (inject_Z 1) with 1 in Hu.
  set (f := Qfloor x) in *.
  assert (Hup : Qabs (inject_Z (f + 1) - x) <= 1 # 2 <->
                1 # 2 <= x - inject_Z f).
  { rewrite inject_Z_plus. change (inject_Z 1) with 1.
    split; intros H.
    - apply Qabs_Qle_condition in H. lra.
    - apply Qabs_Qle_condition. lra. }
  assert (Hdn : Qabs (inject_Z f - x) <= 1 # 2 <-> x - inject_Z f <= 1 # 2).
  { split; intros H.
    - apply Qabs_Qle_condition in H. lra.
    - apply Qabs_Qle_condition. lra. }
  destruct (Qlt_bool (x - inject_Z f) (1 # 2)) eqn:E1; qbool.
  { apply Hdn. lra. }
  destruct (Qlt_bool (1 # 2) (x - inject_Z f)) eqn:E2; qbool.
  { apply Hup. lra. }
  destruct (Z.even f); [apply Hdn | apply Hup]; lra.
Qed.

Definition five_signals {M} (trend mean_reversion momentum volatility
    stat_arb : StrategySignal M) : list (string * StrategySignal M) :=
  [("trend", trend); ("mean_reversion", mean_reversion);
   ("momentum", momentum); ("volatility", volatility);
   ("stat_arb", stat_arb)].

(** A realistic ensemble: a weak bullish trend, the other four neutral at
    their usual confidence. *)
Definition weak_trend : list (string * StrategySignal unit) :=
  five_signals (mkStrategy "bullish" (Finite 0.3) tt)
    (mkStrategy "neutral" (Finite 0.5) tt)
    (mkStrategy "neutral" (Finite 0.5) tt)
    (mkStrategy "neutral" (Finite 0.5) tt)
    (mkStrategy "neutral" (Finite 0.5) tt).

Definition one_bar : frame := [mkBar "2024-01-02" 100 101 99 100 1000].

(** C7 as stated fails: with a score of 1/6 the combination returns the
    confidence 1/6, and [analyze] reports 17; neither is
    [clamp(|score|, 0, 1) * 100 = 100/6]. *)
Lemma confidence_counterexample :
  final_score weak_trend == 1 # 6 /\
  c_confidence (_weighted_signal_combination weak_trend) == 1 # 6 /\
  ~ c_confidence (_weighted_signal_combination weak_trend)
    == py_max 0 (py_min (Qabs (final_score weak_trend)) 1) * 100 /\
  confidence
    (analyze_ticker
       (fun _ => mkStrategy "bullish" (Finite 0.3) tt)
       (fun _ => mkStrategy "neutral" (Finite 0.5) tt)
       (fun _ => mkStrategy "neutral" (Finite 0.5) tt)
       (fun _ => mkStrategy "neutral" (Finite 0.5) tt)
       (fun _ => mkStrategy "neutral" (Finite 0.5) tt) one_bar) = 17 /\
  ~ 17 == py_max 0 (py_min (Qabs (final_score weak_trend)) 1) * 100.
Proof.
  split; [vm_compute; reflexivity|]. split; [vm_compute; reflexivity|].
  split; [intros H; vm_compute in H; discriminate|].
  split; [vm_compute; reflexivity|].
  intros H. vm_compute in H. discriminate.
Qed.

(** C7, amended.  In the ensemble combination: when every sub-strategy
    reports neutral the combined signal is neutral; the signal is bullish
    exactly when the normalised weighted score exceeds 0.2, bearish exactly
    when it is below -0.2, neutral otherwise; the score is 0 when the total
    weight is not positive; the confidence returned is
    [clamp(|score|, 0, 1)], which is [|score|] and lies in [[0,1]]; and the
    confidence of the signal built by [analyze] is that value times 100,
    rounded to the nearest integer. *)
Theorem ensemble_combination {M} (signals : list (string * StrategySignal M)) :
  let r := _weighted_signal_combination signals in
  let score := final_score signals in
  (Forall (fun kv => s_signal (snd kv) = "neutral") signals ->
   c_signal r = "neutral") /\
  (c_signal r = "bullish" <-> 0.2 < score) /\
  (c_signal r = "bearish" <-> score < -0.2) /\
  (c_signal r = "neutral" <-> -0.2 <= score /\ score <= 0.2) /\
  (snd (accumulate signals 0 0) <= 0 -> score = 0) /\
  c_confidence r = py_max 0 (py_min (Qabs score) 1) /\
  c_confidence r == Qabs score /\
  0 <= c_confidence r /\ c_confidence r <= 1 /\
  (forall trend mean_reversion momentum volatility stat_arb prices_df,
     signals = five_signals (trend prices_df) (mean_reversion prices_df)
                 (momentum prices_df) (volatility prices_df)
                 (stat_arb prices_df) ->
     let final := analyze_ticker trend mean_reversion momentum volatility
                    stat_arb prices_df in
     signal final = c_signal r /\
     confidence final = inject_Z (py_round (c_confidence r * 100)) /\
     Qabs (confidence final - c_confidence r * 100) <= 1 # 2).
Proof.
  intros r score. subst r score.
  pose proof (final_score_bounds signals) as [Hlo Hhi].
  assert (Habs : Qabs (final_score signals) <= 1)
    by (apply Qabs_Qle_condition; lra).
  pose proof (Qabs_nonneg (final_score signals)) as Hnn.
  assert (Hconf : c_confidence (_weighted_signal_combination signals)
                  == Qabs (final_score signals)).
  { unfold _weighted_signal_combination. simpl.
    set (a := Qabs (final_score signals)) in *.
    destruct (py_min_cases a 1) as [[? ->]|[? ->]];
      [destruct (py_max_cases 0 1) as [[? ->]|[? ->]]
      |destruct (py_max_cases 0 a) as [[? ->]|[? ->]]]; lra. }
  split; [|split; [|split; [|split; [|split; [|split; [|split; [|split; [|split]]]]]]]].
  - intros Hn. unfold _weighted_signal_combination. simpl.
    assert (E : final_score signals == 0).
    { unfold final_score.
      pose proof (accumulate_neutral signals Hn 0 0) as Hw.
      destruct (accumulate signals 0 0) as [ws tc]. simpl in Hw.
      destruct (Qlt_bool 0 tc); [|reflexivity].
      rewrite Hw. unfold Qdiv. ring. }
    destruct (Qlt_bool 0.2 _) eqn:E1; qbool; [lra|].
    destruct (Qlt_bool _ (-0.2)) eqn:E2; qbool; [lra|done].
  - unfold _weighted_signal_combination. simpl.
    destruct (Qlt_bool 0.2 _) eqn:E1; qbool; [done|].
    destruct (Qlt_bool _ (-0.2)) eqn:E2; qbool;
      (split; [discriminate|lra]).
  - unfold _weighted_signal_combination. simpl.
    destruct (Qlt_bool 0.2 _) eqn:E1; qbool; [split; [discriminate|lra]|].
    destruct (Qlt_bool _ (-0.2)) eqn:E2; qbool; [done|].
    split; [discriminate|lra].
  - unfold _weighted_signal_combination. simpl.
    destruct (Qlt_bool 0.2 _) eqn:E1; qbool; [split; [discriminate|lra]|].
    destruct (Qlt_bool _ (-0.2)) eqn:E2; qbool; [split; [discriminate|lra]|].
    split; [|done]. intros _. lra.
  - unfold final_score. destruct (accumulate signals 0 0) as [ws tc]. simpl.
    intros Htc. destruct (Qlt_bool 0 tc) eqn:E; qbool; [lra|done].
  - reflexivity.
  - exact Hconf.
  - rewrite Hconf. exact Hnn.
  - rewrite Hconf. exact Habs.
  - intros trend mean_reversion momentum volatility stat_arb prices_df ->.
    unfold analyze_ticker. cbn [signal confidence _safe_round].
    fold (five_signals (trend prices_df) (mean_reversion prices_df)
            (momentum prices_df) (volatility prices_df)
            (stat_arb prices_df)).
    split; [reflexivity|]. split; [reflexivity|].
    apply py_round_near.
Qed.

Lemma ensemble_combination_witness :
  c_signal
    (_weighted_signal_combination
       (five_signals (mkStrategy "neutral" (Finite 0.5) tt)
          (mkStrategy "neutral" (Finite 0.3) tt)
          (mkStrategy "neutral" NonFinite tt)
          (mkStrategy "neutral" (Finite 0.5) tt)
          (mkStrategy "neutral" (Finite 0.5) tt))) = "neutral".
Proof.
  refine (proj1 (ensemble_combination _) _).
  unfold five_signals. repeat (constructor; [reflexivity|]). constructor.
Defined.

Section AnalyzeFacts.
Context {M : Type}.
Variable get_prices : string -> frame.
Variables trend mean_reversion momentum volatility stat_arb
  : frame -> StrategySignal M.

Local Abbreviation entry :=
  (analyze_ticker trend mean_reversion momentum volatility stat_arb).
Local Abbreviation loop :=
  (analyze_from get_prices trend mean_reversion momentum volatility
     stat_arb).

(** A ticker with an empty frame, or outside the list, keeps whatever
    the dictionary held for it. *)
Lemma analyze_from_skips tickers : forall signals ticker,
  get_prices ticker = [] \/ ticker ∉ tickers ->
  loop signals tickers !! ticker = signals !! ticker.
Proof.
  induction tickers as [|t rest IH]; intros signals ticker H; [done|].
  simpl.
  assert (Hrest : get_prices ticker = [] \/ ticker ∉ rest).
  { destruct H as [H|H]; [by left|]. right.
    by apply not_elem_of_cons in H as [_ H]. }
  destruct (get_prices t) eqn:Et; [apply IH; exact Hrest|].
  rewrite IH by exact Hrest. apply lookup_insert_ne.
  intros ->. destruct H as [H|H]; [congruence|].
  by apply not_elem_of_cons in H as [H _].
Qed.

(** A listed ticker with a non-empty frame gets its combined signal. *)
Lemma analyze_from_enters tickers : forall signals ticker,
  ticker ∈ tickers -> get_prices ticker <> [] ->
  loop signals tickers !! ticker = Some (entry (get_prices ticker)).
Proof.
  induction tickers as [|t rest IH]; intros signals ticker Hin Hne;
    [set_solver|].
  simpl.
  destruct (decide (ticker ∈ rest)) as [Hr|Hr].
  { destruct (get_prices t); by apply IH. }
  assert (t = ticker) as ->.
  { apply elem_of_cons in Hin as [->|Hin]; done. }
  destruct (get_prices ticker) eqn:Et; [done|].
  rewrite analyze_from_skips by (by right). apply lookup_insert_eq.
Qed.

End AnalyzeFacts.




End TechnicalAnalystSpec.

(** ** The risk manager *)

Module RiskManagerSpec.
Import Data Backtester RiskManager.

(** *** Portfolio value *)

Lemma position_value_eq position acc :
  position_value position acc
  == acc + inject_Z (long position) * long_cost_basis position
     + inject_Z (short position) * short_cost_basis position.
Proof.
  unfold position_value, truthy_Z, truthy_Q.
  assert (HZ : forall z q, (z =? 0)%Z = true -> inject_Z z * q == 0).
  { intros z q Hz. apply Z.eqb_eq in Hz. subst z.
    change (inject_Z 0) with 0. ring. }
  assert (HQ : forall z q, Qeq_bool q 0 = true -> inject_Z z * q == 0).
  { intros z q Hq. qbool. rewrite Hq. ring. }
  destruct (long position =? 0)%Z eqn:El, (short position =? 0)%Z eqn:Es,
    (Qeq_bool (long_cost_basis position) 0) eqn:Elb,
    (Qeq_bool (short_cost_basis position) 0) eqn:Esb; simpl;
    try rewrite (HZ _ (long_cost_basis position) El);
    try rewrite (HZ _ (short_cost_basis position) Es);
    try rewrite (HQ (long position) _ Elb);
    try rewrite (HQ (short position) _ Esb); ring.
Qed.

Lemma positions_value_sum (m : gmap string Position) :
  map_fold (fun _ position acc => position_value position acc) 0 m
  == map_fold (fun _ position acc =>
                 inject_Z (long position) * long_cost_basis position + acc)
       0 m
     + map_fold (fun _ position acc =>
                   inject_Z (short position) * short_cost_basis position
                   + acc) 0 m.
Proof.
  rewrite !map_fold_foldr.
  induction (map_to_list m) as [|[k position] l IH]; simpl; [reflexivity|].
  rewrite position_value_eq, IH. ring.
Qed.

Lemma portfolio_value_eq portfolio :
  _calculate_portfolio_value portfolio
  = py_max (cash portfolio
            + map_fold (fun _ position acc => position_value position acc) 0
                (positions portfolio)) 10000.
Proof. reflexivity. Qed.

(** C3 as stated fails: with 5000 in cash and no position the summary
    reports a total value of 10000. *)
Lemma total_value_counterexample :
  let portfolio := init_portfolio [] 5000 0 in
  let total := total_value (get_portfolio_summary default_config portfolio) in
  positions portfolio = ∅ /\
  total == 10000 /\
  ~ total == cash portfolio + long_cost_value portfolio
             + short_cost_value portfolio /\
  ~ total == cash portfolio.
Proof.
  split; [reflexivity|]. split; [vm_compute; reflexivity|].
  split; intros H; vm_compute in H; discriminate.
Qed.

(** C3, amended.  The total value of the portfolio summary is the larger
    of 10000 and cash + sum(long_qty * long_cost_basis) + sum(short_qty *
    short_cost_basis); for a portfolio with no positions it is the larger
    of 10000 and cash. *)
Theorem summary_total_value (self : config) (portfolio : Portfolio) :
  let raw := cash portfolio + long_cost_value portfolio
             + short_cost_value portfolio in
  let total := total_value (get_portfolio_summary self portfolio) in
  (10000 <= raw -> total == raw) /\
  (raw <= 10000 -> total == 10000) /\
  (positions portfolio = ∅ ->
   (10000 <= cash portfolio -> total == cash portfolio) /\
   (cash portfolio <= 10000 -> total == 10000)).
Proof.
  intros raw total. subst raw total. unfold get_portfolio_summary. simpl.
  rewrite portfolio_value_eq.
  pose proof (positions_value_sum (positions portfolio)) as Hs.
  fold (long_cost_value portfolio) in Hs.
  fold (short_cost_value portfolio) in Hs.
  set (v := map_fold _ 0 (positions portfolio)) in *.
  assert (Hcases :
    forall x, (10000 <= x -> py_max x 10000 == x) /\
              (x <= 10000 -> py_max x 10000 == 10000)).
  { intros x. destruct (py_max_cases x 10000) as [[? ->]|[? ->]];
      split; intros; lra. }
  split; [|split].
  - intros H. rewrite (proj1 (Hcases _)); lra.
  - intros H. rewrite (proj2 (Hcases _)); lra.
  - intros He. subst v. rewrite He, map_fold_empty.
    split; intros H; [rewrite (proj1 (Hcases _))|rewrite (proj2 (Hcases _))];
      lra.
Qed.

Lemma summary_total_value_witness :
  total_value
    (get_portfolio_summary default_config (init_portfolio [] 250000 0))
  == 250000.
Proof.
  destruct (summary_total_value default_config (init_portfolio [] 250000 0))
    as (_ & _ & H).
  destruct (H eq_refl) as [H1 _]. rewrite H1; [reflexivity|].
  simpl. lra.
Defined.

(** *** Kelly fraction *)

Lemma filter_all (f : Q -> bool) (l : list Q) :
  Forall (fun r => f r = true) (List.filter f l).
Proof.
  induction l as [|r l IH]; simpl; [constructor|].
  destruct (f r) eqn:E; [constructor|]; done.
Qed.

Lemma filter_none (f : Q -> bool) (l : list Q) :
  Forall (fun r => f r = false) l -> List.filter f l = [].
Proof.
  induction 1 as [|r l Hr _ IH]; simpl; [done|]. by rewrite Hr.
Qed.

Lemma filter_some (f : Q -> bool) (l : list Q) :
  Exists (fun r => f r = true) l -> List.filter f l <> [].
Proof.
  induction 1 as [r l Hr|r l _ IH]; simpl.
  - by rewrite Hr.
  - by destruct (f r).
Qed.

Lemma len_pos (l : list Q) : l <> [] -> 0 < len l.
Proof.
  intros H. unfold len. apply inject_Z_pos. destruct l; [done|].
  simpl. lia.
Qed.

Lemma Qsum_pos (l : list Q) : l <> [] -> Forall (fun r => 0 < r) l ->
  0 < Qsum l.
Proof.
  intros Hne H. induction H as [|r l Hr Hl IH]; [done|]. simpl.
  destruct l as [|r' l']; [simpl; lra|].
  specialize (IH ltac:(done)). lra.
Qed.

Lemma Qsum_neg (l : list Q) : l <> [] -> Forall (fun r => r < 0) l ->
  Qsum l < 0.
Proof.
  intros Hne H. induction H as [|r l Hr Hl IH]; [done|]. simpl.
  destruct l as [|r' l']; [simpl; lra|].
  specialize (IH ltac:(done)). lra.
Qed.

Lemma mean_pos (l : list Q) : l <> [] -> Forall (fun r => 0 < r) l ->
  0 < mean l.
Proof.
  intros Hne H. unfold mean. apply Qlt_shift_div_l; [by apply len_pos|].
  pose proof (Qsum_pos l Hne H). lra.
Qed.

Lemma mean_neg (l : list Q) : l <> [] -> Forall (fun r => r < 0) l ->
  mean l < 0.
Proof.
  intros Hne H. unfold mean. apply Qlt_shift_div_r; [by apply len_pos|].
  pose proof (Qsum_neg l Hne H). lra.
Qed.

Lemma clamp_bounds (k : Q) :
  0 <= py_max 0 (py_min k 0.20) /\ py_max 0 (py_min k 0.20) <= 0.20.
Proof.
  destruct (py_min_cases k 0.20) as [[? ->]|[? ->]];
    [destruct (py_max_cases 0 0.20) as [[? ->]|[? ->]]
    |destruct (py_max_cases 0 k) as [[? ->]|[? ->]]]; lra.
Qed.

Lemma kelly_from_returns_bounds height returns volatility :
  0 <= kelly_from_returns height returns volatility /\
  kelly_from_returns height returns volatility <= 0.20.
Proof.
  unfold kelly_from_returns.
  destruct (height <? 30)%nat; [lra|].
  destruct (length returns <? 10)%nat; [lra|].
  destruct (_ || _); [lra|]. destruct (_ || _); [lra|].
  match goal with |- context [py_max 0 (py_min ?k 0.20)] =>
    pose proof (clamp_bounds k) as [H0 H1] end.
  destruct (Qlt_bool 0.5 volatility); lra.
Qed.

Lemma length_zero_iff (l : list Q) : (length l =? 0)%nat = true <-> l = [].
Proof. rewrite Nat.eqb_eq. destruct l; simpl; split; done. Qed.

(** C6.  The Kelly fraction lies in [[0, 0.20]]; it is the default 0.02
    when the frame has fewer than 30 bars, when there are fewer than 10
    return samples, or when no return is negative or no return is positive;
    otherwise it is the Kelly formula clamped to [[0, 0.20]], halved when
    the annualised volatility exceeds 0.5. *)
Theorem kelly_fraction_bounds (price_df : frame) (height : nat)
    (returns : list Q) (volatility : Q) :
  let kelly := kelly_from_returns height returns volatility in
  let clamped :=
    py_max 0
      (py_min
         (kelly_formula returns
            (List.filter (fun r => Qlt_bool 0 r) returns)
            (List.filter (fun r => Qlt_bool r 0) returns)) 0.20) in
  (0 <= _calculate_kelly_fraction_polars price_df volatility /\
   _calculate_kelly_fraction_polars price_df volatility <= 0.20) /\
  ((length price_df < 30)%nat ->
   _calculate_kelly_fraction_polars price_df volatility = 0.02) /\
  (0 <= kelly /\ kelly <= 0.20) /\
  ((height < 30)%nat \/ (length returns < 10)%nat \/
   Forall (fun r => 0 <= r) returns \/ Forall (fun r => r <= 0) returns ->
   kelly = 0.02) /\
  ((30 <= height)%nat -> (10 <= length returns)%nat ->
   Exists (fun r => 0 < r) returns -> Exists (fun r => r < 0) returns ->
   (0 <= clamped /\ clamped <= 0.20) /\
   (0.5 < volatility -> kelly = clamped * 0.5) /\
   (volatility <= 0.5 -> kelly = clamped)).
Proof.
  intros kelly clamped. subst kelly clamped.
  split; [apply kelly_from_returns_bounds|].
  split.
  { intros H. unfold _calculate_kelly_fraction_polars, kelly_from_returns.
    apply Nat.ltb_lt in H. by rewrite H. }
  split; [apply kelly_from_returns_bounds|].
  split.
  - unfold kelly_from_returns. intros H.
    destruct (height <? 30)%nat eqn:Eh; [done|].
    destruct (length returns <? 10)%nat eqn:El; [done|].
    apply Nat.ltb_ge in Eh, El.
    destruct H as [H|[H|[H|H]]]; try lia.
    + rewrite (filter_none (fun r => Qlt_bool r 0) returns).
      * simpl. by rewrite orb_true_r.
      * eapply Forall_impl; [exact H|]. intros r Hr. simpl in Hr.
        by apply Qlt_bool_false.
    + rewrite (filter_none (fun r => Qlt_bool 0 r) returns).
      * done.
      * eapply Forall_impl; [exact H|]. intros r Hr. simpl in Hr.
        by apply Qlt_bool_false.
  - intros Hh Hl Hp Hn. split; [apply clamp_bounds|].
    unfold kelly_from_returns.
    apply Nat.ltb_ge in Hh, Hl. rewrite Hh, Hl.
    set (pos := List.filter (fun r => Qlt_bool 0 r) returns) in *.
    set (neg := List.filter (fun r => Qlt_bool r 0) returns) in *.
    assert (Hpne : pos <> []).
    { apply filter_some. eapply Exists_impl; [exact Hp|].
      intros r Hr. by apply Qlt_bool_iff. }
    assert (Hnne : neg <> []).
    { apply filter_some. eapply Exists_impl; [exact Hn|].
      intros r Hr. by apply Qlt_bool_iff. }
    assert (Hpall : Forall (fun r => 0 < r) pos).
    { eapply Forall_impl; [apply filter_all|].
      intros r Hr. simpl in Hr. by apply Qlt_bool_iff. }
    assert (Hnall : Forall (fun r => r < 0) neg).
    { eapply Forall_impl; [apply filter_all|].
      intros r Hr. simpl in Hr. by apply Qlt_bool_iff. }
    assert (E1 : ((length pos =? 0)%nat || (length neg =? 0)%nat) = false).
    { apply orb_false_iff. split; apply not_true_iff_false;
        rewrite length_zero_iff; done. }
    rewrite E1.
    assert (E2 : (Qeq_bool (Qabs (mean neg)) 0 || Qeq_bool (mean pos) 0)
                 = false).
    { pose proof (mean_pos pos Hpne Hpall) as Hmp.
      pose proof (mean_neg neg Hnne Hnall) as Hmn.
      apply orb_false_iff. split; apply Qeq_bool_false.
      - intros H. rewrite Qabs_neg in H by lra. lra.
      - lra. }
    rewrite E2.
    split; intros Hv.
    + apply Qlt_bool_iff in Hv. by rewrite Hv.
    + apply Qlt_bool_false in Hv. by rewrite Hv.
Qed.

(** Thirty closes alternating between 100 and 110. *)
Definition zigzag : frame :=
  flat_map (fun _ => [mkBar "d" 100 100 100 100 1; mkBar "d" 110 110 110 110 1])
    (seq 0 15).

Lemma kelly_fraction_bounds_witness :
  _calculate_kelly_fraction_polars zigzag (3 # 5)
  = py_max 0
      (py_min
         (kelly_formula (pct_change (map close zigzag))
            (List.filter (fun r => Qlt_bool 0 r)
               (pct_change (map close zigzag)))
            (List.filter (fun r => Qlt_bool r 0)
               (pct_change (map close zigzag)))) 0.20) * 0.5
  /\ _calculate_kelly_fraction_polars zigzag (3 # 5) == 25 # 638.
Proof.
  split.
  - refine (proj1 (proj2 (proj2 (proj2 (proj2 (proj2
      (kelly_fraction_bounds zigzag 30 (pct_change (map close zigzag))
         (3 # 5))))) _ _ _ _)) _).
    + simpl. lia.
    + simpl. lia.
    + apply Exists_cons_hd. vm_compute. reflexivity.
    + apply Exists_cons_tl, Exists_cons_hd. vm_compute. reflexivity.
    + vm_compute. reflexivity.
  - vm_compute. reflexivity.
Defined.

End RiskManagerSpec.

(** ** The risk clamp of the orchestrator *)

Module MixGoSpec.
Import Data MixGo.

Lemma or_int_nonzero (x : option Z) :
  or_int x 0 <> 0%Z -> or_int x 1 = or_int x 0.
Proof.
  destruct x as [z|]; simpl; [|done]. by destruct (z =? 0)%Z.
Qed.

(** C9.  A decision is returned unchanged when it is a hold or when there
    is no risk signal for the ticker.  Otherwise, with [ceiling] the
    [max_position_size] of the risk signal (0 when absent): if [ceiling] is
    0 the result is a hold of quantity 0 with confidence at most 30; if
    not, the action is kept, the quantity is capped at [ceiling], the
    reasoning gets the risk-adjustment note exactly when the quantity was
    reduced, and the confidence is capped at 70 exactly when the resulting
    quantity is below half of [ceiling]. *)
Theorem risk_constraints {R} (decision : MegaAgentDecision) (ticker : string)
    (all_signals : gmap string (gmap string (AnalystSignal R))) :
  let d' := _apply_risk_constraints decision ticker all_signals in
  (get_risk_signal all_signals ticker = None -> d' = decision) /\
  (action decision = "hold" -> d' = decision) /\
  (forall risk_signal,
     get_risk_signal all_signals ticker = Some risk_signal ->
     action decision <> "hold" ->
     let ceiling := or_int (max_position_size risk_signal) 0 in
     (ceiling = 0%Z ->
      action d' = "hold" /\ quantity d' = 0%Z /\
      d_confidence d' <= 30 /\ d_confidence d' <= d_confidence decision) /\
     (ceiling <> 0%Z ->
      action d' = action decision /\
      quantity d' = Z.min (quantity decision) ceiling /\
      ((ceiling < quantity decision)%Z ->
       d_reasoning d'
       = (d_reasoning decision
          ++ risk_adjustment_note (quantity decision) ceiling)%string) /\
      ((quantity decision <= ceiling)%Z ->
       d_reasoning d' = d_reasoning decision) /\
      (inject_Z (quantity d') < inject_Z ceiling * 0.5 ->
       d_confidence d' = py_min (d_confidence decision) 70 /\
       d_confidence d' <= 70) /\
      (inject_Z ceiling * 0.5 <= inject_Z (quantity d') ->
       d_confidence d' = d_confidence decision))).
Proof.
  intros d'. subst d'. unfold _apply_risk_constraints.
  split; [by intros ->|]. split.
  { intros Hh. destruct (get_risk_signal _ _); [|done].
    apply String.eqb_eq in Hh. by rewrite Hh. }
  intros risk_signal Hr Hh. rewrite Hr.
  rewrite (proj2 (String.eqb_neq _ _) Hh).
  set (ceiling := or_int (max_position_size risk_signal) 0). split.
  - intros H0. rewrite H0. simpl.
    repeat split; try done; try apply py_min_le_r.
    eapply Qle_trans; [apply py_min_le_l|].
    destruct (0 <? quantity decision)%Z; simpl; lra.
  - intros Hne. apply Z.eqb_neq in Hne as Hne'. rewrite Hne'.
    rewrite (or_int_nonzero _ Hne). fold ceiling.
    destruct (ceiling <? quantity decision)%Z eqn:Ec;
      [apply Z.ltb_lt in Ec | apply Z.ltb_ge in Ec]; simpl;
      match goal with |- context [Qlt_bool ?a ?b] =>
        destruct (Qlt_bool a b) eqn:Eq end; qbool; simpl;
      (split; [done|]); (split; [lia|]); (split; [intros; (done || lia)|]);
      (split; [intros; (done || lia)|]);
      (split; [intros Hlt; (split; [done || lra | apply py_min_le_r || lra])
              |intros Hge; (done || lra)]).
Qed.

Definition sample_signals : gmap string (gmap string (AnalystSignal unit)) :=
  {[ "risk_manager" :=
       {[ "AAPL" := mkSignal "risk_management" 80 tt (Some 100%Z);
          "MSFT" := mkSignal "risk_management" 25 tt (Some 0%Z) ]} ]}.

Lemma risk_constraints_witness :
  let d' := _apply_risk_constraints (mkDecision "buy" 2500 90 "Strong.")
              "AAPL" sample_signals in
  action d' = "buy" /\ quantity d' = 100%Z /\
  d_reasoning d'
  = "Strong. [Risk-adjusted from 2,500 to 100 shares based on Kelly Criterion and portfolio limits]" /\
  d_confidence d' = 90.
Proof.
  intros d'.
  destruct (risk_constraints (mkDecision "buy" 2500 90 "Strong.") "AAPL"
              sample_signals) as (_ & _ & H).
  destruct (H (mkSignal "risk_management" 80 tt (Some 100%Z)) eq_refl
              ltac:(discriminate)) as (_ & H2).
  destruct (H2 ltac:(discriminate)) as (Ha & Hq & Hr & _ & _ & Hc).
  split; [exact Ha|]. split; [exact Hq|].
  split; [apply Hr; simpl; lia|].
  apply Hc. vm_compute. discriminate.
Defined.

End MixGoSpec.

(** * Further properties *)

(** ** More about the ledger *)

Module BacktesterMoreSpec.
Import Backtester BacktesterMore BacktesterSpec.

Lemma guard_passes (quantity : Z) (price : Q) :
  (0 < quantity)%Z -> 0 < price ->
  ((quantity <=? 0)%Z || Qle_bool price 0) = false.
Proof.
  intros Hq Hp. apply orb_false_iff. split; [apply Z.leb_gt; lia|].
  apply not_true_iff_false. rewrite Qle_bool_iff. lra.
Qed.

(** X1.  A call with a non-positive quantity or price, or with an action
    other than buy, sell, short and cover on a known ticker, returns 0 and
    leaves the portfolio untouched. *)
Theorem trade_without_effect p ticker action quantity price :
  (quantity <= 0)%Z \/ price <= 0 \/
  (is_Some (positions p !! ticker) /\
   action <> "buy" /\ action <> "sell" /\ action <> "short" /\
   action <> "cover") ->
  _execute_trade p ticker action quantity price = Ret p 0.
Proof.
  intros H. unfold _execute_trade.
  destruct ((quantity <=? 0)%Z || Qle_bool price 0) eqn:Eg; [done|].
  apply orb_false_iff in Eg as [Eq Ep]. apply Z.leb_gt in Eq. qbool.
  destruct H as [H|[H|([pos Hpos] & Hb & Hs & Hsh & Hc)]]; [lia|lra|].
  rewrite Hpos.
  rewrite (proj2 (String.eqb_neq _ _) Hb), (proj2 (String.eqb_neq _ _) Hs),
    (proj2 (String.eqb_neq _ _) Hsh), (proj2 (String.eqb_neq _ _) Hc).
  reflexivity.
Qed.

Lemma trade_without_effect_witness :
  _execute_trade sample_portfolio "AAPL" "hold" 10 25
  = Ret sample_portfolio 0.
Proof.
  apply trade_without_effect. right. right.
  split; [rewrite sample_position; eauto|]. repeat split; discriminate.
Defined.

(** X2.  With a positive quantity and price, a ticker that is not a key of
    the positions raises [KeyError] whatever the action, a hold included, and
    the portfolio is untouched. *)
Theorem trade_on_unknown_ticker p ticker action quantity price :
  (0 < quantity)%Z -> 0 < price -> positions p !! ticker = None ->
  _execute_trade p ticker action quantity price = KeyError p.
Proof.
  intros Hq Hp Hpos. unfold _execute_trade.
  by rewrite (guard_passes _ _ Hq Hp), Hpos.
Qed.

Lemma trade_on_unknown_ticker_witness :
  _execute_trade sample_portfolio "MSFT" "hold" 10 25
  = KeyError sample_portfolio.
Proof.
  apply trade_on_unknown_ticker; [lia|lra|reflexivity].
Defined.

Definition untouched (p p' : Portfolio) (ticker : string) : Prop :=
  margin_requirement p' = margin_requirement p /\
  (forall other, other <> ticker ->
     positions p' !! other = positions p !! other /\
     realized_gains p' !! other = realized_gains p !! other) /\
  (is_Some (positions p' !! ticker) <-> is_Some (positions p !! ticker)) /\
  (is_Some (realized_gains p' !! ticker)
   <-> is_Some (realized_gains p !! ticker)).

Lemma untouched_refl p ticker : untouched p p ticker.
Proof. by unfold untouched. Qed.

Lemma untouched_update p p' ticker position pos' :
  positions p !! ticker = Some position ->
  margin_requirement p' = margin_requirement p ->
  positions p' = <[ticker := pos']> (positions p) ->
  realized_gains p' = realized_gains p \/
  (exists g g', realized_gains p !! ticker = Some g /\
                realized_gains p' = <[ticker := g']> (realized_gains p)) ->
  untouched p p' ticker.
Proof.
  intros Epos Hm Hp Hg. unfold untouched. rewrite Hp.
  split; [done|]. split; [|split].
  - intros other Hne. rewrite lookup_insert_ne by done. split; [done|].
    destruct Hg as [->|(g & g' & _ & ->)]; [done|].
    by rewrite lookup_insert_ne.
  - rewrite lookup_insert_eq, Epos. split; eauto.
  - destruct Hg as [->|(g & g' & Eg & ->)]; [done|].
    rewrite lookup_insert_eq, Eg. split; eauto.
Qed.

Lemma execute_trade_untouched p ticker action quantity price :
  untouched p (state_of (_execute_trade p ticker action quantity price)) ticker.
Proof.
  pose proof (untouched_refl p ticker) as Hsame.
  unfold _execute_trade.
  destruct ((quantity <=? 0)%Z || Qle_bool price 0); [exact Hsame|].
  destruct (positions p !! ticker) as [position|] eqn:Epos; [|exact Hsame].
  assert (Hfill : forall qty,
    untouched p (state_of (buy_fill p ticker position qty price)) ticker).
  { intros qty. eapply untouched_update; [exact Epos|done|done|by left]. }
  assert (Hshort : forall qty,
    untouched p (state_of (short_fill p ticker position qty price)) ticker).
  { intros qty. eapply untouched_update; [exact Epos|done|done|by left]. }
  destruct (action =? "buy")%string.
  { destruct (Qle_bool _ _); [apply Hfill|].
    destruct (0 <? py_int _)%Z; [apply Hfill|exact Hsame]. }
  destruct (action =? "sell")%string.
  { destruct (0 <? Z.min quantity (long position))%Z; [|exact Hsame].
    destruct (realized_gains p !! ticker) as [g|] eqn:Eg; [|exact Hsame].
    eapply untouched_update; [exact Epos|done|done|]. right. eauto. }
  destruct (action =? "short")%string.
  { destruct (Qle_bool _ _); [apply Hshort|].
    match goal with |- context [(0 <? ?m)%Z] =>
      destruct (0 <? m)%Z; [apply Hshort|exact Hsame] end. }
  destruct (action =? "cover")%string; [|exact Hsame].
  destruct (0 <? Z.min quantity (short position))%Z; [|exact Hsame].
  destruct (realized_gains p !! ticker) as [g|] eqn:Eg.
  - eapply untouched_update; [exact Epos|done| |].
    + simpl. apply insert_insert_eq.
    + right. eauto.
  - eapply untouched_update; [exact Epos|done|done|by left].
Qed.

(** X3.  A call on one ticker never changes the position or the realized
    gains stored for another ticker, never adds or removes a ticker, and
    never changes the margin requirement. *)
Theorem trade_touches_one_ticker p ticker action quantity price :
  let p' := state_of (_execute_trade p ticker action quantity price) in
  margin_requirement p' = margin_requirement p /\
  (forall other, other <> ticker ->
     positions p' !! other = positions p !! other /\
     realized_gains p' !! other = realized_gains p !! other) /\
  (is_Some (positions p' !! ticker) <-> is_Some (positions p !! ticker)) /\
  (is_Some (realized_gains p' !! ticker)
   <-> is_Some (realized_gains p !! ticker)).
Proof. apply execute_trade_untouched. Qed.

Lemma trade_touches_one_ticker_witness :
  positions (state_of (_execute_trade
                         (init_portfolio ["AAPL"; "MSFT"] 1000 0)
                         "AAPL" "buy" 3 100)) !! "MSFT"
  = Some flat_position.
Proof.
  destruct (trade_touches_one_ticker (init_portfolio ["AAPL"; "MSFT"] 1000 0)
              "AAPL" "buy" 3 100) as (_ & H & _).
  destruct (H "MSFT" ltac:(discriminate)) as [H1 _]. rewrite H1.
  reflexivity.
Defined.

Lemma sell_effect p ticker quantity price position g :
  positions p !! ticker = Some position ->
  realized_gains p !! ticker = Some g ->
  0 < price -> (0 < quantity)%Z -> (0 < long position)%Z ->
  let executed := Z.min quantity (long position) in
  exists p' position' g',
    _execute_trade p ticker "sell" quantity price = Ret p' executed /\
    positions p' !! ticker = Some position' /\
    realized_gains p' !! ticker = Some g' /\
    cash p' == cash p + inject_Z executed * price /\
    margin_used p' = margin_used p /\
    long position' = (long position - executed)%Z /\
    short position' = short position /\
    short_cost_basis position' = short_cost_basis position /\
    short_margin_used position' = short_margin_used position /\
    gains_long g'
    == gains_long g + (price - long_cost_basis position) * inject_Z executed /\
    gains_short g' = gains_short g.
Proof.
  intros Epos Eg Hp Hq Hl executed. unfold _execute_trade.
  rewrite (guard_passes _ _ Hq Hp), Epos. simpl. fold executed.
  assert (Ee : (0 <? executed)%Z = true) by (apply Z.ltb_lt; lia).
  assert (El : (0 <? long position)%Z = true) by (by apply Z.ltb_lt).
  rewrite Ee, Eg, El.
  eexists _, _, _. split; [reflexivity|]. simpl.
  split; [apply lookup_insert_eq|]. split; [apply lookup_insert_eq|].
  simpl. repeat (split; [reflexivity|]). reflexivity.
Qed.

(** X4.  A sell executes [min(quantity, long)] shares when that is positive:
    the cash grows by the executed quantity times the price, the long
    quantity falls by it, the realized long gain grows by
    [(price - long_cost_basis) * executed], and the short side, the realized
    short gain and the portfolio margin are unchanged. *)
Theorem sell_accounting p ticker quantity price position g :
  positions p !! ticker = Some position ->
  realized_gains p !! ticker = Some g ->
  0 < price -> (0 < quantity)%Z -> (0 < long position)%Z ->
  let executed := Z.min quantity (long position) in
  exists p' position' g',
    _execute_trade p ticker "sell" quantity price = Ret p' executed /\
    positions p' !! ticker = Some position' /\
    realized_gains p' !! ticker = Some g' /\
    cash p' == cash p + inject_Z executed * price /\
    margin_used p' = margin_used p /\
    long position' = (long position - executed)%Z /\
    short position' = short position /\
    short_cost_basis position' = short_cost_basis position /\
    short_margin_used position' = short_margin_used position /\
    gains_long g'
    == gains_long g + (price - long_cost_basis position) * inject_Z executed /\
    gains_short g' = gains_short g.
Proof. apply sell_effect. Qed.

Lemma sell_accounting_witness :
  exists p' position' g',
    _execute_trade
      (state_of (_execute_trade (init_portfolio ["AAPL"] 100000 0)
                   "AAPL" "buy" 100 50)) "AAPL" "sell" 40 60
    = Ret p' 40 /\
    positions p' !! "AAPL" = Some position' /\
    realized_gains p' !! "AAPL" = Some g' /\
    cash p' == 97400 /\ long position' = 60%Z /\ gains_long g' == 400.
Proof.
  destruct (sell_accounting
              (state_of (_execute_trade (init_portfolio ["AAPL"] 100000 0)
                           "AAPL" "buy" 100 50))
              "AAPL" 40 60 (mkPosition 100 0 (5000 / 100) 0 0) no_gains)
    as (p' & pos' & g' & E & Ep & Eg & Hc & _ & Hl & _ & _ & _ & Hg & _).
  - reflexivity.
  - reflexivity.
  - lra.
  - lia.
  - simpl. lia.
  - exists p', pos', g'. split; [exact E|]. split; [exact Ep|].
    split; [exact Eg|]. split; [rewrite Hc; vm_compute; reflexivity|].
    split; [exact Hl|]. rewrite Hg. vm_compute. reflexivity.
Defined.

Lemma cover_effect p ticker quantity price position g :
  positions p !! ticker = Some position ->
  realized_gains p !! ticker = Some g ->
  0 < price -> (0 < quantity)%Z -> (0 < short position)%Z ->
  let executed := Z.min quantity (short position) in
  let released :=
    inject_Z executed / inject_Z (short position)
    * short_margin_used position in
  exists p' position' g',
    _execute_trade p ticker "cover" quantity price = Ret p' executed /\
    positions p' !! ticker = Some position' /\
    realized_gains p' !! ticker = Some g' /\
    cash p' == cash p + released - inject_Z executed * price /\
    (cash p + released < inject_Z executed * price -> cash p' < 0) /\
    margin_used p' == margin_used p - released /\
    short position' = (short position - executed)%Z /\
    ((executed < short position)%Z ->
     short_margin_used position' == short_margin_used position - released /\
     short_cost_basis position' = short_cost_basis position) /\
    long position' = long position /\
    long_cost_basis position' = long_cost_basis position /\
    gains_short g'
    == gains_short g + (short_cost_basis position - price) * inject_Z executed /\
    gains_long g' = gains_long g.
Proof.
  intros Epos Eg Hp Hq Hs executed released. unfold _execute_trade.
  rewrite (guard_passes _ _ Hq Hp), Epos. simpl. fold executed.
  assert (Ee : (0 <? executed)%Z = true) by (apply Z.ltb_lt; lia).
  assert (El : (0 <? short position)%Z = true) by (by apply Z.ltb_lt).
  rewrite Ee, Eg, El. fold released.
  eexists _, _, _. split; [reflexivity|]. simpl.
  split; [apply lookup_insert_eq|]. split; [apply lookup_insert_eq|].
  simpl. split; [reflexivity|]. split; [intros H; lra|].
  split; [reflexivity|].
  destruct (short position - executed =? 0)%Z eqn:E0; simpl;
    [apply Z.eqb_eq in E0 | apply Z.eqb_neq in E0].
  - split; [reflexivity|]. split; [intros; lia|].
    repeat (split; [reflexivity|]). reflexivity.
  - split; [reflexivity|]. split; [intros; split; reflexivity|].
    repeat (split; [reflexivity|]). reflexivity.
Qed.

(** X5.  A cover is limited by the shares held short and never by the cash:
    it executes [min(quantity, short)] shares when that is positive, releases
    the same fraction of the position's margin, and the cash becomes
    [cash + released - executed * price], which is negative as soon as the
    cost exceeds the cash plus the released margin. *)
Theorem cover_accounting p ticker quantity price position g :
  positions p !! ticker = Some position ->
  realized_gains p !! ticker = Some g ->
  0 < price -> (0 < quantity)%Z -> (0 < short position)%Z ->
  let executed := Z.min quantity (short position) in
  let released :=
    inject_Z executed / inject_Z (short position)
    * short_margin_used position in
  exists p' position' g',
    _execute_trade p ticker "cover" quantity price = Ret p' executed /\
    positions p' !! ticker = Some position' /\
    realized_gains p' !! ticker = Some g' /\
    cash p' == cash p + released - inject_Z executed * price /\
    (cash p + released < inject_Z executed * price -> cash p' < 0) /\
    margin_used p' == margin_used p - released /\
    short position' = (short position - executed)%Z /\
    ((executed < short position)%Z ->
     short_margin_used position' == short_margin_used position - released /\
     short_cost_basis position' = short_cost_basis position) /\
    long position' = long position /\
    long_cost_basis position' = long_cost_basis position /\
    gains_short g'
    == gains_short g + (short_cost_basis position - price) * inject_Z executed /\
    gains_long g' = gains_long g.
Proof. apply cover_effect. Qed.

Lemma cover_accounting_witness :
  exists p',
    _execute_trade
      (state_of (_execute_trade (init_portfolio ["AAPL"] 1000 (1 # 2))
                   "AAPL" "short" 100 20)) "AAPL" "cover" 100 50
    = Ret p' 100 /\ cash p' < 0.
Proof.
  destruct (cover_accounting
              (state_of (_execute_trade (init_portfolio ["AAPL"] 1000 (1 # 2))
                           "AAPL" "short" 100 20))
              "AAPL" 100 50
              (mkPosition 0 100 0 ((0 * inject_Z 0 + 20 * inject_Z 100)
                                   / inject_Z 100)
                 (0 + 20 * inject_Z 100 * (1 # 2))) no_gains)
    as (p' & pos' & g' & E & _ & _ & _ & Hneg & _).
  - reflexivity.
  - reflexivity.
  - lra.
  - lia.
  - simpl. lia.
  - exists p'. split; [exact E|]. apply Hneg. vm_compute. reflexivity.
Defined.







(** *** Mark-to-market value *)

(** What a position adds to the portfolio value at a positive price. *)
Definition mark (position : Position) (price : Q) : Q :=
  inject_Z (long position) * price
  + (if (0 <? short position)%Z
     then inject_Z (short position) * (short_cost_basis position - price)
     else 0).

Definition mark_at (current_prices : gmap string Q) (ticker : string)
    (position : Position) : Q :=
  let price := default 0 (current_prices !! ticker) in
  if Qlt_bool 0 price then mark position price else 0.

Lemma value_from_cons p current_prices ticker rest acc position :
  positions p !! ticker = Some position ->
  exists acc1,
    value_from p current_prices (ticker :: rest) acc
    = value_from p current_prices rest acc1 /\
    acc1 == acc + mark_at current_prices ticker position.
Proof.
  intros Epos. simpl. rewrite Epos. unfold mark_at, mark.
  destruct (Qlt_bool 0 _); [|eexists; split; [reflexivity|lra]].
  destruct (0 <? short position)%Z; eexists; (split; [reflexivity|lra]).
Qed.

(** Two portfolios that differ in cash and in the position of one ticker:
    their values differ by the cash and by the mark of that position. *)
Lemma value_from_update tickers : forall p p' current_prices acc acc' v
    ticker position position',
  positions p !! ticker = Some position ->
  positions p' = <[ticker := position']> (positions p) ->
  NoDup tickers ->
  value_from p current_prices tickers acc = Some v ->
  exists v',
    value_from p' current_prices tickers acc' = Some v' /\
    v' - acc'
    == v - acc
       + (if decide (ticker ∈ tickers)
          then mark_at current_prices ticker position'
               - mark_at current_prices ticker position
          else 0).
Proof.
  induction tickers as [|t rest IH];
    intros p p' current_prices acc acc' v ticker position position' Epos Hp'
      Hnd Hv.
  - simpl in Hv. injection Hv as <-. eexists. split; [reflexivity|].
    case_decide as Hin; [by apply elem_of_nil in Hin|lra].
  - apply NoDup_cons in Hnd as [Hnotin Hnd].
    destruct (positions p !! t) as [post|] eqn:Et;
      [|simpl in Hv; by rewrite Et in Hv].
    destruct (value_from_cons p current_prices t rest acc post Et)
      as (acc1 & E1 & Hacc1).
    rewrite E1 in Hv.
    destruct (decide (t = ticker)) as [->|Hne].
    + assert (Et' : positions p' !! ticker = Some position')
        by (rewrite Hp'; apply lookup_insert_eq).
      destruct (value_from_cons p' current_prices ticker rest acc' position'
                  Et') as (acc1' & E1' & Hacc1').
      destruct (IH p p' current_prices acc1 acc1' v ticker position position'
                  Epos Hp' Hnd Hv) as (v' & Ev' & Hrel).
      exists v'. rewrite E1'. split; [exact Ev'|].
      rewrite decide_False in Hrel by exact Hnotin.
      rewrite decide_True by apply list_elem_of_here.
      assert (post = position) as -> by congruence. lra.
    + assert (Et' : positions p' !! t = Some post)
        by (rewrite Hp', lookup_insert_ne; done).
      destruct (value_from_cons p' current_prices t rest acc' post Et')
        as (acc1' & E1' & Hacc1').
      destruct (IH p p' current_prices acc1 acc1' v ticker position position'
                  Epos Hp' Hnd Hv) as (v' & Ev' & Hrel).
      exists v'. rewrite E1'. split; [exact Ev'|].
      destruct (decide (ticker ∈ rest)) as [Hin|Hin].
      * rewrite decide_True by (by apply list_elem_of_further). lra.
      * rewrite decide_False; [lra|].
        intros [?|?]%elem_of_cons; [congruence|done].
Qed.

Lemma value_update tickers p p' current_prices ticker position position'
    price v :
  NoDup tickers -> ticker ∈ tickers ->
  positions p !! ticker = Some position ->
  positions p' = <[ticker := position']> (positions p) ->
  current_prices !! ticker = Some price -> 0 < price ->
  _calculate_portfolio_value tickers p current_prices = Some v ->
  exists v',
    _calculate_portfolio_value tickers p' current_prices = Some v' /\
    v' == v + (cash p' - cash p) + (mark position' price - mark position price).
Proof.
  intros Hnd Hin Epos Hp' Hprice Hpos Hv. unfold _calculate_portfolio_value in *.
  destruct (value_from_update tickers p p' current_prices (cash p) (cash p') v
              ticker position position' Epos Hp' Hnd Hv) as (v' & Ev' & Hrel).
  exists v'. split; [exact Ev'|].
  rewrite decide_True in Hrel by exact Hin.
  unfold mark_at in Hrel. rewrite Hprice in Hrel. simpl in Hrel.
  apply Qlt_bool_iff in Hpos. rewrite Hpos in Hrel. lra.
Qed.

Lemma value_same tickers p current_prices v :
  _calculate_portfolio_value tickers p current_prices = Some v ->
  exists v', _calculate_portfolio_value tickers p current_prices = Some v' /\
             v' == v.
Proof. intros H. exists v. split; [exact H|reflexivity]. Qed.

Lemma value_after_fill tickers p current_prices ticker position price v qty :
  NoDup tickers -> ticker ∈ tickers ->
  positions p !! ticker = Some position ->
  current_prices !! ticker = Some price -> 0 < price ->
  _calculate_portfolio_value tickers p current_prices = Some v ->
  exists v',
    _calculate_portfolio_value tickers
      (state_of (buy_fill p ticker position qty price)) current_prices
    = Some v' /\ v' == v.
Proof.
  intros Hnd Hin Epos Hprice Hp Hv.
  edestruct (value_update tickers p
               (state_of (buy_fill p ticker position qty price)))
    as (v' & Ev' & Hrel); [exact Hnd|exact Hin|exact Epos|reflexivity
                          |exact Hprice|exact Hp|exact Hv|].
  exists v'. split; [exact Ev'|]. rewrite Hrel. unfold mark. simpl.
  rewrite inject_Z_plus. ring.
Qed.

Lemma value_after_short tickers p current_prices ticker position price v qty :
  NoDup tickers -> ticker ∈ tickers ->
  positions p !! ticker = Some position ->
  current_prices !! ticker = Some price -> 0 < price ->
  (0 <= short position)%Z -> (0 < qty)%Z ->
  _calculate_portfolio_value tickers p current_prices = Some v ->
  exists v',
    _calculate_portfolio_value tickers
      (state_of (short_fill p ticker position qty price)) current_prices
    = Some v' /\
    v' == v + inject_Z qty * price * (1 - margin_requirement p).
Proof.
  intros Hnd Hin Epos Hprice Hp Hs Hq Hv.
  edestruct (value_update tickers p
               (state_of (short_fill p ticker position qty price)))
    as (v' & Ev' & Hrel); [exact Hnd|exact Hin|exact Epos|reflexivity
                          |exact Hprice|exact Hp|exact Hv|].
  exists v'. split; [exact Ev'|]. rewrite Hrel. unfold mark. simpl.
  pose proof (inject_Z_pos _ Hq) as Hqq.
  destruct (0 <? short position)%Z eqn:E0.
  - assert (Et : (0 <? short position + qty)%Z = true)
      by (apply Z.ltb_lt; lia).
    rewrite Et, inject_Z_plus. apply Z.ltb_lt in E0.
    pose proof (inject_Z_pos _ E0). field. lra.
  - apply Z.ltb_ge in E0. assert (E : short position = 0%Z) by lia.
    rewrite E, Z.add_0_l.
    assert (Et : (0 <? qty)%Z = true) by (by apply Z.ltb_lt).
    rewrite Et. change (inject_Z 0) with 0. field. lra.
Qed.

(** X8.  Effect of a trade on the portfolio value marked at the trade price
    (listed tickers without duplicates): a buy and a sell leave the value
    unchanged; a short raises it by the proceeds net of the posted margin,
    [executed * price * (1 - margin_requirement)]; a cover changes it by the
    released margin minus [executed * short_cost_basis]. *)
Theorem trade_value_effect tickers p current_prices ticker action quantity
    price position v :
  NoDup tickers -> ticker ∈ tickers ->
  positions p !! ticker = Some position ->
  is_Some (realized_gains p !! ticker) ->
  current_prices !! ticker = Some price -> 0 < price ->
  (0 <= short position)%Z ->
  _calculate_portfolio_value tickers p current_prices = Some v ->
  let o := _execute_trade p ticker action quantity price in
  let executed := inject_Z (executed_of o) in
  let released :=
    executed / inject_Z (short position) * short_margin_used position in
  exists v',
    _calculate_portfolio_value tickers (state_of o) current_prices = Some v' /\
    (action = "buy" \/ action = "sell" -> v' == v) /\
    (action = "short" ->
     v' == v + executed * price * (1 - margin_requirement p)) /\
    (action = "cover" ->
     v' == v + released - executed * short_cost_basis position).
Proof.
  intros Hnd Hin Epos [g Eg] Hprice Hp Hs Hv o executed released.
  subst o executed released.
  assert (Hstay : exists v',
    _calculate_portfolio_value tickers (state_of (Ret p 0)) current_prices
    = Some v' /\
    (action = "buy" \/ action = "sell" -> v' == v) /\
    (action = "short" ->
     v' == v + inject_Z (executed_of (Ret p 0)) * price
               * (1 - margin_requirement p)) /\
    (action = "cover" ->
     v' == v + inject_Z (executed_of (Ret p 0)) / inject_Z (short position)
               * short_margin_used position
             - inject_Z (executed_of (Ret p 0)) * short_cost_basis position)).
  { exists v. split; [exact Hv|]. simpl. change (inject_Z 0) with 0.
    split; [intros; reflexivity|]. split; intros _.
    - ring.
    - unfold Qdiv. ring. }
  unfold _execute_trade.
  destruct ((quantity <=? 0)%Z || Qle_bool price 0) eqn:Eguard; [exact Hstay|].
  apply orb_false_iff in Eguard as [Eq _]. apply Z.leb_gt in Eq.
  rewrite Epos.
  destruct (String.eqb_spec action "buy") as [->|Hb].
  { assert (Hfill : forall qty, exists v',
      _calculate_portfolio_value tickers
        (state_of (buy_fill p ticker position qty price)) current_prices
      = Some v' /\
      ("buy" = "buy" \/ "buy" = "sell" -> v' == v) /\
      ("buy" = "short" ->
       v' == v + inject_Z (executed_of (buy_fill p ticker position qty price))
                 * price * (1 - margin_requirement p)) /\
      ("buy" = "cover" ->
       v' == v + inject_Z (executed_of (buy_fill p ticker position qty price))
                 / inject_Z (short position) * short_margin_used position
               - inject_Z (executed_of (buy_fill p ticker position qty price))
                 * short_cost_basis position)).
    { intros qty.
      destruct (value_after_fill tickers p current_prices ticker position
                  price v qty Hnd Hin Epos Hprice Hp Hv) as (v' & Ev' & Hrel).
      exists v'. split; [exact Ev'|]. split; [done|].
      split; discriminate. }
    destruct (Qle_bool _ _); [apply Hfill|].
    destruct (0 <? py_int _)%Z; [apply Hfill|exact Hstay]. }
  destruct (String.eqb_spec action "sell") as [->|Hsell].
  { destruct (0 <? Z.min quantity (long position))%Z eqn:Em; [|exact Hstay].
    rewrite Eg.
    match goal with |- context [state_of ?o] => set (o' := o) end.
    edestruct (value_update tickers p (state_of o'))
      as (v' & Ev' & Hrel); [exact Hnd|exact Hin|exact Epos|reflexivity
                            |exact Hprice|exact Hp|exact Hv|].
    exists v'. split; [exact Ev'|]. split; [|split; discriminate].
    intros _. rewrite Hrel. unfold mark. simpl.
    unfold Z.sub. rewrite inject_Z_plus, inject_Z_opp. ring. }
  destruct (String.eqb_spec action "short") as [->|Hshort].
  { assert (Hfill : forall qty, (0 < qty)%Z -> exists v',
      _calculate_portfolio_value tickers
        (state_of (short_fill p ticker position qty price)) current_prices
      = Some v' /\
      ("short" = "buy" \/ "short" = "sell" -> v' == v) /\
      ("short" = "short" ->
       v' == v + inject_Z (executed_of (short_fill p ticker position qty price))
                 * price * (1 - margin_requirement p)) /\
      ("short" = "cover" ->
       v' == v + inject_Z (executed_of (short_fill p ticker position qty price))
                 / inject_Z (short position) * short_margin_used position
               - inject_Z (executed_of (short_fill p ticker position qty price))
                 * short_cost_basis position)).
    { intros qty Hq.
      destruct (value_after_short tickers p current_prices ticker position
                  price v qty Hnd Hin Epos Hprice Hp Hs Hq Hv)
        as (v' & Ev' & Hrel).
      exists v'. split; [exact Ev'|].
      split; [intros [?|?]; discriminate|]. split; [|discriminate].
      intros _. exact Hrel. }
    destruct (Qle_bool _ _); [by apply Hfill|].
    match goal with |- context [(0 <? ?m)%Z] =>
      destruct (0 <? m)%Z eqn:Em; [|exact Hstay] end.
    apply Hfill. by apply Z.ltb_lt. }
  destruct (String.eqb_spec action "cover") as [->|Hcover]; [|exact Hstay].
  destruct (0 <? Z.min quantity (short position))%Z eqn:Em; [|exact Hstay].
  apply Z.ltb_lt in Em. rewrite Eg.
  assert (Et : (0 <? short position)%Z = true) by (apply Z.ltb_lt; lia).
  rewrite Et.
  match goal with |- context [state_of ?o] => set (o' := o) end.
  edestruct (value_update tickers p (state_of o')
               current_prices ticker position)
    as (v' & Ev' & Hrel); [exact Hnd|exact Hin|exact Epos|
                           |exact Hprice|exact Hp|exact Hv|].
  { subst o'. simpl. apply insert_insert_eq. }
  exists v'. split; [exact Ev'|].
  split; [intros [?|?]; discriminate|]. split; [discriminate|].
  intros _. rewrite Hrel. subst o'. unfold mark. simpl. rewrite Et.
  set (e := Z.min quantity (short position)) in *.
  destruct (short position - e =? 0)%Z eqn:E0; simpl.
  - apply Z.eqb_eq in E0. assert (Ee : short position = e) by lia.
    rewrite E0, Z.ltb_irrefl. rewrite <- Ee. ring.
  - apply Z.eqb_neq in E0.
    assert (Et2 : (0 <? short position - e)%Z = true)
      by (apply Z.ltb_lt; lia).
    rewrite Et2. unfold Z.sub. rewrite inject_Z_plus, inject_Z_opp. ring.
Qed.

Lemma trade_value_effect_witness :
  exists v',
    _calculate_portfolio_value ["AAPL"]
      (state_of (_execute_trade sample_portfolio "AAPL" "short" 100 20))
      {[ "AAPL" := 20 ]} = Some v' /\
    v' == 2000.
Proof.
  destruct (trade_value_effect ["AAPL"] sample_portfolio {[ "AAPL" := 20 ]}
              "AAPL" "short" 100 20 flat_position 1000)
    as (v' & Ev' & _ & Hshort & _).
  - apply NoDup_singleton.
  - apply list_elem_of_here.
  - reflexivity.
  - simpl. eauto.
  - reflexivity.
  - lra.
  - simpl. lia.
  - reflexivity.
  - exists v'. split; [exact Ev'|]. rewrite (Hshort eq_refl).
    vm_compute. reflexivity.
Defined.

(** *** The trading loop *)




(** X10.  A backtest day trades nothing when each decision is a hold, has a
    non-positive quantity, or names a ticker without a positive price: the
    loop returns and the portfolio is untouched. *)
Theorem trading_day_without_trades decisions p current_prices :
  Forall (fun td =>
            MixGo.action (snd td) = "hold" \/
            (MixGo.quantity (snd td) <= 0)%Z \/
            default 0 (current_prices !! fst td) <= 0) decisions ->
  execute_decisions p decisions current_prices = Ret p 0.
Proof.
  induction 1 as [|[ticker decision] rest H _ IH]; [reflexivity|].
  simpl in *.
  destruct (negb _ && _) eqn:E; [|exact IH].
  apply andb_true_iff in E as [Ea Eq].
  apply negb_true_iff, String.eqb_neq in Ea. apply Z.ltb_lt in Eq.
  destruct H as [H|[H|H]]; [done|lia|].
  unfold _execute_trade. apply Qle_bool_iff in H.
  rewrite H, orb_true_r. exact IH.
Qed.

Lemma trading_day_without_trades_witness :
  execute_decisions sample_portfolio
    [("AAPL", MixGo.mkDecision "hold" 5 50 "y");
     ("MSFT", MixGo.mkDecision "buy" 5 50 "no price")]
    {[ "AAPL" := 20 ]} = Ret sample_portfolio 0.
Proof.
  apply trading_day_without_trades.
  constructor; [by left|]. constructor; [|constructor].
  right. right. vm_compute. discriminate.
Defined.

(** *** Rate-limited fetches *)

Lemma fetch_loop_limited {A} (env : nat -> fetch_attempt A) remaining :
  forall attempt k,
    (k < remaining)%nat ->
    (forall i, (attempt <= i < attempt + k)%nat -> env i = rate_limited) ->
    fetch_loop env remaining attempt
    = fetch_loop env (remaining - k) (attempt + k).
Proof.
  induction remaining as [|n IH]; intros attempt k Hk Hrl; [lia|].
  destruct k as [|k].
  - by rewrite Nat.add_0_r.
  - simpl. rewrite (Hrl attempt) by lia.
    rewrite (IH (S attempt) k) by (try lia; intros i Hi; apply Hrl; lia).
    f_equal; lia.
Qed.

(** X11.  [_fetch_with_rate_limit] retries only rate-limit errors and makes
    at most five calls: after [k < 5] rate-limited calls it returns the
    result of a call that succeeds and gives up with [None] on any other
    error; after five rate-limited calls it gives up with [None]. *)
Theorem fetch_with_rate_limit_retries {A} (env : nat -> fetch_attempt A)
    (k : nat) :
  (forall i, (i < k)%nat -> env i = rate_limited) ->
  ((k < 5)%nat ->
   (forall result, env k = fetched result ->
      _fetch_with_rate_limit env = Some result) /\
   (env k = fetch_failed -> _fetch_with_rate_limit env = None)) /\
  ((5 <= k)%nat -> _fetch_with_rate_limit env = None).
Proof.
  intros Hrl. unfold _fetch_with_rate_limit. split.
  - intros Hk.
    pose proof (fetch_loop_limited env 5 0 k Hk
                  ltac:(intros i Hi; apply Hrl; lia)) as E.
    rewrite E. change (0 + k)%nat with k.
    destruct (5 - k)%nat as [|n] eqn:En; [lia|]. simpl.
    split; [intros result ->; reflexivity|intros ->; reflexivity].
  - intros Hk. simpl.
    rewrite !Hrl by lia. reflexivity.
Qed.

Lemma fetch_with_rate_limit_retries_witness :
  _fetch_with_rate_limit
    (fun i => if (i <? 2)%nat then rate_limited else fetched 7%Z) = Some 7%Z.
Proof.
  refine (proj1 (proj1 (fetch_with_rate_limit_retries _ 2 _) _) _ _).
  - intros i Hi. apply Nat.ltb_lt in Hi. by rewrite Hi.
  - lia.
  - reflexivity.
Defined.

End BacktesterMoreSpec.

(** ** More about the risk manager *)

Module RiskManagerMoreSpec.
Import Data Backtester RiskManager RiskManagerMore.

Lemma py_max_ge_l (a b : Q) : a <= py_max a b.
Proof. destruct (py_max_cases a b) as [[? ->]|[? ->]]; lra. Qed.

Lemma py_max_ge_r (a b : Q) : b <= py_max a b.
Proof. destruct (py_max_cases a b) as [[? ->]|[? ->]]; lra. Qed.

Lemma valid_price_pos price : 0.01 <= valid_price price.
Proof. apply py_max_ge_l. Qed.


Lemma valid_kelly_bounds k : 0 <= valid_kelly k /\ valid_kelly k <= 1.
Proof.
  unfold valid_kelly. set (x := or_float k 0.02).
  destruct (py_min_cases x 1) as [[? ->]|[? ->]];
    [destruct (py_max_cases 0 1) as [[? ->]|[? ->]]
    |destruct (py_max_cases 0 x) as [[? ->]|[? ->]]]; lra.
Qed.

Lemma valid_kelly_pos k : 0 <= k -> 0 < valid_kelly k.
Proof.
  intros Hk. unfold valid_kelly, or_float.
  destruct (Qeq_bool k 0) eqn:E; qbool.
  - destruct (py_min_cases 0.02 1) as [[? ->]|[? ->]];
      [lra|destruct (py_max_cases 0 0.02) as [[? ->]|[? ->]]; lra].
  - assert (0 < k) by lra.
    destruct (py_min_cases k 1) as [[? ->]|[? ->]];
      [destruct (py_max_cases 0 1) as [[? ->]|[? ->]]
      |destruct (py_max_cases 0 k) as [[? ->]|[? ->]]]; lra.
Qed.







Lemma confidence_range (self : config)
    (current_price volatility atr kelly_fraction portfolio_value : Q) :
  let m := _calculate_risk_metrics self current_price volatility atr
             kelly_fraction portfolio_value in
  30 <= rm_confidence m /\ rm_confidence m <= 95.
Proof.
  intros m. subst m. unfold _calculate_risk_metrics. simpl.
  pose proof (valid_kelly_bounds kelly_fraction) as [Hk0 Hk1].
  set (kelly := valid_kelly kelly_fraction) in *.
  set (dq := py_min 1 (kelly * 2)).
  assert (Hdq : 0 <= dq /\ dq <= 1).
  { unfold dq. destruct (py_min_cases 1 (kelly * 2)) as [[? ->]|[? ->]]; lra. }
  match goal with |- context [Z.max 0 ?x] => set (rec := Z.max 0 x) end.
  set (cs := if (0 <? rec)%Z then 1 else 0.3).
  assert (Hcs : 0 <= cs /\ cs <= 1)
    by (unfold cs; destruct (0 <? rec)%Z; lra).
  assert (Hprod : 0 <= dq * cs * 65) by nra.
  destruct (py_min_cases 95 (30 + dq * cs * 65)) as [[? ->]|[? ->]];
    split; lra.
Qed.

(** X13.  Whatever its inputs, [_calculate_risk_metrics] gives a stop-loss
    percentage in [[0.02, 0.08]], a stop price between 92% and 98% of the
    validated price, and a confidence in [[30, 95]] that is at most 49.5 when
    no share is recommended. *)
Theorem stop_loss_and_confidence_bounds (self : config)
    (current_price volatility atr kelly_fraction portfolio_value : Q) :
  let m := _calculate_risk_metrics self current_price volatility atr
             kelly_fraction portfolio_value in
  0.02 <= stop_loss_pct m /\ stop_loss_pct m <= 0.08 /\
  0.92 * valid_price current_price <= stop_loss_price m /\
  stop_loss_price m <= 0.98 * valid_price current_price /\
  30 <= rm_confidence m /\ rm_confidence m <= 95 /\
  (recommended_shares m = 0%Z -> rm_confidence m <= 49.5).
Proof.
  intros m. subst m. unfold _calculate_risk_metrics. simpl.
  pose proof (valid_price_pos current_price) as Hp.
  pose proof (valid_kelly_bounds kelly_fraction) as [Hk0 Hk1].
  set (price := valid_price current_price) in *.
  set (kelly := valid_kelly kelly_fraction) in *.
  set (vol := valid_volatility volatility).
  set (pct := py_min 0.08 (py_max 0.02 (vol * 1.5))).
  assert (Hpct : 0.02 <= pct /\ pct <= 0.08).
  { unfold pct.
    destruct (py_max_cases 0.02 (vol * 1.5)) as [[? ->]|[? ->]].
    - destruct (py_min_cases 0.08 (vol * 1.5)) as [[? ->]|[? ->]]; lra.
    - destruct (py_min_cases 0.08 0.02) as [[? ->]|[? ->]]; lra. }
  set (dq := py_min 1 (kelly * 2)).
  assert (Hdq : 0 <= dq /\ dq <= 1).
  { unfold dq. destruct (py_min_cases 1 (kelly * 2)) as [[? ->]|[? ->]]; lra. }
  match goal with |- context [Z.max 0 ?x] => set (rec := Z.max 0 x) end.
  set (cs := if (0 <? rec)%Z then 1 else 0.3).
  assert (Hcs : 0 <= cs /\ cs <= 1)
    by (unfold cs; destruct (0 <? rec)%Z; lra).
  assert (Hprod : 0 <= dq * cs * 65 /\ dq * cs * 65 <= 65 * cs).
  { split; [|]; nra. }
  destruct Hpct as [Hl Hu]. destruct Hprod as [Hq0 Hq1].
  split; [exact Hl|]. split; [exact Hu|].
  split; [nra|]. split; [nra|].
  destruct (py_min_cases 95 (30 + dq * cs * 65)) as [[? ->]|[? ->]].
  - split; [lra|]. split; [lra|]. intros H0.
    unfold cs in *. rewrite H0 in *. simpl in *. lra.
  - split; [lra|]. split; [lra|]. intros H0.
    unfold cs in *. rewrite H0 in *. simpl in *. lra.
Qed.

Lemma stop_loss_and_confidence_bounds_witness :
  rm_confidence
    (_calculate_risk_metrics default_config 50 (3 # 10) 2 (1 # 10) 1000)
  <= 49.5.
Proof.
  apply (proj2 (proj2 (proj2 (proj2 (proj2 (proj2
    (stop_loss_and_confidence_bounds default_config 50 (3 # 10) 2 (1 # 10)
       1000))))))).
  vm_compute. reflexivity.
Defined.

(** X14.  A Kelly fraction that is not negative always buys a positive
    adjusted fraction when the multiplier is positive: the validation block
    replaces a fraction of exactly 0 by the default 0.02. *)
Theorem zero_kelly_is_sized (self : config)
    (current_price volatility atr kelly_fraction portfolio_value : Q) :
  0 < kelly_multiplier self -> 0 <= kelly_fraction ->
  let m := _calculate_risk_metrics self current_price volatility atr
             kelly_fraction portfolio_value in
  0 < kelly_adjusted m /\
  (kelly_fraction == 0 -> kelly_adjusted m == 0.02 * kelly_multiplier self).
Proof.
  intros Hmul Hk m. subst m. unfold _calculate_risk_metrics. simpl.
  pose proof (valid_kelly_pos kelly_fraction Hk) as Hpos. split; [nra|].
  intros H0. unfold valid_kelly, or_float.
  apply Qeq_bool_iff in H0. rewrite H0.
  destruct (py_min_cases 0.02 1) as [[? ->]|[? ->]]; [lra|].
  destruct (py_max_cases 0 0.02) as [[? ->]|[? ->]]; lra.
Qed.

Lemma zero_kelly_is_sized_witness :
  kelly_adjusted (_calculate_risk_metrics default_config 50 (3 # 10) 2 0 100000)
  == 0.005.
Proof.
  destruct (zero_kelly_is_sized default_config 50 (3 # 10) 2 0 100000)
    as [_ H]; [vm_compute; reflexivity|vm_compute; discriminate|].
  rewrite H by reflexivity. vm_compute. reflexivity.
Defined.


(** *** The risk signals *)

Section AnalyzeFacts.
Variable self : config.
Variables volatility_of atr_of : frame -> Q.

Local Abbreviation analyze_from' :=
  (analyze_from self volatility_of atr_of).

(** The entry stored for one ticker by the loop of [analyze]. *)
Definition entry_of (prices_dict : gmap string frame) (portfolio_value : Q)
    (ticker : string) : AnalystSignal risk_reasoning :=
  match default [] (prices_dict !! ticker) with
  | [] => _create_default_signal self portfolio_value
  | bar :: bars =>
    risk_signal self volatility_of atr_of (bar :: bars) portfolio_value
  end.

Lemma analyze_from_lookup signals tickers prices_dict portfolio_value ticker :
  analyze_from' signals tickers prices_dict portfolio_value !! ticker
  = if decide (ticker ∈ tickers)
    then Some (entry_of prices_dict portfolio_value ticker)
    else signals !! ticker.
Proof.
  revert signals. induction tickers as [|t rest IH]; intros signals.
  - rewrite decide_False by apply not_elem_of_nil. done.
  - cbn [analyze_from]. rewrite IH.
    destruct (decide (ticker ∈ rest)) as [Hrest|Hrest].
    + rewrite decide_True by (by apply list_elem_of_further). done.
    + destruct (decide (ticker = t)) as [->|Hne].
      * rewrite decide_True by apply list_elem_of_here.
        rewrite lookup_insert_eq. unfold entry_of.
        by destruct (default [] (prices_dict !! t)).
      * rewrite lookup_insert_ne by done.
        rewrite decide_False; [done|].
        intros [?|?]%elem_of_cons; done.
Qed.

Lemma entry_of_facts prices_dict portfolio_value ticker :
  let s := entry_of prices_dict portfolio_value ticker in
  signal s = "risk_management" /\
  (exists n, max_position_size s = Some n /\ (0 <= n)%Z) /\
  25 <= confidence s /\ confidence s <= 95.
Proof.
  unfold entry_of. destruct (default [] (prices_dict !! ticker)) as [|bar bars].
  - simpl. split; [done|]. split; [by exists 0%Z|]. split; lra.
  - unfold risk_signal.
    cbn [signal confidence max_position_size].
    set (m := _calculate_risk_metrics _ _ _ _ _ _).
    split; [done|]. split.
    + exists (recommended_shares m). split; [done|].
      unfold m, _calculate_risk_metrics. cbn [recommended_shares]. lia.
    + destruct (confidence_range self
                  (_get_current_price (bar :: bars))
                  (volatility_of (bar :: bars)) (atr_of (bar :: bars))
                  (_calculate_kelly_fraction_polars (bar :: bars)
                     (volatility_of (bar :: bars))) portfolio_value)
        as [H1 H2].
      fold m in H1, H2. split; lra.
Qed.

End AnalyzeFacts.

(** X15.  [RiskManager.analyze] stores a signal for every listed ticker and
    for no other: its signal is "risk_management", its position limit is a
    non-negative number of shares and its confidence lies in [[25, 95]].  A
    ticker whose frame is missing or empty gets the default signal, with a
    limit of 0 shares and confidence 25. *)
Theorem risk_signal_for_every_ticker (self : config)
    (volatility_of atr_of : frame -> Q) (tickers : list string)
    (prices_dict : gmap string frame) (portfolio : Portfolio) :
  let signals :=
    analyze self volatility_of atr_of tickers prices_dict portfolio in
  (forall ticker, ticker ∈ tickers ->
     exists s n,
       signals !! ticker = Some s /\ signal s = "risk_management" /\
       max_position_size s = Some n /\ (0 <= n)%Z /\
       25 <= confidence s /\ confidence s <= 95 /\
       (default [] (prices_dict !! ticker) = [] ->
        s = _create_default_signal self (_calculate_portfolio_value portfolio)
        /\ n = 0%Z)) /\
  (forall ticker, ticker ∉ tickers -> signals !! ticker = None).
Proof.
  intros signals. subst signals. unfold analyze. split.
  - intros ticker Hin. rewrite analyze_from_lookup, decide_True by done.
    destruct (entry_of_facts self volatility_of atr_of prices_dict
                (_calculate_portfolio_value portfolio) ticker)
      as (Hs & (n & Hn & Hn0) & Hlo & Hhi).
    eexists _, n. split; [reflexivity|]. split; [exact Hs|].
    split; [exact Hn|]. split; [exact Hn0|]. split; [exact Hlo|].
    split; [exact Hhi|]. intros Hempty.
    unfold entry_of in *. rewrite Hempty in *. split; [done|].
    simpl in Hn. congruence.
  - intros ticker Hnot. rewrite analyze_from_lookup, decide_False by done.
    apply lookup_empty.
Qed.

Definition sample_frame : frame :=
  [mkBar "2024-01-02" 100 101 99 100 1000].

Lemma risk_signal_for_every_ticker_witness :
  exists s,
    analyze default_config (fun _ => 0.3) (fun _ => 2) ["AAPL"; "MSFT"]
      (<["AAPL" := sample_frame]> ∅)
      (init_portfolio ["AAPL"; "MSFT"] 100000 (1 # 2)) !! "MSFT" = Some s /\
    max_position_size s = Some 0%Z.
Proof.
  destruct (risk_signal_for_every_ticker default_config (fun _ => 0.3)
              (fun _ => 2) ["AAPL"; "MSFT"]
              (<["AAPL" := sample_frame]> ∅)
              (init_portfolio ["AAPL"; "MSFT"] 100000 (1 # 2)))
    as [H _].
  destruct (H "MSFT") as (s & n & Hs & _ & Hn & _ & _ & _ & Hd).
  { apply list_elem_of_further, list_elem_of_here. }
  exists s. split; [exact Hs|].
  destruct Hd as [_ ->]; [reflexivity|exact Hn].
Defined.

(** *** The allocation *)

Lemma fold_left_sum {A} (f : A -> Q) (l : list A) (a : Q) :
  fold_left (fun total x => total + f x) l a == a + Qsum (map f l).
Proof.
  revert a. induction l as [|x l IH]; intros a; simpl.
  - unfold Qsum. simpl. ring.
  - rewrite IH. unfold Qsum. simpl. ring.
Qed.

Lemma capped_shares_sum {A} (score : A -> Q) (cap total : Q) (l : list A) :
  0 < total ->
  Qsum (map (fun x => py_min (score x / total) cap) l)
  <= Qsum (map score l) / total.
Proof.
  intros Ht. induction l as [|x l IH]; unfold Qsum in *; simpl.
  - apply Qle_shift_div_l; lra.
  - pose proof (py_min_le_l (score x / total) cap) as Hm.
    assert (E : (score x + fold_right Qplus 0 (map score l)) / total
                == score x / total
                   + fold_right Qplus 0 (map score l) / total)
      by (field; lra).
    rewrite E. lra.
Qed.

Lemma scaled_sum {A} (f : A -> Q) (c : Q) (l : list A) :
  Qsum (map (fun x => c * f x) l) == c * Qsum (map f l).
Proof.
  induction l as [|x l IH]; unfold Qsum in *; simpl; [ring|].
  rewrite IH. ring.
Qed.

(** X16.  [optimize_portfolio_allocation] allocates only to decisions that
    are not "hold" and ask for a positive quantity, never more than
    [max_position_pct] to one of them, and never more than the whole
    portfolio in total: the allocated fractions sum to at most 1. *)
Theorem allocation_within_limits (self : config)
    (trading_decisions : list (string * MixGo.MegaAgentDecision))
    (portfolio_value : Q) :
  let allocation :=
    optimize_portfolio_allocation self trading_decisions portfolio_value in
  (forall ticker a, In (ticker, a) allocation ->
     exists decision,
       In (ticker, decision) trading_decisions /\
       MixGo.action decision <> "hold" /\ (0 < MixGo.quantity decision)%Z /\
       original_confidence a = MixGo.d_confidence decision /\
       allocation_pct a <= max_position_pct self /\
       allocation_value a == portfolio_value * allocation_pct a) /\
  Qsum (map (fun ta => allocation_pct (snd ta)) allocation) <= 1 /\
  (0 <= portfolio_value ->
   Qsum (map (fun ta => allocation_value (snd ta)) allocation)
   <= portfolio_value).
Proof.
  intros allocation. subst allocation. unfold optimize_portfolio_allocation.
  set (active := List.filter _ trading_decisions).
  set (total := fold_left _ active 0).
  assert (Htotal : total == Qsum (map (fun td => risk_score_of (snd td)) active)).
  { unfold total.
    rewrite (fold_left_sum (fun td => risk_score_of (snd td)) active 0). ring. }
  destruct (Qlt_bool 0 total) eqn:Epos; qbool.
  2:{ split; [intros ? ? []|]. unfold Qsum. simpl. split; [lra|]. intros; lra. }
  set (g := fun td : string * MixGo.MegaAgentDecision => _).
  assert (Hsum : Qsum (map (fun ta => allocation_pct (snd ta)) (map g active))
                 <= 1).
  { rewrite map_map. unfold g. cbn [snd allocation_pct].
    eapply Qle_trans;
      [apply (capped_shares_sum (fun td => risk_score_of (snd td))); exact Epos|].
    rewrite <- Htotal. apply Qle_shift_div_r; lra. }
  split; [|split; [exact Hsum|]].
  - intros ticker a Hin. apply in_map_iff in Hin as ([t d] & Heq & Hact).
    unfold g in Heq. simpl in Heq. injection Heq as -> <-.
    apply filter_In in Hact as [Hin Hact]. simpl in Hact.
    unfold is_active in Hact. apply andb_true_iff in Hact as [Hh Hq].
    apply negb_true_iff, String.eqb_neq in Hh. apply Z.ltb_lt in Hq.
    exists d. split; [exact Hin|]. split; [exact Hh|]. split; [exact Hq|].
    cbn [original_confidence allocation_pct allocation_value].
    split; [reflexivity|]. split; [apply py_min_le_r|reflexivity].
  - intros Hpv.
    assert (E : Qsum (map (fun ta => allocation_value (snd ta)) (map g active))
                == portfolio_value
                   * Qsum (map (fun ta => allocation_pct (snd ta))
                             (map g active))).
    { rewrite !map_map. unfold g. cbn [snd allocation_pct allocation_value].
      apply (scaled_sum
               (fun td : string * MixGo.MegaAgentDecision =>
                  py_min (risk_score_of (snd td) / total)
                    (max_position_pct self))). }
    rewrite E. set (sum := Qsum _) in *. nra.
Qed.

Definition sample_decisions : list (string * MixGo.MegaAgentDecision) :=
  [("AAPL", MixGo.mkDecision "buy" 10 80 "momentum");
   ("MSFT", MixGo.mkDecision "hold" 0 50 "flat");
   ("TSLA", MixGo.mkDecision "short" 5 20 "overvalued")].

Lemma allocation_within_limits_witness :
  Qsum (map (fun ta => allocation_value (snd ta))
          (optimize_portfolio_allocation default_config sample_decisions
             100000))
  <= 100000.
Proof.
  apply (proj2 (proj2 (allocation_within_limits default_config
                         sample_decisions 100000))).
  vm_compute. discriminate.
Defined.

(** *** The exposures of the summary *)

Lemma add_exposure_facts (portfolio_value : Q) (position : Position)
    (e : exposure) :
  0 < portfolio_value -> 0 <= e_largest e ->
  let e' := add_exposure portfolio_value position e in
  let long_value := inject_Z (long position) * long_cost_basis position in
  let short_value := inject_Z (short position) * short_cost_basis position in
  e_long e' == e_long e + long_value /\
  e_short e' == e_short e + short_value /\
  e_largest e <= e_largest e' /\
  long_value / portfolio_value <= e_largest e' /\
  short_value / portfolio_value <= e_largest e' /\
  (e_largest e' == e_largest e
   \/ e_largest e' == long_value / portfolio_value
   \/ e_largest e' == short_value / portfolio_value).
Proof.
  intros Hpv Hl e' long_value short_value. subst e'.
  unfold add_exposure, truthy_Z, truthy_Q.
  assert (Ev : Qlt_bool 0 portfolio_value = true) by (by apply Qlt_bool_iff).
  rewrite Ev.
  assert (HL : (long position =? 0)%Z = true
               \/ Qeq_bool (long_cost_basis position) 0 = true ->
               long_value / portfolio_value == 0).
  { intros [Hz|Hq]; unfold long_value.
    - apply Z.eqb_eq in Hz. rewrite Hz. change (inject_Z 0) with 0.
      field; lra.
    - qbool. rewrite Hq. field; lra. }
  assert (HS : (short position =? 0)%Z = true
               \/ Qeq_bool (short_cost_basis position) 0 = true ->
               short_value / portfolio_value == 0).
  { intros [Hz|Hq]; unfold short_value.
    - apply Z.eqb_eq in Hz. rewrite Hz. change (inject_Z 0) with 0.
      field; lra.
    - qbool. rewrite Hq. field; lra. }
  assert (HL' : long_value == long_value / portfolio_value * portfolio_value)
    by (field; lra).
  assert (HS' : short_value == short_value / portfolio_value * portfolio_value)
    by (field; lra).
  fold long_value short_value.
  set (lp := long_value / portfolio_value) in *.
  set (sp := short_value / portfolio_value) in *.
  destruct ((0 <? long position)%Z || (0 <? short position)%Z);
    cbn [e_count e_long e_short e_largest];
    destruct ((long position =? 0)%Z) eqn:E1;
    destruct (Qeq_bool (long_cost_basis position) 0) eqn:E2;
    destruct ((short position =? 0)%Z) eqn:E3;
    destruct (Qeq_bool (short_cost_basis position) 0) eqn:E4;
    cbn [negb andb e_count e_long e_short e_largest];
    try (assert (lp == 0) as Hlp by (apply HL; auto));
    try (assert (sp == 0) as Hsp by (apply HS; auto));
    try (destruct (py_max_cases (e_largest e) lp) as [[? Em]|[? Em]];
         rewrite ?Em);
    try (destruct (py_max_cases (e_largest e) sp) as [[? Em2]|[? Em2]];
         rewrite ?Em2);
    try (destruct (py_max_cases lp sp) as [[? Em3]|[? Em3]]; rewrite ?Em3);
    (split; [nra|]); (split; [nra|]); (split; [lra|]); (split; [lra|]);
    (split; [lra|]);
    first [left; lra | right; left; lra | right; right; lra].
Qed.

Lemma exposure_fold_facts (portfolio_value : Q)
    (l : list (string * Position)) :
  0 < portfolio_value ->
  let e := foldr (fun kp acc => add_exposure portfolio_value (snd kp) acc)
             (mkExposure 0 0 0 0) l in
  e_long e
  == foldr (fun kp acc =>
              inject_Z (long (snd kp)) * long_cost_basis (snd kp) + acc) 0 l /\
  e_short e
  == foldr (fun kp acc =>
              inject_Z (short (snd kp)) * short_cost_basis (snd kp) + acc)
       0 l /\
  0 <= e_largest e /\
  (forall kp, In kp l ->
     inject_Z (long (snd kp)) * long_cost_basis (snd kp) / portfolio_value
     <= e_largest e /\
     inject_Z (short (snd kp)) * short_cost_basis (snd kp) / portfolio_value
     <= e_largest e) /\
  (e_largest e == 0 \/
   exists kp, In kp l /\
     (e_largest e
      == inject_Z (long (snd kp)) * long_cost_basis (snd kp) / portfolio_value
      \/ e_largest e
         == inject_Z (short (snd kp)) * short_cost_basis (snd kp)
            / portfolio_value)).
Proof.
  intros Hpv. induction l as [|kp l IH]; cbn zeta.
  - simpl. split; [reflexivity|]. split; [reflexivity|]. split; [lra|].
    split; [intros ? []|]. left. reflexivity.
  - cbn zeta in IH. simpl.
    set (e := foldr _ _ l) in *.
    destruct IH as (Hl & Hs & H0 & Hall & Hmax).
    destruct (add_exposure_facts portfolio_value (snd kp) e Hpv H0)
      as (Al & As & Amono & Alp & Asp & Awhich).
    cbn zeta in *.
    set (e' := add_exposure portfolio_value (snd kp) e) in *.
    split; [rewrite Al, Hl; ring|]. split; [rewrite As, Hs; ring|].
    split; [lra|]. split.
    + intros kp' [<-|Hin]; [split; assumption|].
      destruct (Hall kp' Hin) as [H1 H2]. split; lra.
    + destruct Awhich as [Same|[Lng|Sht]].
      * destruct Hmax as [Hz|(kp' & Hin & Hc)].
        -- left. lra.
        -- right. exists kp'. split; [by right|].
           destruct Hc as [Hc|Hc]; [left|right]; lra.
      * right. exists kp. split; [by left|]. by left.
      * right. exists kp. split; [by left|]. by right.
Qed.

Lemma portfolio_value_floor (portfolio : Portfolio) :
  10000 <= _calculate_portfolio_value portfolio.
Proof. unfold _calculate_portfolio_value. apply py_max_ge_r. Qed.

(** X17.  In the portfolio summary the long and short exposures are the sums
    of quantity times cost basis over all positions.  The flag
    [within_risk_limits] is true only if no position, long or short, is
    worth more than [max_position_pct] of the reported total value; for a
    non-negative limit it is false only if some position is worth more. *)
Theorem summary_exposures (self : config) (portfolio : Portfolio) :
  let s := get_portfolio_summary self portfolio in
  long_exposure s == long_cost_value portfolio /\
  short_exposure s == short_cost_value portfolio /\
  0 <= largest_position_pct s /\
  (within_risk_limits s = true ->
   forall ticker position, positions portfolio !! ticker = Some position ->
     inject_Z (long position) * long_cost_basis position
     <= max_position_pct self * total_value s /\
     inject_Z (short position) * short_cost_basis position
     <= max_position_pct self * total_value s) /\
  (0 <= max_position_pct self -> within_risk_limits s = false ->
   exists ticker position, positions portfolio !! ticker = Some position /\
     (max_position_pct self * total_value s
      < inject_Z (long position) * long_cost_basis position
      \/ max_position_pct self * total_value s
         < inject_Z (short position) * short_cost_basis position)).
Proof.
  intros s. subst s. unfold get_portfolio_summary.
  cbn [long_exposure short_exposure largest_position_pct within_risk_limits
       total_value].
  pose proof (portfolio_value_floor portfolio) as Hfloor.
  set (pv := _calculate_portfolio_value portfolio) in *.
  assert (Hpv : 0 < pv) by lra.
  unfold long_cost_value, short_cost_value. rewrite !map_fold_foldr.
  pose proof (exposure_fold_facts pv (map_to_list (positions portfolio)) Hpv)
    as (Hl & Hs & H0 & Hall & Hmax).
  cbn zeta in *.
  assert (Euncurry : forall (l : list (string * Position)) (e0 : exposure),
            foldr (uncurry (fun (_ : string) position acc =>
                              add_exposure pv position acc)) e0 l
            = foldr (fun kp acc => add_exposure pv (snd kp) acc) e0 l).
  { intros l e0. induction l as [|[k x] l IH]; simpl; [done|]. by rewrite IH. }
  assert (Elong : forall l : list (string * Position),
            foldr (uncurry (fun (_ : string) position acc =>
                     inject_Z (long position) * long_cost_basis position
                     + acc)) 0 l
            = foldr (fun kp acc =>
                       inject_Z (long (snd kp)) * long_cost_basis (snd kp)
                       + acc) 0 l).
  { intros l. induction l as [|[k x] l IH]; simpl; [done|]. by rewrite IH. }
  assert (Eshort : forall l : list (string * Position),
            foldr (uncurry (fun (_ : string) position acc =>
                     inject_Z (short position) * short_cost_basis position
                     + acc)) 0 l
            = foldr (fun kp acc =>
                       inject_Z (short (snd kp)) * short_cost_basis (snd kp)
                       + acc) 0 l).
  { intros l. induction l as [|[k x] l IH]; simpl; [done|]. by rewrite IH. }
  rewrite Euncurry, Elong, Eshort.
  set (e := foldr _ (mkExposure 0 0 0 0) _) in *.
  split; [exact Hl|]. split; [exact Hs|]. split; [exact H0|]. split.
  - intros Hin ticker position Hlook. apply Qle_bool_iff in Hin.
    destruct (Hall (ticker, position)) as [H1 H2].
    { apply list_elem_of_In, elem_of_map_to_list. exact Hlook. }
    cbn [snd] in H1, H2.
    assert (forall v, v / pv <= e_largest e ->
                      v <= max_position_pct self * pv) as Hstep.
    { intros v Hv.
      assert (v == v / pv * pv) as -> by (field; lra). nra. }
    split; apply Hstep; assumption.
  - intros Hcap Hout.
    assert (Hgt : max_position_pct self < e_largest e).
    { destruct (Qle_bool (e_largest e) (max_position_pct self)) eqn:E;
        [discriminate|].
      apply Qnot_le_lt. intros Hle. apply Qle_bool_iff in Hle. congruence. }
    destruct Hmax as [Hz|([ticker position] & Hin & Hc)]; [lra|].
    exists ticker, position. split.
    { apply elem_of_map_to_list, list_elem_of_In. exact Hin. }
    cbn [snd] in Hc.
    assert (forall v, e_largest e == v / pv ->
                      max_position_pct self * pv < v) as Hstep.
    { intros v Hv.
      assert (v == v / pv * pv) as -> by (field; lra). nra. }
    destruct Hc as [Hc|Hc]; [left|right]; apply Hstep; exact Hc.
Qed.

Definition concentrated_portfolio : Portfolio :=
  set_position (init_portfolio ["AAPL"] 50000 (1 # 2)) "AAPL"
    (mkPosition 100 0 200 0 0).

Lemma summary_exposures_witness :
  exists ticker position,
    positions concentrated_portfolio !! ticker = Some position /\
    (max_position_pct default_config
     * total_value (get_portfolio_summary default_config concentrated_portfolio)
     < inject_Z (long position) * long_cost_basis position
     \/ max_position_pct default_config
        * total_value
            (get_portfolio_summary default_config concentrated_portfolio)
        < inject_Z (short position) * short_cost_basis position).
Proof.
  apply (proj2 (proj2 (proj2 (proj2
    (summary_exposures default_config concentrated_portfolio))))).
  - vm_compute. discriminate.
  - vm_compute. reflexivity.
Defined.

End RiskManagerMoreSpec.

(** ** More about the orchestration *)

Module MixGoMoreSpec.
Import Data Backtester MixGo MixGoMore.

Lemma py_max_compat (a a' c : Q) : a == a' -> py_max a c == py_max a' c.
Proof.
  intros E. destruct (py_max_cases a c) as [[? ->]|[? ->]];
    destruct (py_max_cases a' c) as [[? ->]|[? ->]]; lra.
Qed.

Lemma exposure_fold_sums (l : list (string * Position)) :
  let e :=
    foldr (uncurry (fun (_ : string) ticker_pos
                        '(long_exposure, short_exposure) =>
                      (long_exposure
                       + inject_Z (long ticker_pos)
                         * long_cost_basis ticker_pos,
                       short_exposure
                       + inject_Z (short ticker_pos)
                         * short_cost_basis ticker_pos)))
      (0, 0) l in
  fst e
  == foldr (uncurry (fun (_ : string) position acc =>
                       inject_Z (long position) * long_cost_basis position
                       + acc)) 0 l /\
  snd e
  == foldr (uncurry (fun (_ : string) position acc =>
                       inject_Z (short position) * short_cost_basis position
                       + acc)) 0 l /\
  foldr (uncurry (fun (_ : string) ticker_pos position_value =>
                    position_value
                    + (inject_Z (long ticker_pos) * long_cost_basis ticker_pos
                       - inject_Z (short ticker_pos)
                         * short_cost_basis ticker_pos))) 0 l
  == fst e - snd e.
Proof.
  induction l as [|[k position] l IH]; cbn zeta.
  - simpl. split; [reflexivity|]. split; [reflexivity|]. ring.
  - cbn zeta in IH. simpl.
    destruct (foldr _ (0, 0) l) as [a b]. simpl in *.
    destruct IH as (Hl & Hs & Hv).
    split; [rewrite <- Hl; ring|]. split; [rewrite <- Hs; ring|].
    rewrite Hv. ring.
Qed.

(** X18.  The exposure report of the orchestrator sums quantity times cost
    basis over the longs and over the shorts, and its portfolio value is
    cash plus the net exposure: shorts are subtracted.  The risk manager
    adds them instead, so its value is the larger of 10000 and the
    orchestrator's value plus twice the short exposure. *)
Theorem portfolio_value_and_exposure (portfolio : Portfolio) :
  let e := _calculate_portfolio_exposure portfolio in
  exp_long e == RiskManager.long_cost_value portfolio /\
  exp_short e == RiskManager.short_cost_value portfolio /\
  _calculate_portfolio_value portfolio == cash portfolio + exp_net e /\
  RiskManager._calculate_portfolio_value portfolio
  == py_max (_calculate_portfolio_value portfolio + 2 * exp_short e) 10000.
Proof.
  intros e. subst e.
  unfold _calculate_portfolio_exposure, _calculate_portfolio_value,
    RiskManager.long_cost_value, RiskManager.short_cost_value,
    RiskManager._calculate_portfolio_value.
  pose proof (RiskManagerSpec.positions_value_sum (positions portfolio))
    as Hrm.
  rewrite !map_fold_foldr in *.
  pose proof (exposure_fold_sums (map_to_list (positions portfolio)))
    as (Hl & Hs & Hv).
  cbn zeta in *.
  destruct (foldr _ (0, 0) _) as [a b].
  cbn [fst snd exp_long exp_short exp_net] in *.
  split; [exact Hl|]. split; [exact Hs|]. split; [rewrite Hv; ring|].
  apply py_max_compat. rewrite Hrm, Hv, <- Hl, <- Hs. ring.
Qed.

(** *** The decisions of [analyze] *)




Section AnalyzeFacts.
Context {R : Type}.
Variable self : RiskManager.config.
Variable dump_risk : RiskManagerMore.risk_reasoning -> R.
Variables volatility_of atr_of : frame -> Q.
Variable get_prices : string -> frame.
Variable agent_signals : gmap string (gmap string (AnalystSignal R)).
Variable llm : string -> nat -> Llm.attempt MegaAgentDecision.





End AnalyzeFacts.



End MixGoMoreSpec.

(** ** More about the reasoning call *)

Module LlmMoreSpec.
Import Llm.

Lemma retry_loop_first {T} (model : pydantic_model T) max_retries factory
    (env : nat -> attempt T) (k : nat) (d : T) :
  env k = parsed d ->
  (forall i, (i < k)%nat -> LlmSpec.not_parsed (env i)) ->
  (k < max_retries)%nat ->
  forall remaining attempt,
    (attempt + remaining = max_retries)%nat -> (attempt <= k)%nat ->
    retry_loop model max_retries factory env remaining attempt = Some d.
Proof.
  intros Hk Hbefore Hlt.
  induction remaining as [|n IH]; intros attempt Hsum Hle; [lia|].
  cbn [retry_loop]. destruct (decide (attempt = k)) as [->|Hne].
  { by rewrite Hk. }
  pose proof (Hbefore attempt ltac:(lia)) as Hfail.
  assert (Hnext : retry_loop model max_retries factory env n (S attempt)
                  = Some d) by (apply IH; lia).
  assert (Hlast : (attempt =? max_retries - 1)%nat = false)
    by (apply Nat.eqb_neq; lia).
  destruct (env attempt); simpl in Hfail; try done; by rewrite ?Hlast.
Qed.

(** X20.  [call_llm], for any number of retries: it returns the instance of
    the first attempt that parses, provided that attempt is among the first
    [max_retries]; when none of these parses it returns the result of
    [default_factory] if one was given and the default built from the field
    types otherwise. *)
Theorem call_llm_result {T} (model : pydantic_model T) (max_retries : nat)
    (factory : option (unit -> option T)) (env : nat -> attempt T) :
  (forall k d,
     (k < max_retries)%nat ->
     (forall i, (i < k)%nat -> LlmSpec.not_parsed (env i)) ->
     env k = parsed d ->
     call_llm model max_retries factory env = Some d) /\
  ((forall i, (i < max_retries)%nat -> LlmSpec.not_parsed (env i)) ->
   call_llm model max_retries factory env
   = match factory with
     | Some f => f tt
     | None => _create_default_response model
     end).
Proof.
  unfold call_llm. split.
  - intros k d Hlt Hbefore Hk.
    apply (retry_loop_first model max_retries factory env k d); (done || lia).
  - intros Hfail. rewrite LlmSpec.retry_loop_fallback; [reflexivity|].
    intros i Hi. apply Hfail. lia.
Qed.

Lemma call_llm_result_witness :
  call_llm MixGo.MegaAgentDecision_model 3 None
    (fun i => match i with
              | 0%nat => call_raises
              | 1%nat => parsed (MixGo.mkDecision "buy" 10 80 "second try")
              | _ => parsed (MixGo.mkDecision "sell" 5 60 "third try")
              end)
  = Some (MixGo.mkDecision "buy" 10 80 "second try").
Proof.
  apply (proj1 (call_llm_result MixGo.MegaAgentDecision_model 3 None _) 1%nat).
  - lia.
  - intros i Hi. assert (i = 0%nat) as -> by lia. exact I.
  - reflexivity.
Defined.

End LlmMoreSpec.

(** ** More about the technical analyst *)

Module TechnicalAnalystMoreSpec.
Import Data TechnicalAnalyst.

Lemma py_round_range (x : Q) :
  0 <= x -> x <= 100 -> (0 <= py_round x <= 100)%Z.
Proof.
  intros H0 H1.
  pose proof (TechnicalAnalystSpec.py_round_near x) as Hn.
  apply Qabs_Qle_condition in Hn. destruct Hn as [Hl Hu].
  split.
  - destruct (Z_lt_le_dec (py_round x) 0) as [Hlt|]; [|done].
    assert (H : inject_Z (py_round x) <= inject_Z (-1))
      by (rewrite <- Zle_Qle; lia).
    change (inject_Z (-1)) with (-1) in H. lra.
  - destruct (Z_lt_le_dec 100 (py_round x)) as [Hlt|]; [|done].
    assert (H : inject_Z 101 <= inject_Z (py_round x))
      by (rewrite <- Zle_Qle; lia).
    change (inject_Z 101) with 101 in H. lra.
Qed.

Lemma combined_signal_ranges {M} (signals : list (string * StrategySignal M)) :
  let r := _weighted_signal_combination signals in
  (c_signal r = "bullish" \/ c_signal r = "bearish" \/ c_signal r = "neutral")
  /\ 0 <= c_confidence r /\ c_confidence r <= 1.
Proof.
  unfold _weighted_signal_combination. cbn [c_signal c_confidence]. split.
  - destruct (Qlt_bool 0.2 (final_score signals)); [by left|].
    destruct (Qlt_bool (final_score signals) (-0.2)); auto.
  - set (a := Qabs (final_score signals)).
    destruct (py_min_cases a 1) as [[? ->]|[? ->]];
      [destruct (py_max_cases 0 1) as [[? ->]|[? ->]]
      |destruct (py_max_cases 0 a) as [[? ->]|[? ->]]]; lra.
Qed.

(** X21.  Every signal stored by the technical analyst belongs to a listed
    ticker with a non-empty price frame; its signal is "bullish", "bearish"
    or "neutral", its confidence is a whole number between 0 and 100, and it
    carries no position limit. *)
Theorem analyst_signal_ranges {M} (get_prices : string -> frame)
    (trend mean_reversion momentum volatility stat_arb
       : frame -> StrategySignal M) (tickers : list string) (ticker : string)
    (s : AnalystSignal (list (string * (string * Z * M)))) :
  analyze get_prices trend mean_reversion momentum volatility stat_arb
    tickers !! ticker = Some s ->
  ticker ∈ tickers /\ get_prices ticker <> [] /\
  (signal s = "bullish" \/ signal s = "bearish" \/ signal s = "neutral") /\
  (exists z, confidence s = inject_Z z /\ (0 <= z <= 100)%Z) /\
  max_position_size s = None.
Proof.
  unfold analyze. intros Hs.
  destruct (decide (ticker ∈ tickers)) as [Hin|Hout].
  2:{ rewrite TechnicalAnalystSpec.analyze_from_skips in Hs by (by right).
      rewrite lookup_empty in Hs. discriminate. }
  destruct (get_prices ticker) as [|bar bars] eqn:Eframe.
  { rewrite TechnicalAnalystSpec.analyze_from_skips in Hs by (by left).
    rewrite lookup_empty in Hs. discriminate. }
  rewrite TechnicalAnalystSpec.analyze_from_enters in Hs
    by (done || by rewrite Eframe).
  injection Hs as <-. split; [exact Hin|]. split; [discriminate|].
  unfold analyze_ticker. cbn [signal confidence max_position_size _safe_round].
  match goal with
  | |- context [_weighted_signal_combination ?l] =>
      destruct (combined_signal_ranges l) as (Hsig & Hc0 & Hc1);
      set (r := _weighted_signal_combination l) in *
  end.
  split; [exact Hsig|]. split; [|reflexivity].
  eexists. split; [reflexivity|]. apply py_round_range; lra.
Qed.

Lemma analyst_signal_ranges_witness :
  let s := fun _ : frame => mkStrategy "bullish" (Finite 0.8) tt in
  exists z,
    confidence (analyze_ticker s s s s s TechnicalAnalystSpec.one_bar)
    = inject_Z z /\ (0 <= z <= 100)%Z.
Proof.
  intros s.
  refine (proj1 (proj2 (proj2 (proj2
    (analyst_signal_ranges (fun _ => TechnicalAnalystSpec.one_bar)
       s s s s s ["AAPL"] "AAPL" _ _))))).
  reflexivity.
Defined.

(** *** Unanimous ensembles *)

Lemma strategy_weights_pos strategy weight :
  strategy_weights strategy = Some weight -> 0 < weight.
Proof.
  unfold strategy_weights.
  repeat match goal with
  | |- context [(strategy =? ?x)%string] => destruct (strategy =? x)%string
  end; intros [= <-] || discriminate; lra.
Qed.

Lemma accumulate_unanimous {M} (v : Q)
    (signals : list (string * StrategySignal M)) :
  Forall (fun kv => signal_values (s_signal (snd kv)) = v) signals ->
  forall ws tc,
    ws == v * tc ->
    fst (accumulate signals ws tc) == v * snd (accumulate signals ws tc).
Proof.
  induction 1 as [|[strategy sig] rest Hv _ IH]; intros ws tc E; simpl;
    [exact E|].
  destruct (strategy_weights strategy); [|by apply IH].
  apply IH. simpl in Hv. rewrite Hv, E. ring.
Qed.

Lemma accumulate_total_mono {M} (signals : list (string * StrategySignal M)) :
  forall ws tc, tc <= snd (accumulate signals ws tc).
Proof.
  induction signals as [|[strategy sig] rest IH]; intros ws tc; simpl;
    [lra|].
  destruct (strategy_weights strategy) as [weight|] eqn:Ew; [|apply IH].
  eapply Qle_trans; [|apply IH].
  apply strategy_weights_pos in Ew.
  destruct (TechnicalAnalystSpec.clean_confidence_bounds (s_confidence sig))
    as [Hc _].
  nra.
Qed.

Lemma accumulate_total_pos {M} (signals : list (string * StrategySignal M)) :
  Exists (fun kv => is_Some (strategy_weights (fst kv)) /\
                    0 < clean_confidence (s_confidence (snd kv))) signals ->
  forall ws tc, tc < snd (accumulate signals ws tc).
Proof.
  induction 1 as [[strategy sig] rest [[weight Ew] Hc]|[strategy sig] rest _ IH];
    intros ws tc; simpl in *.
  - rewrite Ew. eapply Qlt_le_trans; [|apply accumulate_total_mono].
    apply strategy_weights_pos in Ew. nra.
  - destruct (strategy_weights strategy) as [weight|] eqn:Ew; [|apply IH].
    eapply Qle_lt_trans; [|apply IH].
    apply strategy_weights_pos in Ew.
    destruct (TechnicalAnalystSpec.clean_confidence_bounds (s_confidence sig))
      as [Hc _].
    nra.
Qed.

Lemma unanimous_score {M} (v : Q)
    (signals : list (string * StrategySignal M)) :
  Forall (fun kv => signal_values (s_signal (snd kv)) = v) signals ->
  Exists (fun kv => is_Some (strategy_weights (fst kv)) /\
                    0 < clean_confidence (s_confidence (snd kv))) signals ->
  final_score signals == v.
Proof.
  intros Hall Hsome. unfold final_score.
  pose proof (accumulate_unanimous v signals Hall 0 0 ltac:(ring)) as E.
  pose proof (accumulate_total_pos signals Hsome 0 0) as Hpos.
  destruct (accumulate signals 0 0) as [ws tc]. simpl in *.
  assert (Eb : Qlt_bool 0 tc = true) by (by apply Qlt_bool_iff).
  rewrite Eb, E. field. lra.
Qed.

(** X22.  A unanimous ensemble: when every sub-strategy reports "bullish"
    and at least one recognised strategy has a positive confidence, the
    combined signal is "bullish" with confidence 1, whatever the individual
    confidences; likewise "bearish" for a unanimous "bearish". *)
Theorem unanimous_ensemble {M} (signals : list (string * StrategySignal M)) :
  Exists (fun kv => is_Some (strategy_weights (fst kv)) /\
                    0 < clean_confidence (s_confidence (snd kv))) signals ->
  let r := _weighted_signal_combination signals in
  (Forall (fun kv => s_signal (snd kv) = "bullish") signals ->
   c_signal r = "bullish" /\ c_confidence r == 1) /\
  (Forall (fun kv => s_signal (snd kv) = "bearish") signals ->
   c_signal r = "bearish" /\ c_confidence r == 1).
Proof.
  intros Hsome r. subst r. unfold _weighted_signal_combination.
  cbn [c_signal c_confidence]. split; intros Hall.
  - assert (E : final_score signals == 1).
    { apply unanimous_score; [|exact Hsome].
      eapply Forall_impl; [exact Hall|]. intros kv ->. reflexivity. }
    assert (Eb : Qlt_bool 0.2 (final_score signals) = true)
      by (apply Qlt_bool_iff; lra).
    rewrite Eb. split; [reflexivity|].
    assert (Ea : Qabs (final_score signals) == 1)
      by (rewrite Qabs_pos; lra).
    set (a := Qabs (final_score signals)) in *.
    destruct (py_min_cases a 1) as [[? ->]|[? ->]];
      [destruct (py_max_cases 0 1) as [[? ->]|[? ->]]
      |destruct (py_max_cases 0 a) as [[? ->]|[? ->]]]; lra.
  - assert (E : final_score signals == -1).
    { apply unanimous_score; [|exact Hsome].
      eapply Forall_impl; [exact Hall|]. intros kv ->. reflexivity. }
    assert (Eb : Qlt_bool 0.2 (final_score signals) = false)
      by (apply Qlt_bool_false; lra).
    assert (Eb' : Qlt_bool (final_score signals) (-0.2) = true)
      by (apply Qlt_bool_iff; lra).
    rewrite Eb, Eb'. split; [reflexivity|].
    assert (Ea : Qabs (final_score signals) == 1)
      by (rewrite Qabs_neg; lra).
    set (a := Qabs (final_score signals)) in *.
    destruct (py_min_cases a 1) as [[? ->]|[? ->]];
      [destruct (py_max_cases 0 1) as [[? ->]|[? ->]]
      |destruct (py_max_cases 0 a) as [[? ->]|[? ->]]]; lra.
Qed.

Lemma unanimous_ensemble_witness :
  c_signal
    (_weighted_signal_combination
       (TechnicalAnalystSpec.five_signals
          (mkStrategy "bearish" (Finite 0.1) tt)
          (mkStrategy "bearish" (Finite 0.9) tt)
          (mkStrategy "bearish" NonFinite tt)
          (mkStrategy "bearish" (Finite 0) tt)
          (mkStrategy "bearish" (Finite 0.4) tt))) = "bearish".
Proof.
  refine (proj1 (proj2 (unanimous_ensemble _ _) _)).
  - apply Exists_cons_hd. split; [by eexists|]. vm_compute. reflexivity.
  - unfold TechnicalAnalystSpec.five_signals.
    repeat (constructor; [reflexivity|]). constructor.
Defined.

(** X23.  Signals filed under a name that is not one of the five weighted
    strategies have no influence on the combination. *)
Theorem unknown_strategies_ignored {M}
    (signals : list (string * StrategySignal M)) :
  _weighted_signal_combination
    (List.filter (fun kv => bool_decide (is_Some (strategy_weights (fst kv))))
       signals)
  = _weighted_signal_combination signals.
Proof.
  assert (E : forall ws tc,
            accumulate
              (List.filter
                 (fun kv => bool_decide (is_Some (strategy_weights (fst kv))))
                 signals) ws tc
            = accumulate signals ws tc).
  { induction signals as [|[strategy sig] rest IH]; intros ws tc; simpl;
      [reflexivity|].
    destruct (strategy_weights strategy) as [weight|] eqn:Ew.
    - rewrite bool_decide_eq_true_2 by (by eexists). simpl.
      rewrite Ew. apply IH.
    - rewrite bool_decide_eq_false_2 by (by intros [? ?]). apply IH. }
  unfold _weighted_signal_combination, final_score. by rewrite E.
Qed.

End TechnicalAnalystMoreSpec.

(** ** The portfolio metrics of the service *)

Module AgentServiceSpec.
Import AgentService.







Definition sample_prices : gmap string Q :=
  <["BTC" := 30000]> (<["ETH" := 2000]> ∅).


(** X25.  A portfolio whose total value (cash plus longs minus shorts) is not
    positive is reported with a cash percentage of 0, a largest position of 0
    and a risk score of 0, the best possible one, and its diversification
    score is not reduced for concentration. *)
Theorem worthless_portfolio_scores (cash : Q)
    (positions : list (string * Holding)) (current_prices : gmap string Q) :
  let m := calculate_portfolio_metrics cash positions current_prices in
  total_value m <= 0 ->
  cash_pct m = 0 /\ largest_position_pct m = 0 /\ risk_score m == 0 /\
  diversification_score m = base_diversification (positions_count m).
Proof.
  intros m. subst m. unfold calculate_portfolio_metrics.
  cbn [risk_score diversification_score largest_position_pct positions_count
       total_value cash_pct].
  set (e := fold_left _ positions _).
  intros Ht.
  assert (Eb : Qlt_bool 0 (cash + e_long e - e_short e) = false)
    by (by apply Qlt_bool_false).
  rewrite Eb.
  assert (El : match position_values e with
               | [] => 0
               | _ :: _ => 0
               end = 0) by (by destruct (position_values e)).
  rewrite El. split; [reflexivity|]. split; [reflexivity|].
  split; [vm_compute; reflexivity|]. reflexivity.
Qed.

Lemma worthless_portfolio_scores_witness :
  risk_score
    (calculate_portfolio_metrics 1000 [("BTC", mkHolding 0 1)] sample_prices)
  == 0.
Proof.
  refine (proj1 (proj2 (proj2
    (worthless_portfolio_scores 1000 [("BTC", mkHolding 0 1)] sample_prices
       _)))).
  vm_compute. discriminate.
Defined.

End AgentServiceSpec.

(** ** The mock broker *)

Module MockBrokerSpec.
Import MockBroker.

Ltac zbool :=
  repeat match goal with
  | H : (_ && _) = true |- _ => apply andb_true_iff in H as [? ?]
  | H : (_ <=? _)%Z = true |- _ => apply Z.leb_le in H
  | H : (_ <=? _)%Z = false |- _ => apply Z.leb_gt in H
  | H : (_ <? _)%Z = true |- _ => apply Z.ltb_lt in H
  | H : (_ <? _)%Z = false |- _ => apply Z.ltb_ge in H
  | H : (_ =? _)%Z = true |- _ => apply Z.eqb_eq in H
  | H : (_ =? _)%Z = false |- _ => apply Z.eqb_neq in H
  | H : (_ =? _)%string = true |- _ => apply String.eqb_eq in H
  | H : (_ =? _)%string = false |- _ => apply String.eqb_neq in H
  end.

(** A stored position holds a positive quantity, long or short. *)
Definition held_position (position : Position) : Prop :=
  (0 < quantity position)%Z /\
  (direction position = "long" \/ direction position = "short").

Definition well_formed (self : Broker) : Prop :=
  map_Forall (fun _ position => held_position position) (positions self).

Lemma sell_long_facts position cash quantity price :
  (0 < quantity)%Z -> (0 < MockBroker.quantity position)%Z ->
  direction position = "long" ->
  let r := sell_long position cash quantity price in
  (0 <= MockBroker.quantity (fst r))%Z /\
  (direction (fst r) = "long" \/ direction (fst r) = "short").
Proof.
  intros Hq Hheld Hdir. unfold sell_long.
  destruct (quantity <=? MockBroker.quantity position)%Z eqn:E; zbool;
    cbn [fst reduce set_fields MockBroker.quantity direction];
    (split; [lia|auto]).
Qed.

Lemma cover_short_facts position cash quantity price :
  (0 < quantity)%Z -> (0 < MockBroker.quantity position)%Z ->
  direction position = "short" ->
  let r := cover_short position cash quantity price in
  (0 <= MockBroker.quantity (fst r))%Z /\
  (direction (fst r) = "long" \/ direction (fst r) = "short").
Proof.
  intros Hq Hheld Hdir. unfold cover_short.
  destruct (quantity <=? MockBroker.quantity position)%Z eqn:E; zbool;
    cbn [fst reduce set_fields MockBroker.quantity direction];
    (split; [lia|auto]).
Qed.

Lemma apply_order_facts position cash direction quantity price :
  (0 < quantity)%Z -> (0 <= MockBroker.quantity position)%Z ->
  MockBroker.direction position = "long"
  \/ MockBroker.direction position = "short" ->
  exists position' cash',
    apply_order position cash direction quantity price
    = Some (position', cash') /\
    (0 <= MockBroker.quantity position')%Z /\
    (MockBroker.quantity position' = 0%Z
     \/ MockBroker.direction position' = "long"
     \/ MockBroker.direction position' = "short").
Proof.
  intros Hq Hheld Hdir. unfold apply_order.
  destruct (direction =? "buy")%string.
  { destruct ((MockBroker.direction position =? "short")%string
              && (0 <? MockBroker.quantity position)%Z) eqn:E1; zbool.
    - destruct (cover_short_facts position cash quantity price) as [H1 H2];
        try done.
      destruct (cover_short position cash quantity price) as [p c].
      exists p, c. auto.
    - destruct (0 <? MockBroker.quantity position)%Z eqn:E2; zbool.
      + destruct (MockBroker.quantity position + quantity =? 0)%Z eqn:E3;
          zbool; [lia|].
        eexists _, _. split; [reflexivity|].
        cbn [set_fields MockBroker.quantity MockBroker.direction].
        split; [lia|auto].
      + eexists _, _. split; [reflexivity|].
        cbn [set_fields MockBroker.quantity MockBroker.direction].
        split; [lia|auto]. }
  destruct (direction =? "sell")%string.
  { destruct ((MockBroker.direction position =? "long")%string
              && (0 <? MockBroker.quantity position)%Z) eqn:E1; zbool.
    - destruct (sell_long_facts position cash quantity price) as [H1 H2];
        try done.
      destruct (sell_long position cash quantity price) as [p c].
      exists p, c. auto.
    - eexists _, _. split; [reflexivity|]. split; [lia|auto]. }
  destruct (direction =? "short")%string.
  { destruct ((MockBroker.direction position =? "long")%string
              && (0 <? MockBroker.quantity position)%Z) eqn:E1; zbool.
    - destruct (sell_long_facts position cash quantity price) as [H1 H2];
        try done.
      destruct (sell_long position cash quantity price) as [p c].
      exists p, c. auto.
    - destruct (quantity <? MockBroker.quantity position + quantity)%Z
        eqn:E2; zbool.
      + destruct (MockBroker.quantity position + quantity =? 0)%Z eqn:E3;
          zbool; [lia|].
        eexists _, _. split; [reflexivity|].
        cbn [set_fields MockBroker.quantity MockBroker.direction].
        split; [lia|auto].
      + eexists _, _. split; [reflexivity|].
        cbn [set_fields MockBroker.quantity MockBroker.direction].
        split; [lia|auto]. }
  destruct (direction =? "cover")%string.
  { destruct ((MockBroker.direction position =? "short")%string
              && (0 <? MockBroker.quantity position)%Z) eqn:E1; zbool.
    - destruct (cover_short_facts position cash quantity price) as [H1 H2];
        try done.
      destruct (cover_short position cash quantity price) as [p c].
      exists p, c. auto.
    - eexists _, _. split; [reflexivity|]. split; [lia|auto]. }
  eexists _, _. split; [reflexivity|]. split; [lia|auto].
Qed.

(** X26.  The positions of the broker stay well formed: from a state where
    every stored position holds a positive quantity, long or short, an order
    for a positive quantity is applied without a division by zero and leaves
    such a state; it changes no position of another ticker, and neither the
    orders nor the stored prices. *)
Theorem orders_keep_positions_held (self : Broker) (ticker direction : string)
    (quantity : Z) (price : Q) :
  well_formed self -> (0 < quantity)%Z ->
  exists self',
    _update_positions self ticker direction quantity price = Some self' /\
    well_formed self' /\
    (forall other, other <> ticker ->
       positions self' !! other = positions self !! other) /\
    orders self' = orders self /\ ticker_prices self' = ticker_prices self /\
    connected self' = connected self.
Proof.
  intros Hwf Hq. unfold _update_positions.
  set (position := match positions self !! ticker with
                   | Some position => position
                   | None => mkPosition ticker "long" 0 0 price 0 0
                   end).
  assert (Hpos : (0 <= MockBroker.quantity position)%Z /\
                 (MockBroker.direction position = "long"
                  \/ MockBroker.direction position = "short")).
  { unfold position. destruct (positions self !! ticker) as [p|] eqn:El.
    - destruct (Hwf ticker p El) as [H1 H2]. split; [lia|exact H2].
    - simpl. split; [lia|by left]. }
  destruct Hpos as [Hheld Hdir].
  destruct (apply_order_facts position (cash self) direction quantity price
              Hq Hheld Hdir) as (position' & cash' & -> & Hq' & Hdir').
  eexists. split; [reflexivity|].
  cbn [positions orders ticker_prices connected].
  split; [|split; [|done]].
  - unfold well_formed. cbn [positions].
    destruct (MockBroker.quantity position' =? 0)%Z eqn:E0; zbool.
    + rewrite delete_insert_eq. by apply map_Forall_delete.
    + apply map_Forall_insert_2; [|exact Hwf].
      split; [lia|]. destruct Hdir' as [?|?]; [lia|done].
  - intros other Hne.
    destruct (MockBroker.quantity position' =? 0)%Z;
      rewrite ?lookup_delete_ne by done; by rewrite lookup_insert_ne.
Qed.

Lemma orders_keep_positions_held_witness :
  exists self',
    _update_positions init "AAPL" "buy" 10 150 = Some self' /\
    well_formed self'.
Proof.
  destruct (orders_keep_positions_held init "AAPL" "buy" 10 150)
    as (self' & H & Hwf & _); [apply map_Forall_empty|lia|].
  exists self'. by split.
Defined.

(** X27.  Round trips of the broker on a ticker without position, for a
    positive quantity: a buy at [p1] followed by a sell at [p2] removes the
    position again and changes the cash by [quantity * (p2 - p1)]; a short at
    [p1] followed by a cover at [p2] removes the position again but changes
    the cash by only half of [quantity * (p1 - p2)], because the margin
    released by the cover is taken at the cover price. *)
Theorem broker_round_trips (self : Broker) (ticker : string) (quantity : Z)
    (p1 p2 : Q) :
  positions self !! ticker = None -> (0 < quantity)%Z ->
  (exists s1 s2,
     _update_positions self ticker "buy" quantity p1 = Some s1 /\
     _update_positions s1 ticker "sell" quantity p2 = Some s2 /\
     positions s2 = positions self /\
     cash s2 == cash self + inject_Z quantity * (p2 - p1)) /\
  (exists s1 s2,
     _update_positions self ticker "short" quantity p1 = Some s1 /\
     _update_positions s1 ticker "cover" quantity p2 = Some s2 /\
     positions s2 = positions self /\
     cash s2 == cash self + inject_Z quantity * (p1 - p2) * 0.5).
Proof.
  intros Hnone Hq.
  assert (E0 : (quantity =? 0)%Z = false) by (apply Z.eqb_neq; lia).
  assert (Epos : (0 <? quantity)%Z = true) by (apply Z.ltb_lt; lia).
  assert (Ele : (quantity <=? quantity)%Z = true) by apply Z.leb_refl.
  assert (Elt : (quantity <? 0 + quantity)%Z = false)
    by (apply Z.ltb_ge; lia).
  split.
  - eexists _, _. split.
    { unfold _update_positions. rewrite Hnone.
      cbn [apply_order String.eqb Ascii.eqb Bool.eqb MockBroker.quantity
           MockBroker.direction andb Z.ltb Z.compare set_fields].
      rewrite E0. reflexivity. }
    unfold _update_positions. cbn [positions cash]. rewrite lookup_insert_eq.
    cbn [apply_order String.eqb Ascii.eqb Bool.eqb MockBroker.quantity
         MockBroker.direction andb set_fields].
    rewrite Epos. unfold sell_long, reduce.
    cbn [MockBroker.quantity set_fields]. rewrite Ele, Z.sub_diag.
    cbn [Z.eqb MockBroker.quantity set_fields positions cash].
    split; [reflexivity|]. cbn [positions cash].
    split; [by rewrite !delete_insert_eq, delete_id|]. ring.
  - eexists _, _. split.
    { unfold _update_positions. rewrite Hnone.
      cbn [apply_order String.eqb Ascii.eqb Bool.eqb MockBroker.quantity
           MockBroker.direction andb Z.ltb Z.compare set_fields].
      rewrite Elt. cbn [MockBroker.quantity set_fields].
      rewrite Z.add_0_l, E0. reflexivity. }
    unfold _update_positions. cbn [positions cash]. rewrite lookup_insert_eq.
    cbn [apply_order String.eqb Ascii.eqb Bool.eqb MockBroker.quantity
         MockBroker.direction andb set_fields].
    rewrite Epos. unfold cover_short, reduce.
    cbn [MockBroker.quantity set_fields]. rewrite Ele, Z.sub_diag.
    cbn [Z.eqb MockBroker.quantity set_fields positions cash].
    split; [reflexivity|]. cbn [positions cash].
    split; [by rewrite !delete_insert_eq, delete_id|]. ring.
Qed.

Lemma broker_round_trips_witness :
  exists s1 s2,
    _update_positions init "AAPL" "short" 10 150 = Some s1 /\
    _update_positions s1 "AAPL" "cover" 10 140 = Some s2 /\
    positions s2 = positions init /\
    cash s2 == cash init + inject_Z 10 * (150 - 140) * 0.5.
Proof.
  apply (proj2 (broker_round_trips init "AAPL" 10 150 140 eq_refl eq_refl)).
Defined.

Lemma update_ignores_orders (c : bool) (ca : Q) (ps : gmap string Position)
    (os os' : gmap string OrderStatus) (tp : gmap string Q)
    (ticker direction : string) (quantity : Z) (price : Q) :
  _update_positions (mkBroker c ca ps os' tp) ticker direction quantity price
  = (fun s => mkBroker (connected s) (cash s) (positions s) os'
                (ticker_prices s))
    <$> _update_positions (mkBroker c ca ps os tp) ticker direction quantity
          price.
Proof.
  unfold _update_positions. cbn [positions cash connected ticker_prices].
  destruct (apply_order _ _ _ _ _) as [[position cash']|]; reflexivity.
Qed.

Ltac forget_orders :=
  repeat match goal with
  | |- context [_update_positions
                  (mkBroker ?c ?ca ?ps (<[?k := ?o]> ?os) ?tp)] =>
    rewrite (update_ignores_orders c ca ps os (<[k := o]> os) tp)
  end.

(** X28.  [close_position] raises when the broker is not connected, when the
    ticker has no position, and when the position has another direction.
    Otherwise, for a stored long or short position of positive quantity, it
    records a filled order for the whole quantity at the stored price and
    removes the position; the cash grows by the proceeds for a long and falls
    by half the cost for a short. *)
Theorem close_position_closes (self : Broker) (order_id timestamp : string)
    (ticker direction : string) :
  (connected self = false ->
   close_position self order_id timestamp ticker direction
   = Raised "Not connected. Call connect() first.") /\
  (connected self = true -> positions self !! ticker = None ->
   close_position self order_id timestamp ticker direction
   = Raised ("No position for " ++ ticker)) /\
  (forall position,
     connected self = true -> positions self !! ticker = Some position ->
     MockBroker.direction position <> direction ->
     close_position self order_id timestamp ticker direction
     = Raised ("No " ++ direction ++ " position for " ++ ticker)) /\
  (forall position,
     connected self = true -> positions self !! ticker = Some position ->
     MockBroker.direction position = direction ->
     direction = "long" \/ direction = "short" ->
     (0 < quantity position)%Z ->
     exists self' order,
       close_position self order_id timestamp ticker direction
       = Returned self' order /\
       positions self' = delete ticker (positions self) /\
       orders self' !! order_id = Some order /\
       o_quantity order = quantity position /\ o_status order = "filled" /\
       o_price order = _get_current_price self ticker /\
       cash self'
       == cash self
          + (if (direction =? "long")%string then 1 else - (1 # 2))
            * (_get_current_price self ticker
               * inject_Z (quantity position))).
Proof.
  destruct self as [c ca ps os tp]. unfold close_position.
  cbn [connected positions]. split; [by intros ->|].
  split; [by intros -> ->|]. split.
  { intros position -> -> Hne. apply String.eqb_neq in Hne. by rewrite Hne. }
  intros position -> Hlook Hdir Hwhich Hq. rewrite Hlook.
  assert (Ed : (MockBroker.direction position =? direction)%string = true)
    by (by apply String.eqb_eq).
  rewrite Ed. cbn [negb]. unfold place_order. cbn [negb connected cash
    positions orders ticker_prices].
  forget_orders.
  assert (Epos : (0 <? quantity position)%Z = true) by (by apply Z.ltb_lt).
  assert (Ele : (quantity position <=? quantity position)%Z = true)
    by apply Z.leb_refl.
  unfold _update_positions. cbn [positions cash connected ticker_prices orders].
  rewrite Hlook.
  destruct Hwhich as [->| ->];
    cbn [apply_order String.eqb Ascii.eqb Bool.eqb andb];
    rewrite Hdir; cbn [String.eqb Ascii.eqb Bool.eqb andb]; rewrite Epos;
    [unfold sell_long|unfold cover_short]; unfold reduce; rewrite Ele;
    rewrite Z.sub_diag;
    cbn [Z.eqb MockBroker.quantity set_fields fmap option_fmap option_map
         positions cash orders connected ticker_prices];
    eexists _, _; (split; [reflexivity|]);
    cbn [positions cash orders o_quantity o_status o_price];
    (split; [by rewrite delete_insert_eq|]);
    (split; [apply lookup_insert_eq|]);
    (split; [reflexivity|]); (split; [reflexivity|]);
    (split; [reflexivity|]); ring.
Qed.

Definition long_account : Broker :=
  mkBroker true 85000
    (<["AAPL" := mkPosition "AAPL" "long" 100 150 150 0 0]> ∅) ∅
    (<["AAPL" := 160]> ∅).

Lemma close_position_closes_witness :
  exists self' order,
    close_position long_account "order-1" "2024-01-02" "AAPL" "long"
    = Returned self' order /\
    positions self' = delete "AAPL" (positions long_account) /\
    cash self' == 101000.
Proof.
  destruct (proj2 (proj2 (proj2
    (close_position_closes long_account "order-1" "2024-01-02" "AAPL"
       "long"))) (mkPosition "AAPL" "long" 100 150 150 0 0))
    as (self' & order & H & Hp & _ & _ & _ & _ & Hc);
    [reflexivity|reflexivity|reflexivity|by left|reflexivity|].
  exists self', order. split; [exact H|]. split; [exact Hp|].
  rewrite Hc. vm_compute. reflexivity.
Defined.

(** X29.  An order is always filled at the stored price of the ticker: the
    order type, the limit price and the stop price change neither the cash
    nor the positions that [place_order] leaves, nor whether it raises; a
    limit price other than 0 is only recorded as the price of the order. *)
Theorem limit_price_is_only_recorded (self : Broker)
    (order_id timestamp : string) (ticker direction : string) (quantity : Z)
    (order_type : string) (limit_price stop_price : option Q) :
  match place_order self order_id timestamp ticker direction quantity
          order_type limit_price stop_price,
        place_order self order_id timestamp ticker direction quantity
          "market" None None with
  | Returned s1 o1, Returned s2 o2 =>
    cash s1 = cash s2 /\ positions s1 = positions s2 /\
    o_price o2 = _get_current_price self ticker /\
    o_price o1
    = match limit_price with
      | Some limit =>
        if Qeq_bool limit 0 then _get_current_price self ticker else limit
      | None => _get_current_price self ticker
      end
  | Raised m1, Raised m2 => m1 = m2
  | _, _ => False
  end.
Proof.
  destruct self as [c ca ps os tp]. unfold place_order.
  cbn [connected cash positions orders ticker_prices].
  destruct c; cbn [negb]; [|reflexivity]. forget_orders.
  destruct (_update_positions (mkBroker true ca ps os tp) ticker direction
              quantity (_get_current_price (mkBroker true ca ps os tp) ticker))
    as [s|]; cbn [fmap option_fmap option_map]; [|reflexivity].
  cbn [cash positions o_price]. by repeat split.
Qed.

(** X30.  A sell without a long position, or a cover without a short one, is
    recorded as a filled order although nothing is traded: in a well-formed
    state the cash and the positions are unchanged. *)
Theorem unmatched_order_is_filled (self : Broker)
    (order_id timestamp : string) (ticker direction : string) (quantity : Z)
    (order_type : string) (limit_price stop_price : option Q) :
  connected self = true -> well_formed self ->
  (direction = "sell" /\
   forall position, positions self !! ticker = Some position ->
                    MockBroker.direction position <> "long") \/
  (direction = "cover" /\
   forall position, positions self !! ticker = Some position ->
                    MockBroker.direction position <> "short") ->
  exists self' order,
    place_order self order_id timestamp ticker direction quantity order_type
      limit_price stop_price = Returned self' order /\
    o_status order = "filled" /\ o_quantity order = quantity /\
    orders self' !! order_id = Some order /\
    cash self' = cash self /\ positions self' = positions self.
Proof.
  destruct self as [c ca ps os tp]. unfold well_formed.
  cbn [connected cash positions orders ticker_prices].
  intros -> Hwf Hcase. unfold place_order.
  cbn [negb connected cash positions orders ticker_prices]. forget_orders.
  set (price := _get_current_price _ ticker).
  assert (E : _update_positions (mkBroker true ca ps os tp) ticker direction
                quantity price
              = Some (mkBroker true ca ps os tp)).
  { unfold _update_positions.
    cbn [connected cash positions orders ticker_prices].
    destruct (ps !! ticker) as [position|] eqn:Hlook.
    - destruct (Hwf ticker position Hlook) as [Hq _].
      assert (E0 : (MockBroker.quantity position =? 0)%Z = false)
        by (apply Z.eqb_neq; lia).
      destruct Hcase as [[-> Hdir]|[-> Hdir]];
        specialize (Hdir position eq_refl); apply String.eqb_neq in Hdir;
        cbn [apply_order String.eqb Ascii.eqb Bool.eqb andb];
        rewrite Hdir; cbn [andb]; rewrite E0; by rewrite insert_id.
    - destruct Hcase as [[-> _]|[-> _]];
        cbn [apply_order String.eqb Ascii.eqb Bool.eqb andb
             MockBroker.direction MockBroker.quantity Z.ltb Z.compare Z.eqb];
        by rewrite delete_insert_id. }
  rewrite E. cbn [fmap option_fmap option_map].
  eexists _, _. split; [reflexivity|].
  cbn [o_status o_quantity orders cash positions].
  split; [reflexivity|]. split; [reflexivity|].
  split; [apply lookup_insert_eq|]. by split.
Qed.

Definition short_account : Broker :=
  mkBroker true 107500
    (<["TSLA" := mkPosition "TSLA" "short" 100 150 150 0 0]> ∅) ∅ ∅.

Lemma unmatched_order_is_filled_witness :
  exists self' order,
    place_order short_account "order-2" "2024-01-03" "TSLA" "sell" 50
      "market" None None = Returned self' order /\
    o_status order = "filled" /\ cash self' = cash short_account.
Proof.
  destruct (unmatched_order_is_filled short_account "order-2" "2024-01-03"
              "TSLA" "sell" 50 "market" None None)
    as (self' & order & H & Hs & _ & _ & Hcash & _).
  - reflexivity.
  - apply map_Forall_insert_2; [|apply map_Forall_empty].
    split; [reflexivity|by right].
  - left. split; [reflexivity|]. intros position Hlook.
    unfold short_account in Hlook. cbn [positions] in Hlook.
    rewrite lookup_insert_eq in Hlook. injection Hlook as <-. discriminate.
  - exists self', order. by repeat split.
Defined.

End MockBrokerSpec.
